(** * 3D-print error detection: server (app.py) and capture client
      (raspberry_client.py)

    A shallow embedding of the two Python programs.  Calls into external
    libraries (OpenCV, the YOLO detector, requests, the camera) are oracles
    of a [World] record; their observable effects are recorded in a trace of
    events, and Python exceptions are explicit outcomes.  The client reads
    the global names [requests], [time] and [cv2] without importing them:
    its world records what each name is bound to, if anything. *)

From Stdlib Require Import ZArith NArith List String Ascii Bool Lia.
From Stdlib Require Import DecimalString DecimalN.
From Stdlib.Strings Require Import Byte.
Import ListNotations.

Open Scope string_scope.
Open Scope list_scope.

(* ================================================================== *)
(** * Python run-time notions shared by both programs *)
(* ================================================================== *)

Module Py.

(** The exception classes the two programs tell apart.  [KeyboardInterrupt]
    derives from [BaseException] only, so [except Exception] lets it pass;
    [RequestException] (requests) and every other error derive from
    [Exception]. *)
Inductive ExcClass : Type :=
| KeyboardInterrupt
| RequestException
| OtherException.

Definition is_Exception (c : ExcClass) : bool :=
  match c with
  | KeyboardInterrupt => false
  | RequestException | OtherException => true
  end.

Definition is_KeyboardInterrupt (c : ExcClass) : bool :=
  match c with
  | KeyboardInterrupt => true
  | _ => false
  end.

Definition is_RequestException (c : ExcClass) : bool :=
  match c with
  | RequestException => true
  | _ => false
  end.

(** An exception value: its class and [str(e)]. *)
Record PyExc : Type := mkExc { exc_class : ExcClass; exc_str : string }.

Inductive Outcome (A : Type) : Type :=
| Returns (a : A)
| Raises (e : PyExc).
Arguments Returns {A} a.
Arguments Raises {A} e.

(** Result of a library call that can fail only with an ordinary exception
    (a subclass of [Exception]); [Fail] carries the exception text. *)
Inductive LibResult (A : Type) : Type :=
| Ok (a : A)
| Fail (msg : string).
Arguments Ok {A} a.
Arguments Fail {A} msg.

Definition outcome_of_lib {A : Type} (r : LibResult A) : Outcome A :=
  match r with
  | Ok a => Returns a
  | Fail msg => Raises (mkExc OtherException msg)
  end.

(** Computations: the events performed so far, and how the computation
    ended.  [E] is the type of events. *)
Definition M (E A : Type) : Type := (list E * Outcome A)%type.

Definition trace {E A : Type} (m : M E A) : list E := fst m.
Definition outcome {E A : Type} (m : M E A) : Outcome A := snd m.

Definition ret {E A : Type} (a : A) : M E A := ([], Returns a).

Definition raise {E A : Type} (e : PyExc) : M E A := ([], Raises e).

Definition emit {E : Type} (ev : E) : M E unit := ([ev], Returns tt).

Definition bind {E A B : Type} (m : M E A) (k : A -> M E B) : M E B :=
  match m with
  | (t, Returns a) => let '(t', r) := k a in (t ++ t', r)
  | (t, Raises e) => (t, Raises e)
  end.

(** [try: m  except <classes accepted by handles> as e: h e] *)
Definition try_except {E A : Type} (handles : ExcClass -> bool)
    (m : M E A) (h : PyExc -> M E A) : M E A :=
  match m with
  | (t, Raises e) =>
      if handles (exc_class e)
      then let '(t', r) := h e in (t ++ t', r)
      else (t, Raises e)
  | (t, Returns a) => (t, Returns a)
  end.

(** [try: m  finally: f]: [f] always runs; an exception of [f] replaces the
    outcome of [m]. *)
Definition try_finally {E A : Type} (m : M E A) (f : M E unit) : M E A :=
  match m, f with
  | (t, r), (t', Returns _) => (t ++ t', r)
  | (t, _), (t', Raises e) => (t ++ t', Raises e)
  end.

(** A library call, recorded as the event [ev]. *)
Definition lib {E A : Type} (ev : E) (r : LibResult A) : M E A :=
  ([ev], outcome_of_lib r).

(** An interruptible call of the outside world, recorded as [ev]. *)
Definition call {E A : Type} (ev : E) (r : Outcome A) : M E A := ([ev], r).

Declare Scope py_scope.
Delimit Scope py_scope with py.
Notation "x <- m ;; k" := (bind m (fun x => k))
  (at level 61, m at next level, right associativity) : py_scope.
Notation "' p <- m ;; k" := (bind m (fun x => let p := x in k))
  (at level 61, p pattern, m at next level, right associativity) : py_scope.
Notation "m ;;; k" := (bind m (fun _ => k))
  (at level 61, right associativity) : py_scope.

(** ** Strings *)

Definition nl : string := String "010" EmptyString.

(** [str.lower] on one character.  Strings are sequences of bytes (UTF-8):
    the ASCII capitals are mapped to small letters and every other byte is
    kept.  For the comparison with an all-ASCII word this agrees with
    Python's Unicode [str.lower]: no character outside ASCII lowers to one
    of the letters of that word. *)
Definition lower_char (c : ascii) : ascii :=
  let n := N_of_ascii c in
  if ((65 <=? n) && (n <=? 90))%N then ascii_of_N (n + 32) else c.

Fixpoint str_lower (s : string) : string :=
  match s with
  | EmptyString => EmptyString
  | String c s' => String (lower_char c) (str_lower s')
  end.

(** [c in s] for a one-character string [c]. *)
Fixpoint str_contains (c : ascii) (s : string) : bool :=
  match s with
  | EmptyString => false
  | String a s' => Ascii.eqb a c || str_contains c s'
  end.

(** [s.split(sep)] for a one-character separator. *)
Fixpoint str_split (sep : ascii) (s : string) : list string :=
  match s with
  | EmptyString => [EmptyString]
  | String c s' =>
      if Ascii.eqb c sep then EmptyString :: str_split sep s'
      else match str_split sep s' with
           | [] => [String c EmptyString]
           | p :: ps => String c p :: ps
           end
  end.

(** [l[i]]: raises IndexError out of range. *)
Definition list_index {A : Type} (l : list A) (i : nat) : LibResult A :=
  match nth_error l i with
  | Some a => Ok a
  | None => Fail "list index out of range"
  end.

(** [str(n)] for a natural number. *)
Definition str_N (n : N) : string := NilZero.string_of_uint (N.to_uint n).

Definition digit (d : N) : ascii := ascii_of_N (48 + d).

(** ** Floats

    A finite binary floating-point number: [(-1)^f_neg * f_man * 2^f_exp].
    Every finite double is of this form, [-0.0] included.  Detector outputs
    are finite; infinities and NaN are outside the model. *)
Record pyfloat : Type := mkFloat { f_neg : bool; f_man : N; f_exp : Z }.

(** The magnitude as an exact fraction [(numerator, denominator)]. *)
Definition ratio (x : pyfloat) : N * N :=
  if (0 <=? f_exp x)%Z
  then ((f_man x * 2 ^ Z.to_N (f_exp x))%N, 1%N)
  else (f_man x, (2 ^ Z.to_N (- f_exp x))%N).

(** Nearest integer to [n / d], ties to the even one. *)
Definition round_half_even (n d : N) : N :=
  let q := (n / d)%N in
  let r := (n mod d)%N in
  if ((d <? 2 * r) || ((2 * r =? d) && N.odd q))%N then (q + 1)%N else q.

(** The last [p] decimal digits of [v], most significant first. *)
Fixpoint frac_digits (p : nat) (v : N) : string :=
  match p with
  | O => EmptyString
  | S p' => String (digit ((v / 10 ^ N.of_nat p') mod 10)) (frac_digits p' v)
  end.

(** The magnitude scaled by [10^p] and correctly rounded: what the digits
    of [format(x, '.pf')] denote. *)
Definition scaled_round (p : nat) (x : pyfloat) : N :=
  let '(n, d) := ratio x in round_half_even (n * 10 ^ N.of_nat p) d.

(** [f"{x:.pf}"]: fixed-point notation with [p] digits after the point,
    correctly rounded (ties to even); the sign is that of [x] itself. *)
Definition format_f (p : nat) (x : pyfloat) : string :=
  let v := scaled_round p x in
  (if f_neg x then "-" else "")
  ++ str_N (v / 10 ^ N.of_nat p)
  ++ match p with
     | O => ""
     | S _ => "." ++ frac_digits p v
     end.

(** [int(x)]: truncation toward zero. *)
Definition int_of_float (x : pyfloat) : Z :=
  let '(n, d) := ratio x in
  let q := Z.of_N (n / d) in
  if f_neg x then (- q)%Z else q.

End Py.

(* ================================================================== *)
(** * The [base64] module of the Python library (CPython's binascii) *)
(* ================================================================== *)

Module Base64.
Import Py.

Definition bytes : Type := list byte.

Definition table_b2a_base64 : string :=
  "ABCDEFGHIJKLMNOPQRSTUVWXYZabcdefghijklmnopqrstuvwxyz0123456789+/".

Definition BASE64_PAD : ascii := "="%char.

(** The character of a 6-bit value. *)
Definition b2a (n : N) : ascii :=
  match String.get (N.to_nat n) table_b2a_base64 with
  | Some c => c
  | None => BASE64_PAD
  end.

Fixpoint index_from (c : ascii) (s : string) (i : N) : option N :=
  match s with
  | EmptyString => None
  | String a s' => if Ascii.eqb a c then Some i else index_from c s' (i + 1)
  end.

(** [table_a2b_base64]: the 6-bit value of a character of the alphabet,
    [None] for every other character. *)
Definition a2b (c : ascii) : option N := index_from c table_b2a_base64 0.

(** Storing into an [unsigned char]. *)
Definition byte_of_N (n : N) : byte :=
  match Byte.of_N (n mod 256) with
  | Some b => b
  | None => x00
  end.

(** [binascii.b2a_base64(data, newline=False)], as [base64.b64encode] calls
    it: three bytes give four characters, the tail is padded with [=]. *)
Fixpoint b64encode (data : bytes) : string :=
  match data with
  | [] => EmptyString
  | [a] =>
      let a := Byte.to_N a in
      String (b2a (N.shiftr a 2))
        (String (b2a (N.shiftl (N.land a 3) 4))
           (String BASE64_PAD (String BASE64_PAD EmptyString)))
  | [a; b] =>
      let a := Byte.to_N a in
      let b := Byte.to_N b in
      String (b2a (N.shiftr a 2))
        (String (b2a (N.lor (N.shiftl (N.land a 3) 4) (N.shiftr b 4)))
           (String (b2a (N.shiftl (N.land b 15) 2))
              (String BASE64_PAD EmptyString)))
  | a :: b :: c :: rest =>
      let a := Byte.to_N a in
      let b := Byte.to_N b in
      let c := Byte.to_N c in
      String (b2a (N.shiftr a 2))
        (String (b2a (N.lor (N.shiftl (N.land a 3) 4) (N.shiftr b 4)))
           (String (b2a (N.lor (N.shiftl (N.land b 15) 2) (N.shiftr c 6)))
              (String (b2a (N.land c 63)) (b64encode rest))))
  end.

(** The loop of [binascii.a2b_base64] in its default, non-strict mode.
    [quad_pos] is the position inside the current group of four characters,
    [leftchar] the bits not yet written, [pads] the padding characters seen
    since the last data character, [out] the bytes written.  Characters
    outside the alphabet are skipped; a complete padding ends the decoding
    whatever follows. *)
Fixpoint a2b_base64_loop (cs : string) (quad_pos leftchar pads : N)
    (out : bytes) : LibResult bytes :=
  match cs with
  | EmptyString =>
      if (quad_pos =? 0)%N then Ok out
      else if (quad_pos =? 1)%N then
        Fail ("Invalid base64-encoded string: number of data characters ("
              ++ str_N (N.of_nat (List.length out) / 3 * 4 + 1)
              ++ ") cannot be 1 more than a multiple of 4")
      else Fail "Incorrect padding"
  | String this_ch cs' =>
      if Ascii.eqb this_ch BASE64_PAD then
        if (2 <=? quad_pos)%N then
          if (4 <=? quad_pos + (pads + 1))%N then Ok out
          else a2b_base64_loop cs' quad_pos leftchar (pads + 1) out
        else a2b_base64_loop cs' quad_pos leftchar pads out
      else
        match a2b this_ch with
        | None => a2b_base64_loop cs' quad_pos leftchar pads out
        | Some d =>
            if (quad_pos =? 0)%N then
              a2b_base64_loop cs' 1 d 0 out
            else if (quad_pos =? 1)%N then
              a2b_base64_loop cs' 2 (N.land d 15) 0
                (out ++ [byte_of_N (N.lor (N.shiftl leftchar 2) (N.shiftr d 4))])
            else if (quad_pos =? 2)%N then
              a2b_base64_loop cs' 3 (N.land d 3) 0
                (out ++ [byte_of_N (N.lor (N.shiftl leftchar 4) (N.shiftr d 2))])
            else
              a2b_base64_loop cs' 0 0 0
                (out ++ [byte_of_N (N.lor (N.shiftl leftchar 6) d)])
        end
  end.

Definition a2b_base64 (s : string) : LibResult bytes :=
  a2b_base64_loop s 0 0 0 [].

Fixpoint is_ascii_str (s : string) : bool :=
  match s with
  | EmptyString => true
  | String c s' => (N_of_ascii c <? 128)%N && is_ascii_str s'
  end.

(** [base64.b64decode(s)] for a [str] argument: the string is first encoded
    as ASCII (ValueError when it cannot be), then decoded leniently. *)
Definition b64decode (s : string) : LibResult bytes :=
  if is_ascii_str s then a2b_base64 s
  else Fail "string argument should contain only ASCII characters".

End Base64.

(* ================================================================== *)
(** * The server: app.py *)
(* ================================================================== *)

Module App.
Import Py.
Export Base64.
Local Open Scope py_scope.

(** A numpy array (a decoded or rendered image): its shape and its flat
    contents. *)
Record ndarray : Type := mk_ndarray { shape : list N; data : list N }.

(** One row of the data frame [results.pandas().xyxy[0]]. *)
Record Row : Type := mkRow {
  name : string;
  confidence : pyfloat;
  xmin : pyfloat;
  ymin : pyfloat;
  xmax : pyfloat;
  ymax : pyfloat
}.

Definition DataFrame : Type := list Row.

(** What the handlers read off the detector's answer: the data frame
    [results.pandas().xyxy[0]] and the annotated picture
    [np.squeeze(results.render())]. *)
Record Results : Type := mkResults {
  xyxy0 : DataFrame;
  render : LibResult ndarray
}.

(** The loaded detector, [model(image)]: a deterministic function of the
    decoded image (thresholds set by [optimize_detection_for_3d_printing]
    are part of it). *)
Definition Model : Type := ndarray -> LibResult Results.

(** The libraries and services app.py calls. *)
Record World : Type := mkWorld {
  TOKEN : string;
  CHAT_ID : string;
  (** [cv2.imdecode(np.frombuffer(b, np.uint8), cv2.IMREAD_COLOR)] *)
  cv2_imdecode : bytes -> LibResult (option ndarray);
  (** [cv2.imencode(".jpg", a)]: the pair [(is_success, buffer)] *)
  cv2_imencode : ndarray -> LibResult (bool * bytes);
  (** [requests.post(url, data={chat_id, caption, parse_mode}, files={photo})]:
      the answer's [status_code] and [text] *)
  requests_post : string -> string -> string -> bytes -> LibResult (Z * string)
}.

Inductive Level : Type := INFO | WARNING | ERROR.

(** Observable effects of the server. *)
Inductive Event : Type :=
| Log (lvl : Level) (msg : string)
| Imdecode (buf : bytes)
| Detect (image : ndarray)
| Render
| Imencode (image : ndarray)
| Post (url chat_id caption : string) (photo : bytes).

Definition logger_info (msg : string) : M Event unit := emit (Log INFO msg).
Definition logger_error (msg : string) : M Event unit := emit (Log ERROR msg).

(** [row['name'].lower() != 'imprimiendo']: the mask of both filters. *)
Definition not_imprimiendo (row : Row) : bool :=
  negb (String.eqb (str_lower (name row)) "imprimiendo").

(** [df.empty] *)
Definition empty {A : Type} (df : list A) : bool :=
  match df with
  | [] => true
  | _ :: _ => false
  end.

(** One turn of the loop that builds the caption. *)
Definition message_add (message : string) (row : Row) : string :=
  (message ++ "🔹 *" ++ name row ++ "*" ++ nl)
  ++ ("Confianza: " ++ format_f 2 (confidence row) ++ nl)
  ++ ("Posición: x1=" ++ format_f 0 (xmin row)
      ++ ", y1=" ++ format_f 0 (ymin row)
      ++ ", x2=" ++ format_f 0 (xmax row)
      ++ ", y2=" ++ format_f 0 (ymax row) ++ nl ++ nl).

Definition message_header : string :=
  "⚠ *Detección de error en impresión 3D* ⚠" ++ nl ++ nl.

Definition sendPhoto_url (w : World) : string :=
  "https://api.telegram.org/bot" ++ TOKEN w ++ "/sendPhoto".

(** [send_telegram_alert(image_array, detections)] *)
Definition send_telegram_alert (w : World) (image_array : ndarray)
    (detections : DataFrame) : M Event bool :=
  try_except is_Exception
    (let filtered_detections := filter not_imprimiendo detections in
     if empty filtered_detections then
       logger_info
         "No se envía alerta: solo se detectó 'imprimiendo' (estado normal)" ;;;
       ret false
     else
       enc <- lib (Imencode image_array) (cv2_imencode w image_array) ;;
       let '(is_success, buffer) := enc in
       if negb is_success then
         logger_error "Error al codificar la imagen" ;;;
         ret false
       else
         let message := fold_left message_add filtered_detections message_header in
         let url := sendPhoto_url w in
         response <- lib (Post url (CHAT_ID w) message buffer)
                         (requests_post w url (CHAT_ID w) message buffer) ;;
         let '(status_code, text) := response in
         if negb (status_code =? 200)%Z then
           logger_error ("Error al enviar alerta a Telegram: " ++ text) ;;;
           ret false
         else
           logger_info "Alerta enviada a Telegram (errores detectados)" ;;;
           ret true)
    (fun e =>
       logger_error ("Error en send_telegram_alert: " ++ exc_str e) ;;;
       ret false).

(** [load_model()]: [path_exists] is [os.path.exists(model_path)] and
    [hub_load] the outcome of [torch.hub.load] followed by
    [optimize_detection_for_3d_printing]. *)
Definition load_model (path_exists : bool) (hub_load : LibResult Model)
    : M Event (option Model) :=
  try_except is_Exception
    (if negb path_exists then
       raise (mkExc OtherException "Modelo no encontrado en modelo/impresion.pt")
     else
       logger_info "Cargando modelo desde: modelo/impresion.pt" ;;;
       model <- (([], outcome_of_lib hub_load) : M Event Model) ;;
       logger_info "Modelo cargado y optimizado correctamente" ;;;
       ret (Some model))
    (fun e =>
       logger_error ("Error al cargar el modelo: " ++ exc_str e) ;;;
       ret None).

(** ** Responses *)

Record Coordinates : Type := mkCoordinates {
  c_xmin : Z; c_ymin : Z; c_xmax : Z; c_ymax : Z
}.

Record Detection : Type := mkDetection {
  d_name : string;
  d_confidence : pyfloat;
  d_coordinates : Coordinates
}.

(** The dictionary [response_data]. *)
Record ResponseData : Type := mkResponseData {
  detections_found : nat;
  detections : list Detection;
  alert_sent : bool;
  status : string
}.

Inductive Json : Type :=
| ErrorJson (error : string)
| HealthJson (h_status message : string) (model_loaded : bool)
| DataJson (response_data : ResponseData).

(** A Flask response: the JSON body and the HTTP status code. *)
Record Response : Type := mkResponse { body : Json; http_status : Z }.

(** [jsonify(x)] alone answers 200; [jsonify(x), code] answers [code]. *)
Definition jsonify (j : Json) : Response := mkResponse j 200.
Definition jsonify_code (j : Json) (code : Z) : Response := mkResponse j code.

(** The fields the transport-independence property compares; an error
    body has neither. *)
Definition response_detections_found (r : Response) : option nat :=
  match body r with
  | DataJson d => Some (detections_found d)
  | _ => None
  end.

Definition response_status (r : Response) : option string :=
  match body r with
  | DataJson d => Some (status d)
  | HealthJson s _ _ => Some s
  | ErrorJson _ => None
  end.

Definition response_alert_sent (r : Response) : option bool :=
  match body r with
  | DataJson d => Some (alert_sent d)
  | _ => None
  end.

Definition response_detections (r : Response) : option (list Detection) :=
  match body r with
  | DataJson d => Some (detections d)
  | _ => None
  end.

(** The record appended to [response_data["detections"]] for one row. *)
Definition detection_of_row (row : Row) : Detection :=
  mkDetection (name row) (confidence row)
    (mkCoordinates (int_of_float (xmin row)) (int_of_float (ymin row))
                   (int_of_float (xmax row)) (int_of_float (ymax row))).

Definition append_detection (d : ResponseData) (row : Row) : ResponseData :=
  mkResponseData (detections_found d) (detections d ++ [detection_of_row row])
    (alert_sent d) (status d).

Definition set_alert_sent (d : ResponseData) (b : bool) : ResponseData :=
  mkResponseData (detections_found d) (detections d) b (status d).

Definition set_status (d : ResponseData) (s : string) : ResponseData :=
  mkResponseData (detections_found d) (detections d) (alert_sent d) s.

(** [GET /] *)
Definition health_check (model : option Model) : Response :=
  let status := match model with Some _ => "OK" | None => "ERROR" end in
  jsonify (HealthJson status
             "Servidor de detección de errores en impresión 3D"
             (match model with Some _ => true | None => false end)).

(** ** The detection summary

    Both handlers run the same statements on the detector's answer (the
    second one is marked "mismo código que el endpoint anterior"); only
    [detect_errors] logs the two informational lines, which [verbose]
    selects. *)
Definition process_results (verbose : bool) (w : World) (results : Results)
    : M Event Response :=
  let detections := xyxy0 results in
  let response_data :=
    mkResponseData (List.length detections) [] false "normal" in
  response_data <-
    (if (0 <? List.length detections)%nat then
       let response_data :=
         fold_left append_detection detections response_data in
       let error_detections := filter not_imprimiendo detections in
       if negb (empty error_detections) then
         rendered_image <- lib Render (render results) ;;
         alert_sent <- send_telegram_alert w rendered_image detections ;;
         let response_data := set_alert_sent response_data alert_sent in
         let response_data := set_status response_data "error_detected" in
         (if verbose then
            logger_info ("Errores detectados: "
                         ++ str_N (N.of_nat (List.length error_detections))
                         ++ " tipos")
          else ret tt) ;;;
         ret response_data
       else
         let response_data := set_status response_data "printing_normal" in
         (if verbose then
            logger_info "Solo se detectó 'imprimiendo' - Estado normal"
          else ret tt) ;;;
         ret response_data
     else ret response_data) ;;
  ret (jsonify (DataJson response_data)).

(** ** [POST /detect] *)

(** An uploaded file: [file.filename] and the bytes [file.read()] gives. *)
Record FileStorage : Type := mkFile { filename : string; read : bytes }.

(** The multipart request: [request.files.get('image')]. *)
Record MultipartRequest : Type := mkMultipart {
  files_image : option FileStorage
}.

Definition detect_errors (model : option Model) (w : World)
    (request : MultipartRequest) : M Event Response :=
  try_except is_Exception
    (match model with
     | None => ret (jsonify_code (ErrorJson "Modelo no disponible") 500)
     | Some model =>
     match files_image request with
     | None => ret (jsonify_code (ErrorJson "No se envió ninguna imagen") 400)
     | Some file =>
     if String.eqb (filename file) "" then
       ret (jsonify_code (ErrorJson "Archivo vacío") 400)
     else
       let image_bytes := read file in
       image <- lib (Imdecode image_bytes) (cv2_imdecode w image_bytes) ;;
       match image with
       | None =>
           ret (jsonify_code (ErrorJson "No se pudo decodificar la imagen") 400)
       | Some image =>
           results <- lib (Detect image) (model image) ;;
           process_results true w results
       end
     end
     end)
    (fun e =>
       logger_error ("Error en detección: " ++ exc_str e) ;;;
       ret (jsonify_code
              (ErrorJson ("Error interno del servidor: " ++ exc_str e)) 500)).

(** ** [POST /detect_base64] *)

(** A value of the JSON body: a string, or anything else; for the latter
    [type_error] is the text of the TypeError or AttributeError that using
    it as a string raises. *)
Inductive JValue : Type :=
| JString (s : string)
| JNonString (type_error : string).

(** What [request.get_json()] returns: [None] (the body [null]), a
    dictionary (an association list, first binding of a key), a number or
    truth value ([zero] tells whether it is 0 or [False]; [type_name] is
    [int], [float] or [bool]), a string, or a list. *)
Inductive JBody : Type :=
| BodyNone
| BodyDict (d : list (string * JValue))
| BodyNumber (zero : bool) (type_name : string)
| BodyStr (s : string)
| BodyList (items : list JValue).

(** The JSON request: the outcome of [request.get_json()]; it fails when
    the request does not carry JSON. *)
Record JsonRequest : Type := mkJsonRequest {
  get_json : LibResult JBody
}.

Fixpoint dict_get {A : Type} (key : string) (d : list (string * A)) : option A :=
  match d with
  | [] => None
  | (k, v) :: d' => if String.eqb k key then Some v else dict_get key d'
  end.

(** [s.startswith(p)] *)
Fixpoint str_startswith (p s : string) : bool :=
  match p, s with
  | EmptyString, _ => true
  | String a p', String b s' => Ascii.eqb a b && str_startswith p' s'
  | String _ _, EmptyString => false
  end.

(** [p in s] for strings. *)
Fixpoint str_in (p s : string) : bool :=
  str_startswith p s
  || match s with
     | EmptyString => false
     | String _ s' => str_in p s'
     end.

(** [not data or 'image' not in data]: the membership test raises
    TypeError on a number that is not zero. *)
Definition lacks_image (data : JBody) : LibResult bool :=
  match data with
  | BodyNone => Ok true
  | BodyDict d =>
      Ok (empty d || match dict_get "image" d with Some _ => false | None => true end)
  | BodyNumber zero type_name =>
      if zero then Ok true
      else Fail ("argument of type '" ++ type_name ++ "' is not iterable")
  | BodyStr s => Ok (String.eqb s "" || negb (str_in "image" s))
  | BodyList items =>
      Ok (empty items
          || negb (existsb (fun v => match v with
                                     | JString s => String.eqb s "image"
                                     | JNonString _ => false
                                     end) items))
  end.

(** [data['image']], evaluated once the test above has passed: only a
    dictionary can be indexed by a string. *)
Definition getitem_image (data : JBody) : LibResult JValue :=
  match data with
  | BodyDict d =>
      match dict_get "image" d with
      | Some v => Ok v
      | None => Fail "'image'"
      end
  | BodyStr _ => Fail "string indices must be integers, not 'str'"
  | BodyList _ => Fail "list indices must be integers or slices, not str"
  | BodyNone => Fail "'NoneType' object is not subscriptable"
  | BodyNumber _ type_name => Fail ("'" ++ type_name ++ "' object is not subscriptable")
  end.

(** The expression
    [base64.b64decode(s.split(',')[1] if ',' in s else s)] for [s = data['image']]. *)
Definition decode_image_field (v : JValue) : LibResult bytes :=
  match v with
  | JNonString type_error => Fail type_error
  | JString s =>
      if str_contains "," s then
        match list_index (str_split "," s) 1 with
        | Ok payload => b64decode payload
        | Fail msg => Fail msg
        end
      else b64decode s
  end.

Definition detect_errors_base64 (model : option Model) (w : World)
    (request : JsonRequest) : M Event Response :=
  try_except is_Exception
    (match model with
     | None => ret (jsonify_code (ErrorJson "Modelo no disponible") 500)
     | Some model =>
     data <- (([], outcome_of_lib (get_json request)) : M Event JBody) ;;
     lacks <- (([], outcome_of_lib (lacks_image data)) : M Event bool) ;;
     if lacks then
       ret (jsonify_code (ErrorJson "No se envió imagen en base64") 400)
     else
     decoded <-
       try_except is_Exception
         (field <- (([], outcome_of_lib (getitem_image data)) : M Event JValue) ;;
          image_data <- (([], outcome_of_lib (decode_image_field field))
                         : M Event bytes) ;;
          image <- lib (Imdecode image_data) (cv2_imdecode w image_data) ;;
          ret (inr image))
         (fun e =>
            ret (inl (jsonify_code
                        (ErrorJson ("Error al decodificar imagen base64: "
                                    ++ exc_str e)) 400))) ;;
     match decoded with
     | inl early_return => ret early_return
     | inr None =>
         ret (jsonify_code (ErrorJson "No se pudo decodificar la imagen") 400)
     | inr (Some image) =>
         results <- lib (Detect image) (model image) ;;
         process_results false w results
     end
     end)
    (fun e =>
       logger_error ("Error en detección base64: " ++ exc_str e) ;;;
       ret (jsonify_code
              (ErrorJson ("Error interno del servidor: " ++ exc_str e)) 500)).

(** ** The routes of the Flask application *)

Inductive Request : Type :=
| GET_root
| POST_detect (request : MultipartRequest)
| POST_detect_base64 (request : JsonRequest).

(** The application with its detector handle [model] (the global loaded
    once at start-up) answering one request. *)
Definition app (model : option Model) (w : World) (r : Request)
    : M Event Response :=
  match r with
  | GET_root => ret (health_check model)
  | POST_detect request => detect_errors model w request
  | POST_detect_base64 request => detect_errors_base64 model w request
  end.

End App.

(* ================================================================== *)
(** * The capture client: raspberry_client.py *)
(* ================================================================== *)

Module Client.
Import Py.
Export Base64.
Local Open Scope py_scope.

Definition ndarray : Type := App.ndarray.

Definition SERVER_URL : string := "https://tu-app-render.onrender.com".
Definition CAPTURE_INTERVAL : Z := 30.
Definition USE_PI_CAMERA : bool := true.

(** One entry of [result['detections']] as the client reads it; a missing
    key is [None]. *)
Record ResultDetection : Type := mkResultDetection {
  rd_name : option string;
  rd_confidence : option pyfloat
}.

(** The dictionary [response.json()]: the keys the client reads (a missing
    key is [None]) and its printed form. *)
Record Result : Type := mkResult {
  r_detections_found : option Z;
  r_detections : option (list ResultDetection);
  r_status : option string;
  r_repr : string
}.

(** An answer of the server as [requests] presents it. *)
Record HttpResponse : Type := mkHttpResponse {
  status_code : Z;
  text : string;
  (** [response.json()]; [Fail] carries the text of the decoding error *)
  json : LibResult Result;
  (** [result.get('model_loaded', False)] for [result = response.json()],
      as a truth value; it fails when [result] is not a dictionary *)
  json_model_loaded : LibResult bool
}.

(** ** The global names [requests], [time] and [cv2]

    The functions of the module read three global names that no statement
    of the file binds: its imports are [base64], [logging], [datetime],
    [os], [Picamera2] and [numpy].  A name is looked up when the
    expression that mentions it is evaluated; the namespace is therefore
    part of the world a run finds, and the one the file itself sets up is
    [module_globals]. *)

(** The module [requests]: [requests.Session()].  Its class
    [requests.exceptions.RequestException] is [Py.RequestException]. *)
Record Requests : Type := mkRequests {
  Session : Outcome unit
}.

(** The module [time]: [time.sleep(seconds)]. *)
Record Time : Type := mkTime {
  sleep : Z -> Outcome unit
}.

(** The module [cv2]. *)
Record Cv2 : Type := mkCv2 {
  (** [cv2.VideoCapture(0)], configured: what [isOpened()] says *)
  VideoCapture : Outcome bool;
  (** [cv2.cvtColor(image, cv2.COLOR_RGB2BGR)] *)
  cvtColor : ndarray -> Outcome ndarray;
  (** [cv2.imwrite(path, image)] *)
  imwrite : string -> ndarray -> Outcome bool;
  (** [cv2.imencode('.jpg', image, [cv2.IMWRITE_JPEG_QUALITY, 85])[1]] as
      bytes; an encoding that leaves no buffer is a raised error *)
  imencode : ndarray -> Outcome bytes
}.

(** What each of the three names is bound to; [None] is an unbound name. *)
Record Globals : Type := mkGlobals {
  g_requests : option Requests;
  g_time : option Time;
  g_cv2 : option Cv2
}.

(** The namespace after the import statements of raspberry_client.py:
    none of the three names is bound. *)
Definition module_globals : Globals := mkGlobals None None None.

(** The namespace, camera, clock and network as one loop iteration (or the
    start-up) finds them.  Every call may be interrupted from the
    keyboard, so the oracles are [Outcome]s. *)
Record World : Type := mkWorld {
  globals : Globals;
  picamera2_new : Outcome unit;
  picamera2_configure_start : Outcome unit;
  camera_capture_array : Outcome ndarray;
  camera_read : Outcome (bool * ndarray);
  camera_stop : Outcome unit;
  now_strftime : string;
  (** [session.post(url, files={'image': (filename, content, mime)})] *)
  session_post_files : string -> string -> bytes -> string -> Outcome HttpResponse;
  (** [session.post(url, json={'image': s}, headers=...)] *)
  session_post_json : string -> string -> Outcome HttpResponse;
  session_get : string -> Outcome HttpResponse
}.

Inductive Level : Type := INFO | WARNING | ERROR.

(** Observable effects of the client. *)
Inductive Event : Type :=
| Log (lvl : Level) (msg : string)
| SessionNew
| CameraNew
| CameraConfigureStart
| VideoCaptureOpen
| CaptureArray
| CvtColor
| CameraRead
| CameraStop
| Imwrite (path : string) (image : ndarray)
| Imencode (image : ndarray)
| PostFiles (url filename : string) (content : bytes) (mime : string)
| PostJson (url image_field : string)
| Get (url : string)
| Sleep (seconds : Z).

Definition logger_info (msg : string) : M Event unit := emit (Log INFO msg).
Definition logger_warning (msg : string) : M Event unit := emit (Log WARNING msg).
Definition logger_error (msg : string) : M Event unit := emit (Log ERROR msg).

Definition str_Z (z : Z) : string :=
  if (z <? 0)%Z then "-" ++ str_N (Z.to_N (- z)) else str_N (Z.to_N z).

(** The NameError of an unbound global name. *)
Definition name_error (name : string) : PyExc :=
  mkExc OtherException ("name '" ++ name ++ "' is not defined").

(** Evaluating the global name [name], bound to [v]. *)
Definition global {A : Type} (name : string) (v : option A) : M Event A :=
  match v with
  | Some a => ret a
  | None => raise (name_error name)
  end.

(** How the expressions [cv2.cvtColor(..)], [cv2.imwrite(..)],
    [cv2.imencode(..)] and [time.sleep(..)] end in the world [w]. *)
Definition cv2_cvtColor (w : World) (image : ndarray) : Outcome ndarray :=
  match g_cv2 (globals w) with
  | Some cv2 => cvtColor cv2 image
  | None => Raises (name_error "cv2")
  end.

Definition cv2_imwrite (w : World) (path : string) (image : ndarray) : Outcome bool :=
  match g_cv2 (globals w) with
  | Some cv2 => imwrite cv2 path image
  | None => Raises (name_error "cv2")
  end.

Definition cv2_imencode (w : World) (image : ndarray) : Outcome bytes :=
  match g_cv2 (globals w) with
  | Some cv2 => imencode cv2 image
  | None => Raises (name_error "cv2")
  end.

Definition time_sleep (w : World) (seconds : Z) : Outcome unit :=
  match g_time (globals w) with
  | Some time => sleep time seconds
  | None => Raises (name_error "time")
  end.

(** [d[key]]: KeyError when the key is missing. *)
Definition getitem {A : Type} (key : string) (v : option A) : M Event A :=
  match v with
  | Some a => ret a
  | None => raise (mkExc OtherException ("'" ++ key ++ "'"))
  end.

(** [response.json()]: a body that is not JSON raises
    [requests.exceptions.JSONDecodeError], a [RequestException]. *)
Definition response_json (response : HttpResponse) : M Event Result :=
  match json response with
  | Ok result => ret result
  | Fail msg => raise (mkExc RequestException msg)
  end.

(** [CameraClient()]: [__init__] sets [self.camera = None] and creates the
    session with [requests.Session()]. *)
Definition CameraClient (w : World) : M Event unit :=
  requests <- global "requests" (g_requests (globals w)) ;;
  call SessionNew (Session requests).

(** [initialize_camera]: an error is logged and raised again. *)
Definition initialize_camera (w : World) : M Event unit :=
  try_except is_Exception
    (if USE_PI_CAMERA then
       logger_info "Inicializando cámara de Raspberry Pi..." ;;;
       call CameraNew (picamera2_new w) ;;;
       call CameraConfigureStart (picamera2_configure_start w) ;;;
       time <- global "time" (g_time (globals w)) ;;
       call (Sleep 2) (sleep time 2) ;;;
       logger_info "Cámara de RPi inicializada correctamente"
     else
       logger_info "Inicializando webcam USB..." ;;;
       cv2 <- global "cv2" (g_cv2 (globals w)) ;;
       opened <- call VideoCaptureOpen (VideoCapture cv2) ;;
       if negb opened then
         raise (mkExc OtherException "No se pudo abrir la webcam")
       else logger_info "Webcam USB inicializada correctamente")
    (fun e =>
       logger_error ("Error al inicializar cámara: " ++ exc_str e) ;;;
       raise e).

(** [capture_image]: the frame, or [None] after a logged error. *)
Definition capture_image (w : World) : M Event (option ndarray) :=
  try_except is_Exception
    (if USE_PI_CAMERA then
       image <- call CaptureArray (camera_capture_array w) ;;
       cv2 <- global "cv2" (g_cv2 (globals w)) ;;
       image <- call CvtColor (cvtColor cv2 image) ;;
       ret (Some image)
     else
       r <- call CameraRead (camera_read w) ;;
       let '(ret_, image) := r in
       if negb ret_ then
         raise (mkExc OtherException "No se pudo capturar imagen de la webcam")
       else ret (Some image))
    (fun e =>
       logger_error ("Error al capturar imagen: " ++ exc_str e) ;;;
       ret None).

(** The loop over [result['detections']] that logs each detection. *)
Fixpoint log_detections (ds : list ResultDetection) : M Event unit :=
  match ds with
  | [] => ret tt
  | detection :: ds' =>
      n <- getitem "name" (rd_name detection) ;;
      c <- getitem "confidence" (rd_confidence detection) ;;
      logger_info ("- " ++ n ++ ": " ++ format_f 2 c) ;;;
      log_detections ds'
  end.

(** [send_image_to_server]: the primary, multipart transport.  Its first
    [except] clause names [requests.exceptions.RequestException]: to match
    an exception that leaves the [try], the name [requests] is evaluated
    first, whatever the exception is. *)
Definition send_image_to_server (w : World) (image : ndarray)
    : M Event (option Result) :=
  try_except (fun _ => true)
    (cv2 <- global "cv2" (g_cv2 (globals w)) ;;
     buffer <- call (Imencode image) (imencode cv2 image) ;;
     logger_info "Enviando imagen al servidor..." ;;;
     let url := (SERVER_URL ++ "/detect")%string in
     response <- call (PostFiles url "capture.jpg" buffer "image/jpeg")
                      (session_post_files w url "capture.jpg" buffer "image/jpeg") ;;
     if (status_code response =? 200)%Z then
       result <- response_json response ;;
       logger_info ("Respuesta del servidor: " ++ r_repr result) ;;;
       found <- getitem "detections_found" (r_detections_found result) ;;
       (if (0 <? found)%Z then
          logger_info ("Detecciones encontradas: " ++ str_Z found) ;;;
          ds <- getitem "detections" (r_detections result) ;;
          log_detections ds ;;;
          st <- getitem "status" (r_status result) ;;
          if String.eqb st "error_detected" then
            logger_warning "⚠️ ERROR DETECTADO - Alerta enviada a Telegram"
          else if String.eqb st "printing_normal" then
            logger_info "✅ Impresión normal detectada"
          else ret tt
        else logger_info "No se detectaron objetos") ;;;
       ret (Some result)
     else
       logger_error ("Error del servidor: " ++ str_Z (status_code response)
                     ++ " - " ++ text response) ;;;
       ret None)
    (fun e =>
       global "requests" (g_requests (globals w)) ;;;
       if is_RequestException (exc_class e) then
         logger_error ("Error de conexión: " ++ exc_str e) ;;;
         ret None
       else if is_Exception (exc_class e) then
         logger_error ("Error al enviar imagen: " ++ exc_str e) ;;;
         ret None
       else raise e).

(** The JSON field [send_image_base64] sends for the encoded frame. *)
Definition data_uri (buffer : bytes) : string :=
  "data:image/jpeg;base64," ++ b64encode buffer.

(** [send_image_base64]: the alternative, base64 transport. *)
Definition send_image_base64 (w : World) (image : ndarray)
    : M Event (option Result) :=
  try_except is_Exception
    (cv2 <- global "cv2" (g_cv2 (globals w)) ;;
     buffer <- call (Imencode image) (imencode cv2 image) ;;
     let image_field := data_uri buffer in
     logger_info "Enviando imagen en base64 al servidor..." ;;;
     let url := (SERVER_URL ++ "/detect_base64")%string in
     response <- call (PostJson url image_field)
                      (session_post_json w url image_field) ;;
     if (status_code response =? 200)%Z then
       result <- response_json response ;;
       logger_info ("Respuesta del servidor: " ++ r_repr result) ;;;
       ret (Some result)
     else
       logger_error ("Error del servidor: " ++ str_Z (status_code response)
                     ++ " - " ++ text response) ;;;
       ret None)
    (fun e =>
       logger_error ("Error al enviar imagen base64: " ++ exc_str e) ;;;
       ret None).

(** [test_server_connection] *)
Definition test_server_connection (w : World) : M Event bool :=
  try_except is_Exception
    (logger_info "Probando conexión con el servidor..." ;;;
     let url := (SERVER_URL ++ "/")%string in
     response <- call (Get url) (session_get w url) ;;
     if (status_code response =? 200)%Z then
       result <- response_json response ;;
       logger_info ("Servidor disponible: " ++ r_repr result) ;;;
       (([], outcome_of_lib (json_model_loaded response)) : M Event bool)
     else
       logger_error ("Servidor no disponible: " ++ str_Z (status_code response)) ;;;
       ret false)
    (fun e =>
       logger_error ("Error de conexión con servidor: " ++ exc_str e) ;;;
       ret false).

(** [cleanup]; [camera] tells whether [self.camera] holds a handle. *)
Definition cleanup (w : World) (camera : bool) : M Event unit :=
  (if camera then call CameraStop (camera_stop w) else ret tt) ;;;
  logger_info "Recursos de cámara liberados".

(** How one turn of [while True] ends. *)
Inductive Control : Type := NextIteration | Break.

(** The statements inside the [try] of the loop. *)
Definition loop_try (w : World) : M Event unit :=
  image <- capture_image w ;;
  match image with
  | None =>
      logger_warning "No se pudo capturar imagen, reintentando..." ;;;
      time <- global "time" (g_time (globals w)) ;;
      call (Sleep 5) (sleep time 5)
  | Some image =>
      let timestamp := now_strftime w in
      let path := ("captures/capture_" ++ timestamp ++ ".jpg")%string in
      cv2 <- global "cv2" (g_cv2 (globals w)) ;;
      call (Imwrite path image) (imwrite cv2 path image) ;;;
      result <- send_image_to_server w image ;;
      result <- match result with
                | None =>
                    logger_info "Intentando método alternativo (base64)..." ;;;
                    send_image_base64 w image
                | Some r => ret (Some r)
                end ;;
      logger_info ("Esperando " ++ str_Z CAPTURE_INTERVAL
                   ++ " segundos para la próxima captura...") ;;;
      time <- global "time" (g_time (globals w)) ;;
      call (Sleep CAPTURE_INTERVAL) (sleep time CAPTURE_INTERVAL)
  end.

(** One turn of [while True]: the [try] with its two [except] clauses.  An
    exception raised inside a handler leaves the loop. *)
Definition loop_iteration (w : World) : M Event Control :=
  try_except (fun _ => true)
    (loop_try w ;;; ret NextIteration)
    (fun e =>
       if is_KeyboardInterrupt (exc_class e) then
         logger_info "Interrupción por teclado recibida" ;;;
         ret Break
       else
         logger_error ("Error en el bucle principal: " ++ exc_str e) ;;;
         time <- global "time" (g_time (globals w)) ;;
         call (Sleep 10) (sleep time 10) ;;;
         ret NextIteration).

(** How a run of the loop over finitely many turns stands at its end. *)
Inductive LoopState : Type := Running | Stopped.

(** [while True]: one world per turn; the loop is still running when the
    given turns are used up. *)
Fixpoint main_loop (turns : list World) : M Event LoopState :=
  match turns with
  | [] => ret Running
  | w :: turns' =>
      c <- loop_iteration w ;;
      match c with
      | NextIteration => main_loop turns'
      | Break => ret Stopped
      end
  end.

(** Whether [self.camera] was assigned by [initialize_camera]: the handle
    exists once the constructor returned. *)
Definition camera_assigned (start : World) (connected : bool) : bool :=
  connected &&
  (if USE_PI_CAMERA then
     match picamera2_new start with Returns _ => true | Raises _ => false end
   else
     match g_cv2 (globals start) with
     | Some cv2 =>
         match VideoCapture cv2 with Returns _ => true | Raises _ => false end
     | None => false
     end).

(** [main()]: [start] is the world at start-up and at shutdown, [turns] the
    worlds of the loop's turns.  The client object is created before the
    [try]: an exception of [CameraClient()] leaves [main] at once. *)
Definition main (start : World) (turns : list World) : M Event LoopState :=
  CameraClient start ;;;
  let connected :=
    match outcome (test_server_connection start) with
    | Returns true => true
    | _ => false
    end in
  try_finally
    (try_except is_Exception
       (ok <- test_server_connection start ;;
        if negb ok then
          logger_error "No se puede conectar al servidor. Saliendo..." ;;;
          ret Stopped
        else
          initialize_camera start ;;;
          logger_info ("Iniciando monitoreo cada " ++ str_Z CAPTURE_INTERVAL
                       ++ " segundos") ;;;
          logger_info "Presiona Ctrl+C para detener" ;;;
          main_loop turns)
       (fun e =>
          logger_error ("Error fatal: " ++ exc_str e) ;;;
          ret Stopped))
    (cleanup start (camera_assigned start connected) ;;;
     logger_info "Cliente finalizado").

End Client.

(* ================================================================== *)
(** * The wire between the two programs *)
(* ================================================================== *)

Module Wire.
Import Py.

(** The request Flask hands to the application for an HTTP call of the
    client: the [files] of a multipart post arrive as [request.files], the
    [json] of a JSON post as [request.get_json()]. *)
Definition request_of (ev : Client.Event) : option App.Request :=
  match ev with
  | Client.PostFiles url filename content _ =>
      if String.eqb url (Client.SERVER_URL ++ "/detect") then
        Some (App.POST_detect
                (App.mkMultipart (Some (App.mkFile filename content))))
      else None
  | Client.PostJson url image_field =>
      if String.eqb url (Client.SERVER_URL ++ "/detect_base64") then
        Some (App.POST_detect_base64
                (App.mkJsonRequest
                   (Ok (App.BodyDict [("image", App.JString image_field)]))))
      else None
  | Client.Get url =>
      if String.eqb url (Client.SERVER_URL ++ "/") then Some App.GET_root
      else None
  | _ => None
  end.

(** The requests that arrive for the client's two ways of sending the
    encoded frame [buffer]. *)
Definition multipart_upload (buffer : Base64.bytes) : App.Request :=
  App.POST_detect (App.mkMultipart (Some (App.mkFile "capture.jpg" buffer))).

Definition base64_upload (buffer : Base64.bytes) : App.Request :=
  App.POST_detect_base64
    (App.mkJsonRequest
       (Ok (App.BodyDict [("image", App.JString (Client.data_uri buffer))]))).

End Wire.

(* ================================================================== *)
(** * Facts about the Python notions *)
(* ================================================================== *)

Module PyFacts.
Import Py.

(** ** Traces *)

Lemma bind_trace_In {E A B : Type} (m : M E A) (k : A -> M E B) (ev : E) :
  In ev (trace m) -> In ev (trace (bind m k)).
Proof.
  destruct m as [t [a|e]]; cbn; [ | auto ].
  intros H. destruct (k a) as [t' r]. cbn. apply in_or_app. now left.
Qed.

Lemma bind_trace_In_next {E A B : Type} (m : M E A) (k : A -> M E B) (a : A)
    (ev : E) :
  outcome m = Returns a -> In ev (trace (k a)) -> In ev (trace (bind m k)).
Proof.
  destruct m as [t o]; cbn. intros -> H.
  destruct (k a) as [t' r]. cbn in *. apply in_or_app. now right.
Qed.

Lemma try_except_trace_In {E A : Type} (handles : ExcClass -> bool)
    (m : M E A) (h : PyExc -> M E A) (ev : E) :
  In ev (trace m) -> In ev (trace (try_except handles m h)).
Proof.
  destruct m as [t [a|e]]; cbn; [ auto | ].
  intros H. destruct (handles (exc_class e)); [ | exact H ].
  destruct (h e) as [t' r]. cbn. apply in_or_app. now left.
Qed.

(** ** Lower-casing *)






(** ** Rounding *)

(** [v] is a nearest integer to the fraction [n / d]. *)
Definition nearest (v n d : N) : Prop :=
  (2 * (v * d) <= 2 * n + d /\ 2 * n <= 2 * (v * d) + d)%N.

Lemma round_half_even_nearest (n d : N) :
  (0 < d)%N -> nearest (round_half_even n d) n d.
Proof.
  intros Hd. unfold nearest, round_half_even.
  pose proof (N.div_mod' n d) as E.
  pose proof (N.mod_lt n d ltac:(lia)) as Hr.
  set (q := (n / d)%N) in *. set (r := (n mod d)%N) in *.
  clearbody q r. subst n.
  destruct (d <? 2 * r)%N eqn:E1; cbn [orb].
  - apply N.ltb_lt in E1. nia.
  - apply N.ltb_ge in E1.
    destruct (2 * r =? d)%N eqn:E2; cbn [andb].
    + apply N.eqb_eq in E2. destruct (N.odd q); nia.
    + nia.
Qed.

(** On a tie the even neighbour is taken. *)
Lemma round_half_even_tie (n d : N) :
  (0 < d)%N -> (2 * (n mod d) = d)%N -> N.even (round_half_even n d) = true.
Proof.
  intros Hd Ht. unfold round_half_even.
  rewrite Ht, N.ltb_irrefl, N.eqb_refl. cbn [orb andb].
  destruct (N.odd (n / d)) eqn:E.
  - rewrite N.add_1_r, N.even_succ. exact E.
  - rewrite <- N.negb_odd, E. reflexivity.
Qed.

Lemma ratio_den_pos (x : pyfloat) : (0 < snd (ratio x))%N.
Proof.
  unfold ratio. destruct (0 <=? f_exp x)%Z; cbn [snd]; [ lia | ].
  apply N.neq_0_lt_0, N.pow_nonzero. lia.
Qed.

(** The digits of [format_f p x] denote a nearest integer to [|x| * 10^p]. *)
Lemma scaled_round_nearest (p : nat) (x : pyfloat) :
  nearest (scaled_round p x) (fst (ratio x) * 10 ^ N.of_nat p) (snd (ratio x)).
Proof.
  unfold scaled_round. pose proof (ratio_den_pos x) as Hd.
  destruct (ratio x) as [n d]. cbn [fst snd] in *.
  now apply round_half_even_nearest.
Qed.

Definition sign_str (x : pyfloat) : string := if f_neg x then "-" else "".

Lemma append_empty_r (s : string) : (s ++ "")%string = s.
Proof. induction s as [|c s IH]; cbn; [ reflexivity | now rewrite IH ]. Qed.

(** [f"{x:.0f}"]: the sign and the digits of the rounded magnitude, no
    decimal point. *)
Lemma format_f_0 (x : pyfloat) :
  format_f 0 x = (sign_str x ++ str_N (scaled_round 0 x))%string.
Proof.
  unfold format_f, sign_str. cbn [N.of_nat]. rewrite N.pow_0_r, N.div_1_r.
  now rewrite append_empty_r.
Qed.

(** [f"{x:.2f}"]: the sign, the integer digits, a point and exactly two
    digits. *)
Lemma format_f_2 (x : pyfloat) :
  let v := scaled_round 2 x in
  format_f 2 x =
  (sign_str x ++ str_N (v / 100) ++ "."
   ++ String (digit ((v / 10) mod 10)) (String (digit (v mod 10)) ""))%string.
Proof.
  unfold format_f, sign_str. cbn [frac_digits N.of_nat Pos.of_succ_nat Pos.succ].
  change (10 ^ 2)%N with 100%N. change (10 ^ 1)%N with 10%N.
  change (10 ^ N.of_nat 0)%N with 1%N. rewrite N.div_1_r.
  reflexivity.
Qed.

(** ** Reading digits back

    What a reader of the caption makes of a run of decimal digits; written
    with the ten characters themselves. *)
Definition decimal_digits : list ascii :=
  ["0"; "1"; "2"; "3"; "4"; "5"; "6"; "7"; "8"; "9"]%char.

(** The place of [c] in [l], counted from [i]. *)
Fixpoint place_of (c : ascii) (l : list ascii) (i : N) : option N :=
  match l with
  | [] => None
  | a :: l' => if Ascii.eqb a c then Some i else place_of c l' (N.succ i)
  end.

(** The value of a digit character; [None] for any other character. *)
Definition digit_value (c : ascii) : option N := place_of c decimal_digits 0.

(** The number a string of digits denotes after the digits read so far
    gave [acc]; [None] when a character is not a digit. *)
Fixpoint read_digits (acc : N) (s : string) : option N :=
  match s with
  | EmptyString => Some acc
  | String c s' =>
      match digit_value c with
      | Some d => read_digits (10 * acc + d) s'
      | None => None
      end
  end.

(** The number a non-empty string of digits denotes. *)
Definition read_decimal (s : string) : option N :=
  match s with
  | EmptyString => None
  | _ => read_digits 0 s
  end.

Lemma digit_value_digit (d : N) : (d < 10)%N -> digit_value (digit d) = Some d.
Proof.
  intros H.
  assert (E : (d = 0 \/ d = 1 \/ d = 2 \/ d = 3 \/ d = 4 \/ d = 5 \/ d = 6
               \/ d = 7 \/ d = 8 \/ d = 9)%N) by lia.
  repeat (destruct E as [-> | E]; [ reflexivity | ]). subst d. reflexivity.
Qed.

Lemma read_digits_acc (d : Decimal.uint) (acc : positive) :
  read_digits (Npos acc) (NilEmpty.string_of_uint d)
  = Some (Npos (Pos.of_uint_acc d acc)).
Proof.
  revert acc. induction d; intros acc;
    cbn [NilEmpty.string_of_uint read_digits Pos.of_uint_acc];
    [ reflexivity
    | match goal with
      | |- context [digit_value ?c] =>
          let v := eval vm_compute in (digit_value c) in
          change (digit_value c) with v
      end;
      rewrite <- IHd; f_equal; cbn [N.mul N.add]; f_equal; lia .. ].
Qed.

Lemma read_digits_uint (d : Decimal.uint) :
  read_digits 0 (NilEmpty.string_of_uint d) = Some (Pos.of_uint d).
Proof.
  induction d; cbn [NilEmpty.string_of_uint read_digits Pos.of_uint];
    [ reflexivity
    | match goal with
      | |- context [digit_value ?c] =>
          let v := eval vm_compute in (digit_value c) in
          change (digit_value c) with v
      end .. ];
    [ exact IHd | apply read_digits_acc .. ].
Qed.

(** [str(n)] reads back as [n]. *)
Lemma read_decimal_str_N (n : N) : read_decimal (str_N n) = Some n.
Proof.
  unfold str_N, read_decimal.
  assert (H : forall d, read_digits 0 (NilZero.string_of_uint d) = Some (N.of_uint d)).
  { intros d. destruct d; try reflexivity; apply (read_digits_uint (_ d)). }
  specialize (H (N.to_uint n)). rewrite DecimalN.Unsigned.of_to in H.
  destruct (N.to_uint n); exact H.
Qed.

(** The characters of [f"{x:.2f}"] after the sign read back as the rounded
    magnitude: the digits before the point give its hundreds, the two
    digits after the point its tens and units. *)
Lemma format_f_2_reads (x : pyfloat) :
  exists (units : string) (d1 d2 : ascii),
    format_f 2 x = (sign_str x ++ units ++ "." ++ String d1 (String d2 ""))%string
    /\ read_decimal units = Some (scaled_round 2 x / 100)%N
    /\ digit_value d1 = Some ((scaled_round 2 x / 10) mod 10)%N
    /\ digit_value d2 = Some (scaled_round 2 x mod 10)%N.
Proof.
  exists (str_N (scaled_round 2 x / 100)),
         (digit ((scaled_round 2 x / 10) mod 10)),
         (digit (scaled_round 2 x mod 10)).
  split; [ apply format_f_2 | ].
  split; [ apply read_decimal_str_N | ].
  split; apply digit_value_digit; apply N.mod_lt; discriminate.
Qed.

(** The characters of [f"{x:.0f}"] after the sign read back as the rounded
    magnitude. *)
Lemma format_f_0_reads (x : pyfloat) :
  exists digits : string,
    format_f 0 x = (sign_str x ++ digits)%string
    /\ read_decimal digits = Some (scaled_round 0 x).
Proof.
  exists (str_N (scaled_round 0 x)).
  split; [ apply format_f_0 | apply read_decimal_str_N ].
Qed.

End PyFacts.

(* ================================================================== *)
(** * Counting the events of a computation *)
(* ================================================================== *)

Module TraceFacts.
Import Py.

(** The events of [m] that satisfy [P], in order. *)
Definition events {E A : Type} (P : E -> bool) (m : M E A) : list E :=
  filter P (trace m).

(** No event of [m] satisfies [P]. *)
Definition silent {E A : Type} (P : E -> bool) (m : M E A) : Prop :=
  events P m = [].

Lemma events_bind {E A B : Type} (P : E -> bool) (m : M E A) (k : A -> M E B) :
  events P (bind m k) =
  events P m ++ match outcome m with
                | Returns a => events P (k a)
                | Raises _ => []
                end.
Proof.
  unfold events. destruct m as [t [a|e]]; cbn.
  - destruct (k a) as [t' r]. cbn. apply filter_app.
  - now rewrite app_nil_r.
Qed.

Lemma events_try_except {E A : Type} (P : E -> bool) (handles : ExcClass -> bool)
    (m : M E A) (h : PyExc -> M E A) :
  events P (try_except handles m h) =
  events P m ++ match outcome m with
                | Raises e => if handles (exc_class e) then events P (h e) else []
                | Returns _ => []
                end.
Proof.
  unfold events. destruct m as [t [a|e]]; cbn.
  - now rewrite app_nil_r.
  - destruct (handles (exc_class e)); cbn.
    + destruct (h e) as [t' r]. cbn. apply filter_app.
    + now rewrite app_nil_r.
Qed.

Lemma events_try_finally {E A : Type} (P : E -> bool) (m : M E A) (f : M E unit) :
  events P (try_finally m f) = events P m ++ events P f.
Proof.
  unfold events. destruct m as [t r], f as [t' [u|e]]; cbn; apply filter_app.
Qed.

Lemma silent_bind {E A B : Type} (P : E -> bool) (m : M E A) (k : A -> M E B) :
  silent P m -> (forall a, silent P (k a)) -> silent P (bind m k).
Proof.
  unfold silent. intros Hm Hk. rewrite events_bind, Hm.
  destruct (outcome m); [ apply Hk | reflexivity ].
Qed.

Lemma silent_try_except {E A : Type} (P : E -> bool) (handles : ExcClass -> bool)
    (m : M E A) (h : PyExc -> M E A) :
  silent P m -> (forall e, silent P (h e)) -> silent P (try_except handles m h).
Proof.
  unfold silent. intros Hm Hh. rewrite events_try_except, Hm.
  destruct (outcome m) as [a|e]; [ reflexivity | ].
  destruct (handles (exc_class e)); [ apply Hh | reflexivity ].
Qed.

Lemma silent_ret {E A : Type} (P : E -> bool) (a : A) : silent P (@ret E A a).
Proof. reflexivity. Qed.

Lemma silent_raise {E A : Type} (P : E -> bool) (e : PyExc) :
  silent P (@raise E A e).
Proof. reflexivity. Qed.

Lemma silent_pure {E A : Type} (P : E -> bool) (o : Outcome A) :
  silent P (([], o) : M E A).
Proof. reflexivity. Qed.

Lemma silent_emit {E : Type} (P : E -> bool) (ev : E) :
  P ev = false -> silent P (emit ev).
Proof. intros H. unfold silent, events. cbn. now rewrite H. Qed.

Lemma silent_call {E A : Type} (P : E -> bool) (ev : E) (o : Outcome A) :
  P ev = false -> silent P (call ev o).
Proof. intros H. unfold silent, events. cbn. now rewrite H. Qed.

Lemma silent_lib {E A : Type} (P : E -> bool) (ev : E) (r : LibResult A) :
  P ev = false -> silent P (lib ev r).
Proof. intros H. unfold silent, events. cbn. now rewrite H. Qed.

(** Decomposes a goal [silent P m] along the structure of [m]. *)
Ltac silence :=
  repeat first
    [ apply silent_ret
    | apply silent_raise
    | apply silent_pure
    | apply silent_emit; reflexivity
    | apply silent_call; reflexivity
    | apply silent_lib; reflexivity
    | apply silent_bind; [ | intros ]
    | apply silent_try_except; [ | intros ]
    | match goal with
      | |- silent _ (if ?b then _ else _) => destruct b
      | |- silent _ (match ?x with _ => _ end) => destruct x
      | |- silent _ (let '(_, _) := ?x in _) => destruct x
      end ].

End TraceFacts.

(* ================================================================== *)
(** * Facts about the base64 codec *)
(* ================================================================== *)

Module Base64Facts.
Import Py Base64.

(** Checking a decidable property of all numbers below a bound by
    evaluation. *)
Definition below (k : nat) (P : N -> bool) : bool :=
  forallb P (map N.of_nat (seq 0 k)).

Lemma below_spec (k : nat) (P : N -> bool) :
  below k P = true -> forall n : N, (n < N.of_nat k)%N -> P n = true.
Proof.
  unfold below. rewrite forallb_forall. intros H n Hn.
  apply H. apply in_map_iff. exists (N.to_nat n). split.
  - apply N2Nat.id.
  - apply in_seq. lia.
Qed.

(** The four 6-bit values of a group of three bytes. *)
Definition s0 (a : N) : N := N.shiftr a 2.
Definition s1 (a b : N) : N := N.lor (N.shiftl (N.land a 3) 4) (N.shiftr b 4).
Definition s2 (b c : N) : N := N.lor (N.shiftl (N.land b 15) 2) (N.shiftr c 6).
Definition s3 (c : N) : N := N.land c 63.

Definition sextet_ok (s : N) : bool :=
  (N_of_ascii (b2a s) <? 128)%N
  && negb (Ascii.eqb (b2a s) BASE64_PAD)
  && negb (Ascii.eqb (b2a s) ",")
  && match a2b (b2a s) with Some s' => (s' =? s)%N | None => false end.

Definition pair_ok (a b : N) : bool :=
  (s0 a <? 64)%N && (s1 a b <? 64)%N && (s2 a b <? 64)%N && (s3 a <? 64)%N
  && (N.lor (N.shiftl (s0 a) 2) (N.shiftr (s1 a b) 4) mod 256 =? a)%N
  && (N.land (s1 a b) 15 =? N.shiftr b 4)%N
  && (N.shiftr (s2 a b) 2 =? N.land a 15)%N
  && (N.lor (N.shiftl (N.shiftr a 4) 4) (N.land a 15) mod 256 =? a)%N
  && (N.lor (N.shiftl (N.land (s2 a b) 3) 6) (s3 b) mod 256 =? b)%N.

Lemma sextets_ok : below 64 sextet_ok = true.
Proof. vm_compute. reflexivity. Qed.

Lemma pairs_ok : below 256 (fun a => below 256 (pair_ok a)) = true.
Proof. vm_compute. reflexivity. Qed.

Lemma pair_ok_true (a b : N) : (a < 256)%N -> (b < 256)%N -> pair_ok a b = true.
Proof.
  intros Ha Hb.
  apply (below_spec 256 (pair_ok a)); [ | exact Hb ].
  apply (below_spec 256 (fun a => below 256 (pair_ok a)) pairs_ok a Ha).
Qed.

Lemma to_N_lt (x : byte) : (Byte.to_N x < 256)%N.
Proof. pose proof (Byte.to_N_bounded x). lia. Qed.

Lemma byte_of_to_N (x : byte) : byte_of_N (Byte.to_N x) = x.
Proof.
  unfold byte_of_N. rewrite N.mod_small by apply to_N_lt.
  now rewrite Byte.of_to_N.
Qed.

Lemma byte_of_N_mod (n : N) (x : byte) :
  (n mod 256 = Byte.to_N x)%N -> byte_of_N n = x.
Proof.
  intros H. unfold byte_of_N. rewrite H. now rewrite Byte.of_to_N.
Qed.

Ltac pair_facts x y H :=
  pose proof (pair_ok_true (Byte.to_N x) (Byte.to_N y) (to_N_lt x) (to_N_lt y)) as H;
  unfold pair_ok in H; repeat rewrite andb_true_iff in H.

Lemma s0_lt (a : byte) : (s0 (Byte.to_N a) < 64)%N.
Proof. pair_facts a a H. now apply N.ltb_lt. Qed.

Lemma s1_lt (a b : byte) : (s1 (Byte.to_N a) (Byte.to_N b) < 64)%N.
Proof. pair_facts a b H. now apply N.ltb_lt. Qed.

Lemma s2_lt (b c : byte) : (s2 (Byte.to_N b) (Byte.to_N c) < 64)%N.
Proof. pair_facts b c H. now apply N.ltb_lt. Qed.

Lemma s3_lt (c : byte) : (s3 (Byte.to_N c) < 64)%N.
Proof. pair_facts c c H. now apply N.ltb_lt. Qed.

(** The three bytes the decoder rebuilds from the four values. *)
Lemma out0_eq (a b : byte) :
  byte_of_N (N.lor (N.shiftl (s0 (Byte.to_N a)) 2)
                   (N.shiftr (s1 (Byte.to_N a) (Byte.to_N b)) 4)) = a.
Proof. apply byte_of_N_mod. pair_facts a b H. now apply N.eqb_eq. Qed.

Lemma out1_eq (a b c : byte) :
  byte_of_N (N.lor (N.shiftl (N.land (s1 (Byte.to_N a) (Byte.to_N b)) 15) 4)
                   (N.shiftr (s2 (Byte.to_N b) (Byte.to_N c)) 2)) = b.
Proof.
  apply byte_of_N_mod. pair_facts a b H. pair_facts b c H'.
  destruct H as [[[[_ H] _] _] _]. destruct H' as [[[_ H1] H2] _].
  apply N.eqb_eq in H, H1, H2. now rewrite H, H1.
Qed.

Lemma out2_eq (b c : byte) :
  byte_of_N (N.lor (N.shiftl (N.land (s2 (Byte.to_N b) (Byte.to_N c)) 3) 6)
                   (s3 (Byte.to_N c))) = c.
Proof. apply byte_of_N_mod. pair_facts b c H. now apply N.eqb_eq. Qed.

Lemma sextet_facts (s : N) :
  (s < 64)%N ->
  (N_of_ascii (b2a s) <? 128)%N = true
  /\ Ascii.eqb (b2a s) BASE64_PAD = false
  /\ Ascii.eqb (b2a s) "," = false
  /\ a2b (b2a s) = Some s.
Proof.
  intros Hs. pose proof (below_spec 64 sextet_ok sextets_ok s Hs) as H.
  unfold sextet_ok in H. repeat rewrite andb_true_iff in H.
  destruct H as [[[H1 H2] H3] H4].
  repeat split; auto using negb_true_iff.
  - now apply negb_true_iff.
  - now apply negb_true_iff.
  - destruct (a2b (b2a s)) as [s'|]; [ | discriminate ].
    apply N.eqb_eq in H4. now subst.
Qed.

(** One step of the decoder on a character of the alphabet. *)
Lemma loop_data (s : N) (cs : string) (q l p : N) (out : bytes) :
  (s < 64)%N ->
  a2b_base64_loop (String (b2a s) cs) q l p out =
  if (q =? 0)%N then a2b_base64_loop cs 1 s 0 out
  else if (q =? 1)%N then
    a2b_base64_loop cs 2 (N.land s 15) 0
      (out ++ [byte_of_N (N.lor (N.shiftl l 2) (N.shiftr s 4))])
  else if (q =? 2)%N then
    a2b_base64_loop cs 3 (N.land s 3) 0
      (out ++ [byte_of_N (N.lor (N.shiftl l 4) (N.shiftr s 2))])
  else
    a2b_base64_loop cs 0 0 0 (out ++ [byte_of_N (N.lor (N.shiftl l 6) s)]).
Proof.
  intros Hs. destruct (sextet_facts s Hs) as (_ & Hpad & _ & Hdec).
  cbn [a2b_base64_loop]. now rewrite Hpad, Hdec.
Qed.

(** Induction over a list three elements at a time. *)
Lemma list_ind3 {A : Type} (P : list A -> Prop) :
  P [] -> (forall a, P [a]) -> (forall a b, P [a; b]) ->
  (forall a b c l, P l -> P (a :: b :: c :: l)) ->
  forall l, P l.
Proof.
  intros H0 H1 H2 H3.
  assert (H : forall l, P l /\ (forall a, P (a :: l)) /\ (forall a b, P (a :: b :: l))).
  { induction l as [|x l (IH0 & IH1 & IH2)]; repeat split; auto. }
  intros l. apply H.
Qed.

Lemma b64encode_group (a b c : byte) (rest : bytes) :
  b64encode (a :: b :: c :: rest) =
  String (b2a (s0 (Byte.to_N a)))
    (String (b2a (s1 (Byte.to_N a) (Byte.to_N b)))
       (String (b2a (s2 (Byte.to_N b) (Byte.to_N c)))
          (String (b2a (s3 (Byte.to_N c))) (b64encode rest)))).
Proof. reflexivity. Qed.

Lemma b64encode_two (a b : byte) :
  b64encode [a; b] =
  String (b2a (s0 (Byte.to_N a)))
    (String (b2a (s1 (Byte.to_N a) (Byte.to_N b)))
       (String (b2a (s2 (Byte.to_N b) (Byte.to_N x00)))
          (String BASE64_PAD EmptyString))).
Proof.
  cbn [b64encode]. unfold s0, s1, s2.
  change (N.shiftr (Byte.to_N x00) 6) with 0%N. now rewrite N.lor_0_r.
Qed.

Lemma b64encode_one (a : byte) :
  b64encode [a] =
  String (b2a (s0 (Byte.to_N a)))
    (String (b2a (s1 (Byte.to_N a) (Byte.to_N x00)))
       (String BASE64_PAD (String BASE64_PAD EmptyString))).
Proof.
  cbn [b64encode]. unfold s0, s1.
  change (N.shiftr (Byte.to_N x00) 4) with 0%N. now rewrite N.lor_0_r.
Qed.

(** Decoding what [b64encode] wrote gives the bytes back, after whatever
    was decoded before. *)
Lemma a2b_base64_loop_b64encode (data out : bytes) :
  a2b_base64_loop (b64encode data) 0 0 0 out = Ok (out ++ data).
Proof.
  revert out. induction data as [ | a | a b | a b c rest IH ] using list_ind3;
    intros out.
  - cbn. now rewrite app_nil_r.
  - rewrite b64encode_one.
    rewrite loop_data by apply s0_lt. cbn [N.eqb].
    rewrite loop_data by apply s1_lt. cbn -[byte_of_N N.shiftl N.shiftr N.lor N.land].
    change (s1 (Byte.to_N a) 0) with (s1 (Byte.to_N a) (Byte.to_N x00)).
    now rewrite out0_eq.
  - rewrite b64encode_two.
    rewrite loop_data by apply s0_lt. cbn [N.eqb].
    rewrite loop_data by apply s1_lt. cbn [N.eqb Pos.eqb].
    rewrite loop_data by apply s2_lt. cbn -[byte_of_N N.shiftl N.shiftr N.lor N.land].
    change (s2 (Byte.to_N b) 0) with (s2 (Byte.to_N b) (Byte.to_N x00)).
    rewrite out0_eq, out1_eq. now rewrite <- app_assoc.
  - rewrite b64encode_group.
    rewrite loop_data by apply s0_lt. cbn [N.eqb].
    rewrite loop_data by apply s1_lt. cbn [N.eqb Pos.eqb].
    rewrite loop_data by apply s2_lt. cbn [N.eqb Pos.eqb].
    rewrite loop_data by apply s3_lt. cbn [N.eqb Pos.eqb].
    rewrite out0_eq, out1_eq, out2_eq, IH.
    now repeat rewrite <- app_assoc.
Qed.

Lemma b64encode_chars (data : bytes) :
  is_ascii_str (b64encode data) = true
  /\ str_contains "," (b64encode data) = false.
Proof.
  assert (Hpad : (N_of_ascii BASE64_PAD <? 128)%N = true
                 /\ Ascii.eqb BASE64_PAD "," = false) by (split; reflexivity).
  destruct Hpad as [Hp1 Hp2].
  induction data as [ | a | a b | a b c rest [IH1 IH2] ] using list_ind3.
  - split; reflexivity.
  - rewrite b64encode_one.
    destruct (sextet_facts _ (s0_lt a)) as (A1 & _ & A2 & _).
    destruct (sextet_facts _ (s1_lt a x00)) as (B1 & _ & B2 & _).
    cbn [is_ascii_str str_contains]. rewrite A1, A2, B1, B2, Hp1, Hp2.
    split; reflexivity.
  - rewrite b64encode_two.
    destruct (sextet_facts _ (s0_lt a)) as (A1 & _ & A2 & _).
    destruct (sextet_facts _ (s1_lt a b)) as (B1 & _ & B2 & _).
    destruct (sextet_facts _ (s2_lt b x00)) as (C1 & _ & C2 & _).
    cbn [is_ascii_str str_contains]. rewrite A1, A2, B1, B2, C1, C2, Hp1, Hp2.
    split; reflexivity.
  - rewrite b64encode_group.
    destruct (sextet_facts _ (s0_lt a)) as (A1 & _ & A2 & _).
    destruct (sextet_facts _ (s1_lt a b)) as (B1 & _ & B2 & _).
    destruct (sextet_facts _ (s2_lt b c)) as (C1 & _ & C2 & _).
    destruct (sextet_facts _ (s3_lt c)) as (D1 & _ & D2 & _).
    cbn [is_ascii_str str_contains].
    rewrite A1, A2, B1, B2, C1, C2, D1, D2, IH1, IH2.
    split; reflexivity.
Qed.

(** [base64.b64decode(base64.b64encode(data))] is [data]. *)
Lemma b64decode_b64encode (data : bytes) :
  b64decode (b64encode data) = Ok data.
Proof.
  unfold b64decode, a2b_base64.
  destruct (b64encode_chars data) as [-> _].
  now rewrite a2b_base64_loop_b64encode.
Qed.

(** ** Splitting at commas *)

Lemma str_split_no_sep (c : ascii) (s : string) :
  str_contains c s = false -> str_split c s = [s].
Proof.
  induction s as [|a s IH]; intros H; [ reflexivity | ].
  cbn [str_contains] in H. apply orb_false_iff in H. destruct H as [Ha Hs].
  cbn [str_split]. rewrite Ha, (IH Hs). reflexivity.
Qed.

Lemma str_split_at_sep (c : ascii) (pre s : string) :
  str_contains c pre = false -> str_contains c s = false ->
  str_split c (pre ++ String c s)%string = [pre; s].
Proof.
  intros Hpre Hs. induction pre as [|a pre IH].
  - cbn [append str_split]. rewrite Ascii.eqb_refl.
    now rewrite (str_split_no_sep c s Hs).
  - cbn [str_contains] in Hpre. apply orb_false_iff in Hpre.
    destruct Hpre as [Ha Hpre].
    cbn [append str_split]. rewrite Ha, (IH Hpre). reflexivity.
Qed.

Lemma str_contains_app (c : ascii) (s t : string) :
  str_contains c (s ++ t)%string = str_contains c s || str_contains c t.
Proof.
  induction s as [|a s IH]; [ reflexivity | ].
  cbn [append str_contains]. rewrite IH. now rewrite orb_assoc.
Qed.

End Base64Facts.

(* ================================================================== *)
(** * Facts about the server *)
(* ================================================================== *)

Module AppFacts.
Import Py App.

(** The value [send_telegram_alert] returns, read off the oracles. *)
Definition alert_result (w : World) (image : ndarray) (dets : DataFrame) : bool :=
  match filter not_imprimiendo dets with
  | [] => false
  | filtered =>
      match cv2_imencode w image with
      | Ok (true, buffer) =>
          match requests_post w (sendPhoto_url w) (CHAT_ID w)
                  (fold_left message_add filtered message_header) buffer with
          | Ok (status_code, _) => (status_code =? 200)%Z
          | Fail _ => false
          end
      | _ => false
      end
  end.

(** [send_telegram_alert] always returns, and returns [alert_result]. *)
Lemma send_telegram_alert_outcome (w : World) (image : ndarray) (dets : DataFrame) :
  outcome (send_telegram_alert w image dets) = Returns (alert_result w image dets).
Proof.
  unfold send_telegram_alert, alert_result.
  destruct (filter not_imprimiendo dets) as [|row rows]; [ reflexivity | ].
  cbn [empty].
  destruct (cv2_imencode w image) as [[[|] buffer]|msg]; try reflexivity.
  cbn.
  destruct (requests_post w _ _ _ buffer)
    as [[status_code text]|msg]; [ | reflexivity ].
  cbn. destruct (status_code =? 200)%Z; reflexivity.
Qed.

Lemma send_telegram_alert_eq (w : World) (image : ndarray) (dets : DataFrame) :
  send_telegram_alert w image dets =
  (trace (send_telegram_alert w image dets), Returns (alert_result w image dets)).
Proof.
  rewrite <- send_telegram_alert_outcome.
  now destruct (send_telegram_alert w image dets).
Qed.

(** The events of an alert: encoding the picture and posting it. *)
Definition is_dispatch (ev : Event) : bool :=
  match ev with
  | Imencode _ | Post _ _ _ _ => true
  | _ => false
  end.

Definition is_detect (ev : Event) : bool :=
  match ev with
  | Detect _ => true
  | _ => false
  end.

Lemma send_telegram_alert_no_detect (w : World) (image : ndarray) (dets : DataFrame) :
  existsb is_detect (trace (send_telegram_alert w image dets)) = false.
Proof.
  unfold send_telegram_alert.
  destruct (filter not_imprimiendo dets) as [|row rows]; [ reflexivity | ].
  cbn [empty].
  destruct (cv2_imencode w image) as [[[|] buffer]|msg]; try reflexivity.
  cbn.
  destruct (requests_post w _ _ _ buffer)
    as [[status_code text]|msg]; [ | reflexivity ].
  cbn. destruct (status_code =? 200)%Z; reflexivity.
Qed.

(** ** The sentinel filter *)

Lemma not_imprimiendo_true (row : Row) :
  not_imprimiendo row = true <-> str_lower (name row) <> "imprimiendo".
Proof.
  unfold not_imprimiendo. rewrite negb_true_iff. apply String.eqb_neq.
Qed.

Lemma not_imprimiendo_false (row : Row) :
  not_imprimiendo row = false <-> str_lower (name row) = "imprimiendo".
Proof.
  unfold not_imprimiendo. rewrite negb_false_iff. apply String.eqb_eq.
Qed.

Lemma filter_empty_iff {A : Type} (f : A -> bool) (l : list A) :
  empty (filter f l) = true <-> Forall (fun x => f x = false) l.
Proof.
  induction l as [|x l IH]; cbn [filter].
  - split; [ constructor | reflexivity ].
  - destruct (f x) eqn:E; cbn [empty].
    + split; [ discriminate | ]. intros H. inversion H; congruence.
    + rewrite IH. split; [ now constructor | ]. intros H. now inversion H.
Qed.

Lemma filter_nonempty_iff {A : Type} (f : A -> bool) (l : list A) :
  empty (filter f l) = false <-> Exists (fun x => f x = true) l.
Proof.
  induction l as [|x l IH]; cbn [filter].
  - split; [ discriminate | ]. intros H. inversion H.
  - destruct (f x) eqn:E; cbn [empty].
    + split; [ now constructor | reflexivity ].
    + rewrite IH. split; [ now constructor 2 | ].
      intros H. inversion H; [ congruence | assumption ].
Qed.

Lemma all_sentinel_filter (dets : DataFrame) :
  Forall (fun row => str_lower (name row) = "imprimiendo") dets ->
  empty (filter not_imprimiendo dets) = true.
Proof.
  intros H. apply filter_empty_iff. eapply Forall_impl; [ | exact H ].
  intros row. apply not_imprimiendo_false.
Qed.

Lemma some_error_filter (dets : DataFrame) :
  Exists (fun row => str_lower (name row) <> "imprimiendo") dets ->
  empty (filter not_imprimiendo dets) = false.
Proof.
  intros H. apply filter_nonempty_iff. eapply Exists_impl; [ | exact H ].
  intros row. apply not_imprimiendo_true.
Qed.

(** ** The detection summary *)

Lemma fold_append_detection (dets : DataFrame) (d : ResponseData) :
  fold_left append_detection dets d =
  mkResponseData (detections_found d) (detections d ++ map detection_of_row dets)
    (alert_sent d) (status d).
Proof.
  revert d. induction dets as [|row dets IH]; intros d.
  - cbn. rewrite app_nil_r. now destruct d.
  - cbn [fold_left map]. rewrite IH. cbn. now rewrite <- app_assoc.
Qed.

Definition info_line (verbose : bool) (msg : string) : list Event :=
  if verbose then [Log INFO msg] else [].

Lemma process_results_empty (verbose : bool) (w : World) (results : Results) :
  xyxy0 results = [] ->
  process_results verbose w results =
  ([], Returns (jsonify (DataJson (mkResponseData 0 [] false "normal")))).
Proof. intros H. unfold process_results. rewrite H. reflexivity. Qed.

Lemma process_results_normal (verbose : bool) (w : World) (results : Results) :
  xyxy0 results <> [] ->
  empty (filter not_imprimiendo (xyxy0 results)) = true ->
  process_results verbose w results =
  (info_line verbose "Solo se detectó 'imprimiendo' - Estado normal",
   Returns (jsonify (DataJson
     (mkResponseData (List.length (xyxy0 results))
        (map detection_of_row (xyxy0 results)) false "printing_normal")))).
Proof.
  intros Hne Hf. unfold process_results.
  destruct (xyxy0 results) as [|row dets] eqn:E; [ congruence | ].
  change (0 <? List.length (row :: dets))%nat with true. cbv iota.
  rewrite Hf, fold_append_detection. destruct verbose; reflexivity.
Qed.

Lemma process_results_error (verbose : bool) (w : World) (results : Results)
    (rendered : ndarray) :
  empty (filter not_imprimiendo (xyxy0 results)) = false ->
  render results = Ok rendered ->
  process_results verbose w results =
  (Render :: trace (send_telegram_alert w rendered (xyxy0 results))
     ++ info_line verbose
          ("Errores detectados: "
           ++ str_N (N.of_nat (List.length (filter not_imprimiendo (xyxy0 results))))
           ++ " tipos"),
   Returns (jsonify (DataJson
     (mkResponseData (List.length (xyxy0 results))
        (map detection_of_row (xyxy0 results))
        (alert_result w rendered (xyxy0 results)) "error_detected")))).
Proof.
  intros Hf Hr. unfold process_results.
  destruct (xyxy0 results) as [|row dets] eqn:E; [ discriminate | ].
  change (0 <? List.length (row :: dets))%nat with true. cbv iota.
  rewrite Hf, Hr, fold_append_detection.
  cbn [negb bind lib outcome_of_lib].
  pose proof (send_telegram_alert_outcome w rendered (row :: dets)) as Ho.
  destruct (send_telegram_alert w rendered (row :: dets)) as [ta [b|e]];
    cbn [outcome snd] in Ho; [ | discriminate ].
  injection Ho as <-.
  destruct verbose; cbn; rewrite ?app_nil_r; reflexivity.
Qed.

Lemma process_results_render_fails (verbose : bool) (w : World) (results : Results)
    (msg : string) :
  empty (filter not_imprimiendo (xyxy0 results)) = false ->
  render results = Fail msg ->
  process_results verbose w results =
  ([Render], Raises (mkExc OtherException msg)).
Proof.
  intros Hf Hr. unfold process_results.
  destruct (xyxy0 results) as [|row dets] eqn:E; [ discriminate | ].
  change (0 <? List.length (row :: dets))%nat with true. cbv iota.
  rewrite Hf, Hr. reflexivity.
Qed.


(** ** Requests that carry a byte stream to the decoder *)

(** [delivers r buf]: the handler of [r] passes the byte stream [buf] to
    [cv2.imdecode].  A multipart request carries the content of its named
    [image] file; a JSON request carries what its [image] field decodes to. *)
Inductive delivers : Request -> bytes -> Prop :=
| delivers_multipart (file : FileStorage) :
    filename file <> "" ->
    delivers (POST_detect (mkMultipart (Some file))) (read file)
| delivers_base64 (d : list (string * JValue)) (field : JValue) (buf : bytes) :
    dict_get "image" d = Some field ->
    decode_image_field field = Ok buf ->
    delivers (POST_detect_base64 (mkJsonRequest (Ok (BodyDict d)))) buf.

(** Only [detect_errors] writes the informational log lines. *)
Definition verbose_of (r : Request) : bool :=
  match r with
  | POST_detect _ => true
  | _ => false
  end.

(** The status code each handler gives a failure of the decoder itself:
    [detect_errors] has no handler of its own around the decoding. *)
Definition decoder_error_status (r : Request) : Z :=
  match r with
  | POST_detect _ => 500
  | _ => 400
  end.

Lemma lacks_image_found (d : list (string * JValue)) (field : JValue) :
  dict_get "image" d = Some field -> lacks_image (BodyDict d) = Ok false.
Proof.
  intros H. cbn [lacks_image]. rewrite H.
  destruct d; [ discriminate | reflexivity ].
Qed.

Lemma getitem_image_found (d : list (string * JValue)) (field : JValue) :
  dict_get "image" d = Some field -> getitem_image (BodyDict d) = Ok field.
Proof. intros H. cbn [getitem_image]. now rewrite H. Qed.

Ltac open_request H :=
  destruct H as [file Hname | d field buf Hget Hdec];
  [ apply String.eqb_neq in Hname;
    unfold app, detect_errors; cbn [files_image]; rewrite Hname; cbv zeta
  | unfold app, detect_errors_base64; cbn [get_json outcome_of_lib bind];
    rewrite (lacks_image_found _ _ Hget); cbn [outcome_of_lib bind];
    rewrite (getitem_image_found _ _ Hget); cbn [outcome_of_lib bind];
    rewrite Hdec; cbn [outcome_of_lib bind] ].

(** A request whose image decodes reaches the detector, and the answer is
    the summary of the detector's results. *)
Lemma app_detected (m : Model) (w : World) (r : Request) (buf : bytes)
    (image : ndarray) (results : Results) (t : list Event) (resp : Response) :
  delivers r buf ->
  cv2_imdecode w buf = Ok (Some image) ->
  m image = Ok results ->
  process_results (verbose_of r) w results = (t, Returns resp) ->
  app (Some m) w r = (Imdecode buf :: Detect image :: t, Returns resp).
Proof.
  intros Hd Himg Hm Hp.
  open_request Hd; rewrite Himg; cbn [bind lib outcome_of_lib try_except ret app];
    rewrite Hm; cbn [verbose_of] in Hp; cbn [bind lib outcome_of_lib];
    rewrite Hp; reflexivity.
Qed.

(** When the summary itself fails (rendering raised), the handler's
    catch-all answers 500. *)
Lemma app_detected_raises (m : Model) (w : World) (r : Request) (buf : bytes)
    (image : ndarray) (results : Results) (t : list Event) (msg : string) :
  delivers r buf ->
  cv2_imdecode w buf = Ok (Some image) ->
  m image = Ok results ->
  process_results (verbose_of r) w results = (t, Raises (mkExc OtherException msg)) ->
  exists t' j, app (Some m) w r = (t', Returns (jsonify_code (ErrorJson j) 500)).
Proof.
  intros Hd Himg Hm Hp.
  open_request Hd; rewrite Himg; cbn [bind lib outcome_of_lib try_except ret app];
    rewrite Hm; cbn [verbose_of] in Hp; cbn [bind lib outcome_of_lib];
    rewrite Hp; cbn; eauto.
Qed.

Lemma app_detector_raises (m : Model) (w : World) (r : Request) (buf : bytes)
    (image : ndarray) (msg : string) :
  delivers r buf ->
  cv2_imdecode w buf = Ok (Some image) ->
  m image = Fail msg ->
  exists t' j, app (Some m) w r = (t', Returns (jsonify_code (ErrorJson j) 500)).
Proof.
  intros Hd Himg Hm.
  open_request Hd; rewrite Himg; cbn [bind lib outcome_of_lib try_except ret app];
    rewrite Hm; cbn; eauto.
Qed.

(** The decoder finds no image: 400, and the detector is not called. *)
Lemma app_no_image (m : Model) (w : World) (r : Request) (buf : bytes) :
  delivers r buf ->
  cv2_imdecode w buf = Ok None ->
  app (Some m) w r =
  ([Imdecode buf],
   Returns (jsonify_code (ErrorJson "No se pudo decodificar la imagen") 400)).
Proof.
  intros Hd Himg. open_request Hd; rewrite Himg; reflexivity.
Qed.

(** The decoder itself raises: the detector is not called; the status is
    500 on [/detect] and 400 on [/detect_base64]. *)
Lemma app_decoder_raises (m : Model) (w : World) (r : Request) (buf : bytes)
    (msg : string) :
  delivers r buf ->
  cv2_imdecode w buf = Fail msg ->
  exists t j,
    app (Some m) w r = (Imdecode buf :: t, Returns (jsonify_code (ErrorJson j) (decoder_error_status r)))
    /\ existsb is_detect t = false.
Proof.
  intros Hd Himg. open_request Hd; rewrite Himg; cbn; eauto.
Qed.

(** No detector: every POST is answered 500. *)
Lemma app_no_model_post (w : World) (r : Request) :
  r <> GET_root ->
  app None w r = ([], Returns (jsonify_code (ErrorJson "Modelo no disponible") 500)).
Proof. destruct r; [ congruence | reflexivity | reflexivity ]. Qed.


(** ** What the two compared fields depend on *)

(** [detections_found] and [status] of the answer, as a function of the
    detector handle and of what the decoder made of the byte stream. *)
Definition expected_fields (model : option Model)
    (decoded : LibResult (option ndarray)) : option nat * option string :=
  match model, decoded with
  | Some m, Ok (Some image) =>
      match m image with
      | Ok results =>
          match xyxy0 results with
          | [] => (Some 0, Some "normal")
          | _ :: _ =>
              if empty (filter not_imprimiendo (xyxy0 results)) then
                (Some (List.length (xyxy0 results)), Some "printing_normal")
              else
                match render results with
                | Ok _ => (Some (List.length (xyxy0 results)), Some "error_detected")
                | Fail _ => (None, None)
                end
          end
      | Fail _ => (None, None)
      end
  | _, _ => (None, None)
  end.

Lemma app_fields (model : option Model) (w : World) (r : Request) (buf : bytes) :
  delivers r buf ->
  exists resp,
    outcome (app model w r) = Returns resp
    /\ (response_detections_found resp, response_status resp)
       = expected_fields model (cv2_imdecode w buf).
Proof.
  intros Hd. destruct model as [m|].
  2:{ rewrite app_no_model_post by (destruct Hd; discriminate).
      eexists; split; reflexivity. }
  unfold expected_fields.
  destruct (cv2_imdecode w buf) as [[image|]|msg] eqn:Himg.
  - destruct (m image) as [results|msg] eqn:Hm.
    + destruct (xyxy0 results) as [|row dets] eqn:Hx.
      * rewrite (app_detected m w r buf image results _ _ Hd Himg Hm
                   (process_results_empty _ w results Hx)).
        eexists; split; reflexivity.
      * rewrite <- Hx.
        destruct (empty (filter not_imprimiendo (xyxy0 results))) eqn:Hf.
        -- assert (Hne : xyxy0 results <> []) by (rewrite Hx; discriminate).
           rewrite (app_detected m w r buf image results _ _ Hd Himg Hm
                      (process_results_normal _ w results Hne Hf)).
           eexists; split; reflexivity.
        -- destruct (render results) as [rendered|msg] eqn:Hr.
           ++ rewrite (app_detected m w r buf image results _ _ Hd Himg Hm
                         (process_results_error _ w results rendered Hf Hr)).
              eexists; split; reflexivity.
           ++ destruct (app_detected_raises m w r buf image results _ msg Hd Himg Hm
                          (process_results_render_fails _ w results msg Hf Hr))
                as (t' & j & ->).
              eexists; split; reflexivity.
    + destruct (app_detector_raises m w r buf image msg Hd Himg Hm) as (t' & j & ->).
      eexists; split; reflexivity.
  - rewrite (app_no_image m w r buf Hd Himg). eexists; split; reflexivity.
  - destruct (app_decoder_raises m w r buf msg Hd Himg) as (t & j & -> & _).
    eexists; split; reflexivity.
Qed.

(** ** Requests without an image *)

Lemma detect_errors_no_file (m : Model) (w : World) :
  app (Some m) w (POST_detect (mkMultipart None)) =
  ([], Returns (jsonify_code (ErrorJson "No se envió ninguna imagen") 400)).
Proof. reflexivity. Qed.

Lemma detect_errors_no_filename (m : Model) (w : World) (content : bytes) :
  app (Some m) w (POST_detect (mkMultipart (Some (mkFile "" content)))) =
  ([], Returns (jsonify_code (ErrorJson "Archivo vacío") 400)).
Proof. reflexivity. Qed.

(** A body that fails the test [not data or 'image' not in data]. *)
Lemma detect_errors_base64_no_field (m : Model) (w : World) (data : JBody) :
  lacks_image data = Ok true ->
  app (Some m) w (POST_detect_base64 (mkJsonRequest (Ok data))) =
  ([], Returns (jsonify_code (ErrorJson "No se envió imagen en base64") 400)).
Proof.
  intros H. unfold app, detect_errors_base64. cbn [get_json outcome_of_lib bind].
  rewrite H. reflexivity.
Qed.

(** A body on which that test itself raises. *)
Lemma detect_errors_base64_not_iterable (m : Model) (w : World) (data : JBody)
    (msg : string) :
  lacks_image data = Fail msg ->
  app (Some m) w (POST_detect_base64 (mkJsonRequest (Ok data))) =
  ([Log ERROR ("Error en detección base64: " ++ msg)],
   Returns (jsonify_code (ErrorJson ("Error interno del servidor: " ++ msg)) 500)).
Proof.
  intros H. unfold app, detect_errors_base64. cbn [get_json outcome_of_lib bind].
  rewrite H. reflexivity.
Qed.

(** A request of which [get_json()] raises. *)
Lemma detect_errors_base64_no_json (m : Model) (w : World) (msg : string) :
  app (Some m) w (POST_detect_base64 (mkJsonRequest (Fail msg))) =
  ([Log ERROR ("Error en detección base64: " ++ msg)],
   Returns (jsonify_code (ErrorJson ("Error interno del servidor: " ++ msg)) 500)).
Proof. reflexivity. Qed.

(** A body that passes the test and cannot be indexed by ['image']. *)
Lemma detect_errors_base64_no_index (m : Model) (w : World) (data : JBody)
    (msg : string) :
  lacks_image data = Ok false ->
  getitem_image data = Fail msg ->
  app (Some m) w (POST_detect_base64 (mkJsonRequest (Ok data))) =
  ([], Returns (jsonify_code
                  (ErrorJson ("Error al decodificar imagen base64: " ++ msg)) 400)).
Proof.
  intros Hl Hg. unfold app, detect_errors_base64.
  cbn [get_json outcome_of_lib bind].
  rewrite Hl. cbn [outcome_of_lib bind]. rewrite Hg. reflexivity.
Qed.

Lemma detect_errors_base64_bad_field (m : Model) (w : World)
    (d : list (string * JValue)) (field : JValue) (msg : string) :
  dict_get "image" d = Some field ->
  decode_image_field field = Fail msg ->
  app (Some m) w (POST_detect_base64 (mkJsonRequest (Ok (BodyDict d)))) =
  ([], Returns (jsonify_code
                  (ErrorJson ("Error al decodificar imagen base64: " ++ msg)) 400)).
Proof.
  intros Hget Hdec. unfold app, detect_errors_base64.
  cbn [get_json outcome_of_lib bind].
  rewrite (lacks_image_found _ _ Hget). cbn [outcome_of_lib bind].
  rewrite (getitem_image_found _ _ Hget). cbn [outcome_of_lib bind].
  rewrite Hdec. reflexivity.
Qed.

(** ** The alert *)


(** With something to report the dispatcher starts by encoding the picture. *)
Lemma send_telegram_alert_attempts (w : World) (image : ndarray) (dets : DataFrame) :
  empty (filter not_imprimiendo dets) = false ->
  exists t, trace (send_telegram_alert w image dets) = Imencode image :: t.
Proof.
  intros H. unfold send_telegram_alert. rewrite H.
  destruct (cv2_imencode w image) as [[[|] buffer]|msg]; cbn; eauto.
  destruct (requests_post w _ _ _ buffer) as [[status_code text]|msg]; cbn; eauto.
  destruct (status_code =? 200)%Z; cbn; eauto.
Qed.

(** The text the loop adds for one detection. *)
Definition caption_entry (row : Row) : string :=
  ("🔹 *" ++ name row ++ "*" ++ nl
   ++ "Confianza: " ++ format_f 2 (confidence row) ++ nl
   ++ "Posición: x1=" ++ format_f 0 (xmin row)
   ++ ", y1=" ++ format_f 0 (ymin row)
   ++ ", x2=" ++ format_f 0 (xmax row)
   ++ ", y2=" ++ format_f 0 (ymax row) ++ nl ++ nl)%string.

Lemma append_assoc (a b c : string) : ((a ++ b) ++ c = a ++ (b ++ c))%string.
Proof. induction a as [|x a IH]; cbn; [ reflexivity | now rewrite IH ]. Qed.

Lemma message_add_entry (message : string) (row : Row) :
  message_add message row = (message ++ caption_entry row)%string.
Proof.
  unfold message_add, caption_entry.
  repeat rewrite append_assoc. reflexivity.
Qed.

(** The caption is the header followed by one entry per row, in order. *)
Lemma fold_message_add (rows : list Row) (message : string) :
  fold_left message_add rows message =
  (message ++ String.concat "" (map caption_entry rows))%string.
Proof.
  revert message. induction rows as [|row rows IH]; intros message.
  - cbn. now rewrite PyFacts.append_empty_r.
  - cbn [fold_left map]. rewrite IH, message_add_entry, append_assoc.
    f_equal. destruct rows as [|row' rows]; cbn.
    + now rewrite PyFacts.append_empty_r.
    + reflexivity.
Qed.

(** When the picture is encoded, exactly one photo is posted, with the
    caption built from the rows that pass the filter. *)
Lemma send_telegram_alert_posts (w : World) (image : ndarray) (dets : DataFrame)
    (buffer : bytes) :
  empty (filter not_imprimiendo dets) = false ->
  cv2_imencode w image = Ok (true, buffer) ->
  exists line,
    trace (send_telegram_alert w image dets) =
    [Imencode image;
     Post (sendPhoto_url w) (CHAT_ID w)
       (fold_left message_add (filter not_imprimiendo dets) message_header) buffer;
     Log (fst line) (snd line)].
Proof.
  intros H Henc. unfold send_telegram_alert. rewrite H, Henc.
  cbn [negb bind lib outcome_of_lib].
  destruct (requests_post w _ _ _ buffer) as [[status_code text]|msg].
  - cbn. destruct (status_code =? 200)%Z; cbn.
    + now exists (INFO, "Alerta enviada a Telegram (errores detectados)").
    + now exists (ERROR, ("Error al enviar alerta a Telegram: " ++ text)%string).
  - cbn. now exists (ERROR, ("Error en send_telegram_alert: " ++ msg)%string).
Qed.

(** ** What the client's two encodings deliver *)

Lemma data_uri_decodes (buffer : bytes) :
  decode_image_field (JString (Client.data_uri buffer)) = Ok buffer.
Proof.
  unfold decode_image_field.
  destruct (Base64Facts.b64encode_chars buffer) as [_ Hc].
  assert (E : Client.data_uri buffer
              = ("data:image/jpeg;base64" ++ String "," (b64encode buffer))%string)
    by reflexivity.
  assert (Hin : str_contains "," (Client.data_uri buffer) = true) by reflexivity.
  rewrite Hin, E.
  rewrite (Base64Facts.str_split_at_sep "," "data:image/jpeg;base64"
             (b64encode buffer) eq_refl Hc).
  cbn [list_index nth_error]. apply Base64Facts.b64decode_b64encode.
Qed.

Lemma raw_base64_decodes (buffer : bytes) :
  decode_image_field (JString (b64encode buffer)) = Ok buffer.
Proof.
  unfold decode_image_field.
  destruct (Base64Facts.b64encode_chars buffer) as [_ ->].
  apply Base64Facts.b64decode_b64encode.
Qed.

End AppFacts.

(* ================================================================== *)
(** * Facts about the capture client *)
(* ================================================================== *)

Module ClientFacts.
Import Py Client TraceFacts.

(** A call that did not succeed, for a reason other than an interrupt from
    the keyboard: it raised an error (a timeout or any network error of
    requests, or anything else deriving from [Exception]), or the server
    answered with a status other than 200. *)
Definition upload_failed (o : Outcome HttpResponse) : Prop :=
  match o with
  | Raises e => is_Exception (exc_class e) = true
  | Returns response => status_code response <> 200%Z
  end.

(** A call that was not interrupted from the keyboard. *)
Definition not_interrupted {A : Type} (o : Outcome A) : Prop :=
  match o with
  | Raises e => is_Exception (exc_class e) = true
  | Returns _ => True
  end.

(** The HTTP posts among the events. *)
Definition is_post (ev : Event) : bool :=
  match ev with
  | PostFiles _ _ _ _ | PostJson _ _ => true
  | _ => false
  end.

Definition primary_url : string := (SERVER_URL ++ "/detect")%string.
Definition fallback_url : string := (SERVER_URL ++ "/detect_base64")%string.

(** The module runs with the namespace its own statements set up. *)
Definition as_written (w : World) : Prop := globals w = module_globals.

(** The world [w] with the namespace of the module as it is written. *)
Definition unimported (w : World) : World :=
  mkWorld module_globals (picamera2_new w) (picamera2_configure_start w)
    (camera_capture_array w) (camera_read w) (camera_stop w) (now_strftime w)
    (session_post_files w) (session_post_json w) (session_get w).

Lemma unimported_as_written (w : World) : as_written (unimported w).
Proof. reflexivity. Qed.

(** ** Bound names *)

Lemma cv2_imencode_bound (w : World) (image : ndarray) (buffer : bytes) :
  cv2_imencode w image = Returns buffer ->
  exists cv2, g_cv2 (globals w) = Some cv2 /\ imencode cv2 image = Returns buffer.
Proof.
  unfold cv2_imencode. destruct (g_cv2 (globals w)) as [cv2|]; [ | discriminate ].
  intros H. now exists cv2.
Qed.

Lemma cv2_imwrite_bound (w : World) (path : string) (image : ndarray) (saved : bool) :
  cv2_imwrite w path image = Returns saved ->
  exists cv2, g_cv2 (globals w) = Some cv2 /\ imwrite cv2 path image = Returns saved.
Proof.
  unfold cv2_imwrite. destruct (g_cv2 (globals w)) as [cv2|]; [ | discriminate ].
  intros H. now exists cv2.
Qed.

Lemma time_sleep_bound (w : World) (seconds : Z) :
  time_sleep w seconds = Returns tt ->
  exists time, g_time (globals w) = Some time /\ sleep time seconds = Returns tt.
Proof.
  unfold time_sleep. destruct (g_time (globals w)) as [time|]; [ | discriminate ].
  intros H. now exists time.
Qed.

(** A call through a global name, as one computation. *)
Lemma global_call {A B : Type} (name : string) (v : option A) (ev : Event)
    (f : A -> Outcome B) :
  bind (global name v) (fun x => call ev (f x)) =
  match v with
  | Some x => call ev (f x)
  | None => raise (name_error name)
  end.
Proof. destruct v as [x|]; [ | reflexivity ]. cbn. now destruct (f x). Qed.

(** ** Posts *)

Lemma capture_image_no_post (w : World) :
  filter is_post (trace (capture_image w)) = [].
Proof.
  change (silent is_post (capture_image w)).
  unfold capture_image, global, logger_error. cbn [USE_PI_CAMERA]. silence.
Qed.

Lemma log_detections_silent (P : Event -> bool) (ds : list ResultDetection) :
  (forall lvl msg, P (Log lvl msg) = false) -> silent P (log_detections ds).
Proof.
  intros HP. induction ds as [|d ds IH]; cbn [log_detections].
  - apply silent_ret.
  - unfold getitem, logger_info.
    apply silent_bind; [ destruct (rd_name d); silence | intros n ].
    apply silent_bind; [ destruct (rd_confidence d); silence | intros c ].
    apply silent_bind; [ apply silent_emit, HP | intros _; exact IH ].
Qed.

(** What follows the post in [send_image_to_server] only writes to the log. *)
Lemma after_primary_post_silent (response : HttpResponse) :
  silent is_post
    (if (status_code response =? 200)%Z then
       bind (response_json response) (fun result =>
       bind (logger_info ("Respuesta del servidor: " ++ r_repr result)) (fun _ =>
       bind (getitem "detections_found" (r_detections_found result)) (fun found =>
       bind (if (0 <? found)%Z then
               bind (logger_info ("Detecciones encontradas: " ++ str_Z found)) (fun _ =>
               bind (getitem "detections" (r_detections result)) (fun ds =>
               bind (log_detections ds) (fun _ =>
               bind (getitem "status" (r_status result)) (fun st =>
               if String.eqb st "error_detected" then
                 logger_warning "⚠️ ERROR DETECTADO - Alerta enviada a Telegram"
               else if String.eqb st "printing_normal" then
                 logger_info "✅ Impresión normal detectada"
               else ret tt))))
             else logger_info "No se detectaron objetos") (fun _ =>
       ret (Some result)))))
     else
       bind (logger_error ("Error del servidor: " ++ str_Z (status_code response)
                           ++ " - " ++ text response)) (fun _ =>
       ret None)).
Proof.
  unfold getitem, logger_info, logger_warning, logger_error, response_json.
  destruct (status_code response =? 200)%Z; [ | silence ].
  apply silent_bind; [ destruct (json response); silence | intros result ].
  apply silent_bind; [ silence | intros _ ].
  apply silent_bind; [ destruct (r_detections_found result); silence | intros found ].
  apply silent_bind; [ | intros; silence ].
  destruct (0 <? found)%Z; [ | silence ].
  apply silent_bind; [ silence | intros _ ].
  apply silent_bind; [ destruct (r_detections result); silence | intros ds ].
  apply silent_bind; [ now apply log_detections_silent | intros _ ].
  apply silent_bind; [ destruct (r_status result); silence | intros st ].
  silence.
Qed.

(** The clauses of [send_image_to_server] post nothing. *)
Lemma send_image_to_server_handler_silent (w : World) (e : PyExc) :
  silent is_post
    (bind (global "requests" (g_requests (globals w))) (fun _ =>
       if is_RequestException (exc_class e) then
         bind (logger_error ("Error de conexión: " ++ exc_str e)) (fun _ => ret None)
       else if is_Exception (exc_class e) then
         bind (logger_error ("Error al enviar imagen: " ++ exc_str e)) (fun _ => ret None)
       else raise e : M Event (option Result))).
Proof. unfold global, logger_error. silence. Qed.

(** The posts of the primary upload: the encoded frame, once, unless the
    encoding itself raised. *)
Lemma send_image_to_server_posts_all (w : World) (image : ndarray) :
  events is_post (send_image_to_server w image) =
  match cv2_imencode w image with
  | Returns buffer => [PostFiles primary_url "capture.jpg" buffer "image/jpeg"]
  | Raises _ => []
  end.
Proof.
  unfold send_image_to_server.
  rewrite events_try_except.
  match goal with
  | |- ?a ++ ?b = _ => replace b with (@nil Event)
  end.
  2:{ match goal with |- _ = match ?o with _ => _ end => destruct o as [a|e] end;
      [ reflexivity | ]. symmetry. apply send_image_to_server_handler_silent. }
  rewrite app_nil_r, events_bind. unfold cv2_imencode.
  destruct (g_cv2 (globals w)) as [cv2|]; [ | reflexivity ].
  cbn [global ret outcome snd events trace fst filter app].
  rewrite events_bind.
  destruct (imencode cv2 image) as [buffer|e]; [ | reflexivity ].
  cbn [call outcome snd events trace fst filter is_post app].
  rewrite events_bind. cbn [emit logger_info outcome snd events trace fst filter is_post app].
  rewrite events_bind. fold primary_url.
  cbn [call outcome snd events trace fst filter is_post app].
  f_equal.
  destruct (session_post_files w primary_url "capture.jpg" buffer "image/jpeg")
    as [response|e]; [ | reflexivity ].
  apply after_primary_post_silent.
Qed.

(** The posts of the fallback: the data URI of the encoded frame, once,
    unless the encoding itself raised. *)
Lemma send_image_base64_posts_all (w : World) (image : ndarray) :
  events is_post (send_image_base64 w image) =
  match cv2_imencode w image with
  | Returns buffer => [PostJson fallback_url (data_uri buffer)]
  | Raises _ => []
  end.
Proof.
  unfold send_image_base64.
  rewrite events_try_except.
  match goal with
  | |- ?a ++ ?b = _ => replace b with (@nil Event)
  end.
  2:{ match goal with |- _ = match ?o with _ => _ end => destruct o as [a|e] end;
      [ reflexivity | ]. destruct (is_Exception (exc_class e)); reflexivity. }
  rewrite app_nil_r, events_bind. unfold cv2_imencode.
  destruct (g_cv2 (globals w)) as [cv2|]; [ | reflexivity ].
  cbn [global ret outcome snd events trace fst filter app].
  rewrite events_bind.
  destruct (imencode cv2 image) as [buffer|e]; [ | reflexivity ].
  cbn [call outcome snd events trace fst filter is_post app]. cbv zeta.
  rewrite events_bind. cbn [emit logger_info outcome snd events trace fst filter is_post app].
  rewrite events_bind. fold fallback_url.
  cbn [call outcome snd events trace fst filter is_post app].
  f_equal.
  destruct (session_post_json w fallback_url (data_uri buffer))
    as [response|e]; [ | reflexivity ].
  change (silent is_post
    (if (status_code response =? 200)%Z then
       bind (response_json response) (fun result =>
       bind (logger_info ("Respuesta del servidor: " ++ r_repr result)) (fun _ =>
       ret (Some result)))
     else
       bind (logger_error ("Error del servidor: " ++ str_Z (status_code response)
                           ++ " - " ++ text response)) (fun _ =>
       ret None))).
  unfold response_json, logger_info, logger_error. silence.
Qed.

(** The primary upload posts the encoded frame as the file [capture.jpg],
    however the call ends. *)
Lemma send_image_to_server_posts (w : World) (image : ndarray) (buffer : bytes) :
  cv2_imencode w image = Returns buffer ->
  In (PostFiles primary_url "capture.jpg" buffer "image/jpeg")
     (trace (send_image_to_server w image)).
Proof.
  intros Henc. pose proof (send_image_to_server_posts_all w image) as H.
  rewrite Henc in H. apply (proj1 (filter_In is_post _ _)).
  unfold events in H. rewrite H. now left.
Qed.

(** The fallback posts the data URI of the same encoded frame, once,
    however the call ends. *)
Lemma send_image_base64_posts_once (w : World) (image : ndarray) (buffer : bytes) :
  cv2_imencode w image = Returns buffer ->
  filter is_post (trace (send_image_base64 w image)) =
  [PostJson fallback_url (data_uri buffer)].
Proof.
  intros Henc. pose proof (send_image_base64_posts_all w image) as H.
  now rewrite Henc in H.
Qed.

(** ** The client as it is written *)

Lemma capture_image_as_written (w : World) :
  as_written w ->
  capture_image w =
  match camera_capture_array w with
  | Returns _ =>
      ([CaptureArray;
        Log ERROR "Error al capturar imagen: name 'cv2' is not defined"],
       Returns None)
  | Raises e =>
      if is_Exception (exc_class e)
      then ([CaptureArray; Log ERROR ("Error al capturar imagen: " ++ exc_str e)],
            Returns None)
      else ([CaptureArray], Raises e)
  end.
Proof.
  intros Hw. unfold capture_image. cbn [USE_PI_CAMERA]. rewrite Hw.
  destruct (camera_capture_array w) as [raw|[[] msg]]; reflexivity.
Qed.

Lemma send_image_to_server_as_written (w : World) (image : ndarray) :
  as_written w ->
  send_image_to_server w image = ([], Raises (name_error "requests")).
Proof. intros Hw. unfold send_image_to_server. rewrite Hw. reflexivity. Qed.

Lemma send_image_base64_as_written (w : World) (image : ndarray) :
  as_written w ->
  send_image_base64 w image =
  ([Log ERROR "Error al enviar imagen base64: name 'cv2' is not defined"],
   Returns None).
Proof. intros Hw. unfold send_image_base64. rewrite Hw. reflexivity. Qed.

(** A turn of the loop: the frame is lost with the NameError of [cv2],
    the pause of 5 seconds raises the NameError of [time], and so does the
    pause of 10 seconds in the handler; only an interrupt of the camera
    read ends the turn otherwise. *)
Lemma loop_iteration_as_written (w : World) :
  as_written w ->
  loop_iteration w =
  match camera_capture_array w with
  | Raises e =>
      if is_Exception (exc_class e)
      then ([CaptureArray; Log ERROR ("Error al capturar imagen: " ++ exc_str e);
             Log WARNING "No se pudo capturar imagen, reintentando...";
             Log ERROR "Error en el bucle principal: name 'time' is not defined"],
            Raises (name_error "time"))
      else ([CaptureArray; Log INFO "Interrupción por teclado recibida"],
            Returns Break)
  | Returns _ =>
      ([CaptureArray;
        Log ERROR "Error al capturar imagen: name 'cv2' is not defined";
        Log WARNING "No se pudo capturar imagen, reintentando...";
        Log ERROR "Error en el bucle principal: name 'time' is not defined"],
       Raises (name_error "time"))
  end.
Proof.
  intros Hw. unfold loop_iteration, loop_try.
  rewrite (capture_image_as_written w Hw), Hw.
  destruct (camera_capture_array w) as [raw|[[] msg]]; reflexivity.
Qed.

Lemma main_as_written (start : World) (turns : list World) :
  as_written start ->
  main start turns = ([], Raises (name_error "requests")).
Proof. intros Hw. unfold main, CameraClient. rewrite Hw. reflexivity. Qed.

(** ** The client with its three modules imported *)

(** A failed primary upload: one multipart post, and no result. *)
Lemma send_image_to_server_failed (w : World) (image : ndarray) (buffer : bytes) :
  g_requests (globals w) <> None ->
  cv2_imencode w image = Returns buffer ->
  upload_failed (session_post_files w primary_url "capture.jpg" buffer "image/jpeg") ->
  outcome (send_image_to_server w image) = Returns None
  /\ filter is_post (trace (send_image_to_server w image)) =
     [PostFiles primary_url "capture.jpg" buffer "image/jpeg"].
Proof.
  intros Hreq Henc Hfail. split.
  2:{ pose proof (send_image_to_server_posts_all w image) as H.
      now rewrite Henc in H. }
  destruct (cv2_imencode_bound w image buffer Henc) as (cv2 & Hg & He).
  destruct (g_requests (globals w)) as [requests|] eqn:Hr; [ | now destruct Hreq ].
  unfold send_image_to_server. rewrite Hg, Hr.
  cbn [global bind ret]. rewrite He.
  cbn [bind call emit logger_info].
  fold primary_url.
  destruct (session_post_files w primary_url "capture.jpg" buffer "image/jpeg")
    as [response|[cls msg]]; cbn [upload_failed exc_class] in Hfail.
  - apply Z.eqb_neq in Hfail. cbn [bind call]. rewrite Hfail. reflexivity.
  - destruct cls; try discriminate; reflexivity.
Qed.

(** Unless interrupted from the keyboard, the fallback returns: a result,
    or [None] after a logged error. *)
Lemma send_image_base64_returns (w : World) (image : ndarray) (buffer : bytes) :
  cv2_imencode w image = Returns buffer ->
  not_interrupted (session_post_json w fallback_url (data_uri buffer)) ->
  exists result, outcome (send_image_base64 w image) = Returns result.
Proof.
  intros Henc Hni.
  destruct (cv2_imencode_bound w image buffer Henc) as (cv2 & Hg & He).
  unfold send_image_base64. rewrite Hg.
  cbn [global bind ret]. rewrite He.
  cbn [bind call emit logger_info].
  fold fallback_url.
  destruct (session_post_json w fallback_url (data_uri buffer))
    as [response|[cls msg]]; cbn [not_interrupted exc_class] in Hni.
  - cbn [bind call]. destruct (status_code response =? 200)%Z.
    + unfold response_json. destruct (json response) as [result|msg]; cbn; eauto.
    + cbn; eauto.
  - destruct cls; try discriminate; cbn; eauto.
Qed.

(** [l] ends with the event [x]. *)
Definition ends_with (l : list Event) (x : Event) : Prop :=
  exists t, l = t ++ [x].

Lemma ends_with_last (x : Event) : ends_with [x] x.
Proof. now exists []. Qed.

Lemma ends_with_cons (y x : Event) (l : list Event) :
  ends_with l x -> ends_with (y :: l) x.
Proof. intros [t ->]. now exists (y :: t). Qed.

Lemma ends_with_app (l1 l2 : list Event) (x : Event) :
  ends_with l2 x -> ends_with (l1 ++ l2) x.
Proof. intros [t ->]. exists (l1 ++ t). now rewrite app_assoc. Qed.

Definition capture_path (w : World) : string :=
  ("captures/capture_" ++ now_strftime w ++ ".jpg")%string.

(** The handlers of the loop's [try] post nothing. *)
Lemma loop_iteration_posts (w : World) :
  filter is_post (trace (loop_iteration w)) = filter is_post (trace (loop_try w)).
Proof.
  change (events is_post (loop_iteration w) = events is_post (loop_try w)).
  unfold loop_iteration. rewrite events_try_except, events_bind.
  cbn [bind].
  assert (Hh : forall e : PyExc,
    silent is_post
      (if is_KeyboardInterrupt (exc_class e) then
         bind (logger_info "Interrupción por teclado recibida") (fun _ => ret Break)
       else
         bind (logger_error ("Error en el bucle principal: " ++ exc_str e)) (fun _ =>
         bind (global "time" (g_time (globals w))) (fun time =>
         bind (call (Sleep 10) (sleep time 10)) (fun _ => ret NextIteration)))
       : M Event Control)).
  { intros e. unfold logger_info, logger_error, global. silence. }
  destruct (loop_try w) as [t [u|e]]; cbn [outcome snd events trace fst ret].
  - now rewrite !app_nil_r.
  - rewrite app_nil_r. cbn [bind outcome snd].
    rewrite (Hh e). apply app_nil_r.
Qed.

(** Reads a goal [events P m = []] as [silent P m]. *)
Ltac to_silent :=
  match goal with
  | |- events ?P ?m = [] => change (silent P m)
  | |- [] = events ?P ?m => symmetry; change (silent P m)
  end.

(** The posts of the statements in the loop's [try]. *)
Lemma loop_try_posts_all (w : World) :
  events is_post (loop_try w) =
  match outcome (capture_image w) with
  | Returns (Some image) =>
      match cv2_imwrite w (capture_path w) image with
      | Returns _ =>
          events is_post (send_image_to_server w image)
          ++ match outcome (send_image_to_server w image) with
             | Returns None => events is_post (send_image_base64 w image)
             | _ => []
             end
      | Raises _ => []
      end
  | _ => []
  end.
Proof.
  unfold loop_try. fold (capture_path w). rewrite events_bind.
  replace (events is_post (capture_image w)) with (@nil Event)
    by (symmetry; apply capture_image_no_post).
  cbn [app].
  destruct (outcome (capture_image w)) as [[image|]|e]; [ | | reflexivity ].
  2:{ to_silent. unfold logger_warning, global.
      silence. }
  cbv zeta. fold (capture_path w).
  rewrite events_bind. unfold cv2_imwrite.
  destruct (g_cv2 (globals w)) as [cv2|]; [ | reflexivity ].
  cbn [global ret outcome snd events trace fst filter app].
  rewrite events_bind.
  destruct (imwrite cv2 (capture_path w) image) as [saved|e]; [ | reflexivity ].
  cbn [call outcome snd events trace fst filter is_post app].
  rewrite events_bind. f_equal.
  destruct (outcome (send_image_to_server w image)) as [[r|]|e]; [ | | reflexivity ].
  - to_silent.
    unfold logger_info, global. silence.
  - rewrite events_bind.
    match goal with
    | |- ?a ++ ?b = _ => replace b with (@nil Event)
    end.
    2:{ match goal with |- _ = match ?o with _ => _ end => destruct o end;
        [ | reflexivity ].
        to_silent. unfold logger_info, global. silence. }
    rewrite app_nil_r, events_bind. reflexivity.
Qed.

(** A turn in which the frame was captured and saved and the primary
    upload failed: the posts of the turn are the primary one and one
    fallback, however the fallback and the pause end. *)
Lemma loop_try_posts (w : World) (image : ndarray) (saved : bool) (buffer : bytes) :
  g_requests (globals w) <> None ->
  outcome (capture_image w) = Returns (Some image) ->
  cv2_imwrite w (capture_path w) image = Returns saved ->
  cv2_imencode w image = Returns buffer ->
  upload_failed (session_post_files w primary_url "capture.jpg" buffer "image/jpeg") ->
  filter is_post (trace (loop_try w)) =
  [PostFiles primary_url "capture.jpg" buffer "image/jpeg";
   PostJson fallback_url (data_uri buffer)].
Proof.
  intros Hreq Hcap Hwrite Henc Hfail.
  destruct (send_image_to_server_failed w image buffer Hreq Henc Hfail) as [Ho1 Ht1].
  pose proof (loop_try_posts_all w) as H. unfold events in H.
  rewrite H, Hcap, Hwrite, Ho1, Ht1.
  now rewrite (send_image_base64_posts_once w image buffer Henc).
Qed.

(** If moreover neither the fallback nor the pause is interrupted from the
    keyboard, the turn ends with the pause and asks for the next turn,
    whatever the fallback achieved. *)
Lemma loop_iteration_continues (w : World) (image : ndarray) (saved : bool)
    (buffer : bytes) :
  g_requests (globals w) <> None ->
  outcome (capture_image w) = Returns (Some image) ->
  cv2_imwrite w (capture_path w) image = Returns saved ->
  cv2_imencode w image = Returns buffer ->
  upload_failed (session_post_files w primary_url "capture.jpg" buffer "image/jpeg") ->
  not_interrupted (session_post_json w fallback_url (data_uri buffer)) ->
  time_sleep w CAPTURE_INTERVAL = Returns tt ->
  outcome (loop_iteration w) = Returns NextIteration
  /\ ends_with (trace (loop_iteration w)) (Sleep CAPTURE_INTERVAL).
Proof.
  intros Hreq Hcap Hwrite Henc Hfail Hni Hsleep.
  destruct (send_image_to_server_failed w image buffer Hreq Henc Hfail) as [Ho1 _].
  destruct (send_image_base64_returns w image buffer Henc Hni) as [r2 Ho2].
  destruct (cv2_imwrite_bound _ _ _ _ Hwrite) as (cv2 & Hg & Hw).
  destruct (time_sleep_bound _ _ Hsleep) as (time & Ht & Hs).
  unfold loop_iteration, loop_try. fold (capture_path w).
  destruct (capture_image w) as [tc oc]. cbn [outcome snd] in Hcap.
  subst oc. cbn [bind]. rewrite Hg, Ht. cbn [global bind ret]. rewrite Hw.
  cbn [bind call].
  destruct (send_image_to_server w image) as [t1 o1].
  cbn [outcome snd] in Ho1. subst o1. cbn [bind emit logger_info].
  destruct (send_image_base64 w image) as [t2 o2].
  cbn [outcome snd] in Ho2. subst o2. cbn [bind emit logger_info].
  rewrite Hs. cbn [bind call ret try_except outcome snd trace fst].
  split; [ reflexivity | ].
  rewrite ?app_nil_r.
  repeat first [ apply ends_with_last | apply ends_with_app | apply ends_with_cons ].
Qed.

(** After a turn that asks for the next one, the loop goes on with the
    remaining turns. *)
Lemma main_loop_next (w : World) (turns : list World) :
  outcome (loop_iteration w) = Returns NextIteration ->
  main_loop (w :: turns) =
  (trace (loop_iteration w) ++ trace (main_loop turns), outcome (main_loop turns)).
Proof.
  intros H. cbn [main_loop].
  destruct (loop_iteration w) as [t o]. cbn [outcome snd trace fst] in *. subst o.
  cbn [bind]. now destruct (main_loop turns).
Qed.

(** With [requests], [time] and [cv2] imported, the cycle does what it was
    written for: in a turn in which a frame was captured and saved and the
    primary multipart upload failed, the posts of the turn are the primary
    one followed by exactly one fallback post of the same frame as a
    base64 data URI; unless the fallback or the pause is interrupted from
    the keyboard, the turn ends with the pause of [CAPTURE_INTERVAL]
    seconds and the loop goes on with the next turn. *)
Lemma fallback_once_when_imported
    (w : World) (image : ndarray) (saved : bool) (buffer : bytes) :
  g_requests (globals w) <> None ->
  outcome (capture_image w) = Returns (Some image) ->
  cv2_imwrite w (capture_path w) image = Returns saved ->
  cv2_imencode w image = Returns buffer ->
  upload_failed (session_post_files w primary_url "capture.jpg" buffer "image/jpeg") ->
  filter is_post (trace (loop_iteration w))
  = [PostFiles primary_url "capture.jpg" buffer "image/jpeg";
     PostJson fallback_url (data_uri buffer)]
  /\ (not_interrupted (session_post_json w fallback_url (data_uri buffer)) ->
      time_sleep w CAPTURE_INTERVAL = Returns tt ->
      outcome (loop_iteration w) = Returns NextIteration
      /\ ends_with (trace (loop_iteration w)) (Sleep CAPTURE_INTERVAL)
      /\ forall turns : list World,
           main_loop (w :: turns)
           = (trace (loop_iteration w) ++ trace (main_loop turns),
              outcome (main_loop turns))).
Proof.
  intros Hreq Hcap Hwrite Henc Hfail. split.
  - rewrite loop_iteration_posts.
    apply (loop_try_posts w image saved buffer Hreq Hcap Hwrite Henc Hfail).
  - intros Hni Hsleep.
    destruct (loop_iteration_continues w image saved buffer
                Hreq Hcap Hwrite Henc Hfail Hni Hsleep) as [Ho He].
    repeat split; [ exact Ho | exact He | ].
    intros turns. now apply main_loop_next.
Qed.

End ClientFacts.

(* ================================================================== *)
(** * Concrete scenarios *)
(* ================================================================== *)

Module Scenario.
Import Py App.

Definition frame : ndarray := mk_ndarray [1; 2; 3]%N [0; 0; 0; 0; 0; 0]%N.
Definition annotated : ndarray := mk_ndarray [1; 2; 3]%N [255; 0; 0; 0; 0; 0]%N.

Definition whole (n : N) : pyfloat := mkFloat false n 0.

(** The doubles nearest to 0.91 and 0.77. *)
Definition conf_091 : pyfloat := mkFloat false 8196551321814303 (-53).
Definition conf_077 : pyfloat := mkFloat false 1733885856537641 (-51).

Definition imprimiendo_row : Row :=
  mkRow "imprimiendo" conf_091 (whole 5) (whole 6) (whole 70) (whole 80).
Definition stringing_row : Row :=
  mkRow "stringing" conf_077 (whole 10) (whole 20) (whole 110) (whole 220).
Definition capitalised_row : Row :=
  mkRow "Imprimiendo" conf_091 (whole 5) (whole 6) (whole 70) (whole 80).

Definition jpeg : bytes := [xff; xd8; xff; xe0].

(** OpenCV and Telegram as they usually behave: the decoder refuses an
    empty buffer by assertion, finds no image in a buffer that does not
    start like a JPEG file, and decodes the others; encoding and posting
    succeed. *)
Definition usual_world : World :=
  mkWorld "TOKEN" "CHAT"
    (fun buf =>
       match buf with
       | [] => Fail "(-215:Assertion failed) !buf.empty() in function 'imdecode_'"
       | xff :: xd8 :: _ => Ok (Some frame)
       | _ => Ok None
       end)
    (fun _ => Ok (true, jpeg))
    (fun _ _ _ _ => Ok (200%Z, "ok")).

(** The same with a chat service that is down. *)
Definition telegram_down : World :=
  mkWorld "TOKEN" "CHAT" (cv2_imdecode usual_world) (cv2_imencode usual_world)
    (fun _ _ _ _ => Fail "Connection refused").

(** A detector that answers every image with [batch]. *)
Definition detector (batch : DataFrame) : Model :=
  fun _ => Ok (mkResults batch (Ok annotated)).

(** The three modules the client needs, as they usually behave. *)
Definition imported : Client.Globals :=
  Client.mkGlobals
    (Some (Client.mkRequests (Returns tt)))
    (Some (Client.mkTime (fun _ => Returns tt)))
    (Some (Client.mkCv2 (Returns true) (fun a => Returns a)
             (fun _ _ => Returns true) (fun _ => Returns jpeg))).

(** A turn of the client's loop, the three modules being imported: the
    camera works, the multipart upload times out and the server answers
    the base64 upload with 503. *)
Definition timeout_turn : Client.World :=
  Client.mkWorld imported (Returns tt) (Returns tt)
    (Returns frame) (Returns (true, frame)) (Returns tt)
    "20250101_120000"
    (fun _ _ _ _ => Raises (mkExc RequestException "Read timed out."))
    (fun _ _ =>
       Returns (Client.mkHttpResponse 503 "Service Unavailable"
                  (Fail "Expecting value") (Fail "Expecting value")))
    (fun _ => Raises (mkExc RequestException "Connection refused")).

(** The same camera and network for raspberry_client.py as it is written:
    [requests], [time] and [cv2] are not bound. *)
Definition timeout_turn_as_written : Client.World :=
  Client.mkWorld Client.module_globals (Returns tt) (Returns tt)
    (Returns frame) (Returns (true, frame)) (Returns tt)
    "20250101_120000"
    (fun _ _ _ _ => Raises (mkExc RequestException "Read timed out."))
    (fun _ _ =>
       Returns (Client.mkHttpResponse 503 "Service Unavailable"
                  (Fail "Expecting value") (Fail "Expecting value")))
    (fun _ => Raises (mkExc RequestException "Connection refused")).

End Scenario.

(* ================================================================== *)
(** * Properties of the server *)
(* ================================================================== *)

Module ServerClaims.
Import Py App AppFacts.

(** C1, counterexample.  The claim as written lets any label other than
    the string "imprimiendo" cause [error_detected].  A batch whose only
    label is "Imprimiendo" contains such a label, and both handlers answer
    [printing_normal] without any dispatch. *)
Lemma capitalised_label_is_not_an_error :
  Exists (fun row => name row <> "imprimiendo") [Scenario.capitalised_row]
  /\ (forall r, In r [Wire.multipart_upload Scenario.jpeg;
                      Wire.base64_upload Scenario.jpeg] ->
      exists t resp,
        app (Some (Scenario.detector [Scenario.capitalised_row]))
            Scenario.usual_world r = (t, Returns resp)
        /\ response_status resp = Some "printing_normal"
        /\ response_status resp <> Some "error_detected"
        /\ existsb is_dispatch t = false).
Proof.
  split.
  - constructor. discriminate.
  - intros r [<- | [<- | []]]; vm_compute; do 2 eexists;
      repeat split; discriminate.
Qed.

(** C1, amended.  For every detection batch containing at least one
    detection whose label, lower-cased, is not "imprimiendo", a request on
    either endpoint whose image decodes and whose annotated picture is
    rendered is answered 200 with [status = "error_detected"]; the alert
    dispatcher is run on the rendered picture and the whole batch (it
    starts by encoding the picture), and [alert_sent] is what it returned. *)
Theorem error_detected_on_non_sentinel
    (m : Model) (w : World) (r : Request) (buf : bytes)
    (image rendered : ndarray) (results : Results) :
  delivers r buf ->
  cv2_imdecode w buf = Ok (Some image) ->
  m image = Ok results ->
  render results = Ok rendered ->
  Exists (fun row => str_lower (name row) <> "imprimiendo") (xyxy0 results) ->
  exists (sent : bool) (attempt after : list Event) (resp : Response),
    send_telegram_alert w rendered (xyxy0 results)
    = (Imencode rendered :: attempt, Returns sent)
    /\ app (Some m) w r
       = ([Imdecode buf; Detect image; Render]
          ++ (Imencode rendered :: attempt) ++ after, Returns resp)
    /\ http_status resp = 200%Z
    /\ response_status resp = Some "error_detected"
    /\ response_alert_sent resp = Some sent.
Proof.
  intros Hd Himg Hm Hr Hex.
  pose proof (some_error_filter _ Hex) as Hf.
  destruct (send_telegram_alert_attempts w rendered (xyxy0 results) Hf) as [attempt Ht].
  pose proof (send_telegram_alert_eq w rendered (xyxy0 results)) as Ha.
  rewrite Ht in Ha.
  pose proof (process_results_error (verbose_of r) w results rendered Hf Hr) as Hp.
  rewrite Ht in Hp.
  exists (alert_result w rendered (xyxy0 results)), attempt.
  eexists. eexists. split; [ exact Ha | ].
  split.
  - rewrite (app_detected m w r buf image results _ _ Hd Himg Hm Hp).
    reflexivity.
  - repeat split.
Qed.

(** C1, witness: the scenario of the spec, a batch of "imprimiendo" and
    "stringing", uploaded as multipart. *)
Lemma error_detected_on_non_sentinel_witness :
  exists (sent : bool) (attempt after : list Event) (resp : Response),
    send_telegram_alert Scenario.usual_world Scenario.annotated
      [Scenario.imprimiendo_row; Scenario.stringing_row]
    = (Imencode Scenario.annotated :: attempt, Returns sent)
    /\ app (Some (Scenario.detector [Scenario.imprimiendo_row; Scenario.stringing_row]))
           Scenario.usual_world (Wire.multipart_upload Scenario.jpeg)
       = ([Imdecode Scenario.jpeg; Detect Scenario.frame; Render]
          ++ (Imencode Scenario.annotated :: attempt) ++ after, Returns resp)
    /\ http_status resp = 200%Z
    /\ response_status resp = Some "error_detected"
    /\ response_alert_sent resp = Some sent.
Proof.
  apply (error_detected_on_non_sentinel
           (Scenario.detector [Scenario.imprimiendo_row; Scenario.stringing_row])
           Scenario.usual_world (Wire.multipart_upload Scenario.jpeg) Scenario.jpeg
           Scenario.frame Scenario.annotated
           (mkResults [Scenario.imprimiendo_row; Scenario.stringing_row]
              (Ok Scenario.annotated))).
  - apply (delivers_multipart (mkFile "capture.jpg" Scenario.jpeg)). discriminate.
  - reflexivity.
  - reflexivity.
  - reflexivity.
  - apply Exists_cons_tl, Exists_cons_hd. vm_compute. discriminate.
Defined.

(** C2.  For every non-empty detection batch in which every label is
    "imprimiendo", a request on either endpoint whose image decodes is
    answered 200 with [status = "printing_normal"] and
    [alert_sent = false], and the trace holds no event of the alert
    dispatcher. *)
Theorem printing_normal_on_sentinel_only
    (m : Model) (w : World) (r : Request) (buf : bytes)
    (image : ndarray) (results : Results) :
  delivers r buf ->
  cv2_imdecode w buf = Ok (Some image) ->
  m image = Ok results ->
  xyxy0 results <> [] ->
  Forall (fun row => name row = "imprimiendo") (xyxy0 results) ->
  exists (t : list Event) (resp : Response),
    app (Some m) w r = (t, Returns resp)
    /\ http_status resp = 200%Z
    /\ response_status resp = Some "printing_normal"
    /\ response_alert_sent resp = Some false
    /\ existsb is_dispatch t = false.
Proof.
  intros Hd Himg Hm Hne Hall.
  assert (Hf : empty (filter not_imprimiendo (xyxy0 results)) = true).
  { apply all_sentinel_filter. eapply Forall_impl; [ | exact Hall ].
    intros row ->. reflexivity. }
  rewrite (app_detected m w r buf image results _ _ Hd Himg Hm
             (process_results_normal _ w results Hne Hf)).
  do 2 eexists. split; [ reflexivity | ]. repeat split.
  destruct (verbose_of r); reflexivity.
Qed.

(** C2, witness: the batch of the spec's first scenario, sent as base64. *)
Lemma printing_normal_on_sentinel_only_witness :
  exists (t : list Event) (resp : Response),
    app (Some (Scenario.detector [Scenario.imprimiendo_row])) Scenario.usual_world
        (Wire.base64_upload Scenario.jpeg) = (t, Returns resp)
    /\ http_status resp = 200%Z
    /\ response_status resp = Some "printing_normal"
    /\ response_alert_sent resp = Some false
    /\ existsb is_dispatch t = false.
Proof.
  apply (printing_normal_on_sentinel_only
           (Scenario.detector [Scenario.imprimiendo_row]) Scenario.usual_world
           (Wire.base64_upload Scenario.jpeg) Scenario.jpeg Scenario.frame
           (mkResults [Scenario.imprimiendo_row] (Ok Scenario.annotated))).
  - apply (delivers_base64 _ (JString (Client.data_uri Scenario.jpeg))).
    + reflexivity.
    + vm_compute. reflexivity.
  - reflexivity.
  - reflexivity.
  - discriminate.
  - repeat constructor.
Defined.

(** C3, counterexample.  Without a detector the health check is answered
    with status 200, not 500. *)
Lemma health_check_without_model_is_200 :
  app None Scenario.usual_world GET_root = ([], Returns (health_check None))
  /\ http_status (health_check None) = 200%Z
  /\ http_status (health_check None) <> 500%Z.
Proof. repeat split. discriminate. Qed.

(** C3, amended.  When the detector failed to initialise (the model file
    is missing or loading it raised), the handle is [None]; then every
    request to [POST /detect] and [POST /detect_base64] is answered 500
    "Modelo no disponible", and the health check is answered 200 with
    [status = "ERROR"] and [model_loaded = false]. *)
Theorem responses_without_model :
  (forall hub_load, outcome (load_model false hub_load) = Returns None)
  /\ (forall msg, outcome (load_model true (Fail msg)) = Returns None)
  /\ (forall (w : World) (r : Request),
        app None w r =
        ([], Returns
               match r with
               | GET_root =>
                   mkResponse
                     (HealthJson "ERROR"
                        "Servidor de detección de errores en impresión 3D" false)
                     200
               | POST_detect _ | POST_detect_base64 _ =>
                   mkResponse (ErrorJson "Modelo no disponible") 500
               end)).
Proof.
  repeat split.
  intros w r. destruct r; reflexivity.
Qed.

(** Two requests that carry the same bytes to the same decoder and detector
    are answered with the same [detections_found] and [status]. *)
Lemma same_bytes_same_fields (model : option Model) (w1 w2 : World)
    (r1 r2 : Request) (buf : bytes) :
  delivers r1 buf -> delivers r2 buf ->
  cv2_imdecode w1 buf = cv2_imdecode w2 buf ->
  exists resp1 resp2,
    outcome (app model w1 r1) = Returns resp1
    /\ outcome (app model w2 r2) = Returns resp2
    /\ response_detections_found resp1 = response_detections_found resp2
    /\ response_status resp1 = response_status resp2.
Proof.
  intros H1 H2 Hdec.
  destruct (app_fields model w1 r1 buf H1) as (resp1 & Ho1 & Hf1).
  destruct (app_fields model w2 r2 buf H2) as (resp2 & Ho2 & Hf2).
  exists resp1, resp2. rewrite Hdec in Hf1. rewrite <- Hf2 in Hf1.
  injection Hf1 as Ha Hb. auto.
Qed.

Lemma multipart_upload_delivers (buffer : bytes) :
  delivers (Wire.multipart_upload buffer) buffer.
Proof.
  apply (delivers_multipart (mkFile "capture.jpg" buffer)). discriminate.
Qed.

Lemma base64_upload_delivers (buffer : bytes) :
  delivers (Wire.base64_upload buffer) buffer.
Proof.
  apply (delivers_base64 _ (JString (Client.data_uri buffer))).
  - reflexivity.
  - apply data_uri_decodes.
Qed.

(** C4.  For every source image: the client's two transports post the same
    encoded frame, as a multipart file and as a base64 data URI; the
    requests that arrive for them are answered with identical
    [detections_found] and identical [status], whenever the decoder
    gives the same answer for the frame's bytes in both requests (the
    detector handle being the same function of the decoded image). *)
Theorem transport_independence
    (cw : Client.World) (image : Client.ndarray) (buffer : bytes)
    (model : option Model) (w1 w2 : World) :
  Client.cv2_imencode cw image = Returns buffer ->
  cv2_imdecode w1 buffer = cv2_imdecode w2 buffer ->
  In (Client.PostFiles ClientFacts.primary_url "capture.jpg" buffer "image/jpeg")
     (trace (Client.send_image_to_server cw image))
  /\ In (Client.PostJson ClientFacts.fallback_url (Client.data_uri buffer))
        (trace (Client.send_image_base64 cw image))
  /\ Wire.request_of
       (Client.PostFiles ClientFacts.primary_url "capture.jpg" buffer "image/jpeg")
     = Some (Wire.multipart_upload buffer)
  /\ Wire.request_of
       (Client.PostJson ClientFacts.fallback_url (Client.data_uri buffer))
     = Some (Wire.base64_upload buffer)
  /\ exists resp1 resp2,
       outcome (app model w1 (Wire.multipart_upload buffer)) = Returns resp1
       /\ outcome (app model w2 (Wire.base64_upload buffer)) = Returns resp2
       /\ response_detections_found resp1 = response_detections_found resp2
       /\ response_status resp1 = response_status resp2.
Proof.
  intros Henc Hdec. repeat split.
  - apply ClientFacts.send_image_to_server_posts, Henc.
  - pose proof (ClientFacts.send_image_base64_posts_once cw image buffer Henc) as H.
    apply (proj1 (filter_In ClientFacts.is_post _ _)).
    rewrite H. now left.
  - apply (same_bytes_same_fields model w1 w2 _ _ buffer
             (multipart_upload_delivers buffer) (base64_upload_delivers buffer) Hdec).
Qed.


(** C4, witness: a frame sent both ways, the chat service being up for one
    request and down for the other. *)
Lemma transport_independence_witness :
  exists resp1 resp2,
    outcome (app (Some (Scenario.detector [Scenario.imprimiendo_row; Scenario.stringing_row]))
               Scenario.usual_world (Wire.multipart_upload Scenario.jpeg)) = Returns resp1
    /\ outcome (app (Some (Scenario.detector [Scenario.imprimiendo_row; Scenario.stringing_row]))
                  Scenario.telegram_down (Wire.base64_upload Scenario.jpeg)) = Returns resp2
    /\ response_detections_found resp1 = response_detections_found resp2
    /\ response_status resp1 = response_status resp2.
Proof.
  apply (transport_independence Scenario.timeout_turn Scenario.frame Scenario.jpeg
           (Some (Scenario.detector [Scenario.imprimiendo_row; Scenario.stringing_row]))
           Scenario.usual_world Scenario.telegram_down);
    reflexivity.
Defined.

(** C5, the failing input.  A multipart upload of a zero-length file:
    the decoder raises on an empty buffer, [detect_errors] has no handler
    around the decoding, and the request is answered 500; the same bytes
    sent as base64 are answered 400.  Neither calls the detector. *)
Example empty_upload_is_an_internal_error :
  app (Some (Scenario.detector [Scenario.stringing_row])) Scenario.usual_world
      (Wire.multipart_upload [])
  = ([Imdecode [];
      Log ERROR ("Error en detección: "
                 ++ "(-215:Assertion failed) !buf.empty() in function 'imdecode_'")],
     Returns (mkResponse
                (ErrorJson ("Error interno del servidor: "
                            ++ "(-215:Assertion failed) !buf.empty() in function 'imdecode_'"))
                500))
  /\ app (Some (Scenario.detector [Scenario.stringing_row])) Scenario.usual_world
         (Wire.base64_upload [])
     = ([Imdecode []],
        Returns (mkResponse
                   (ErrorJson ("Error al decodificar imagen base64: "
                               ++ "(-215:Assertion failed) !buf.empty() in function 'imdecode_'"))
                   400)).
Proof. split; vm_compute; reflexivity. Qed.

(** C6.  For every image and detection batch [send_telegram_alert] returns
    a boolean and never raises.  It returns [False] when the encoder
    raises or reports failure, when the post raises (a network error) and
    when the provider answers with a status other than 200; [True] is
    returned only after an answer 200.  The caller's response is produced
    whatever the dispatcher returned. *)
Theorem send_telegram_alert_never_raises
    (w : World) (image : ndarray) (detections : DataFrame) :
  let caption :=
    fold_left message_add (filter not_imprimiendo detections) message_header in
  (exists sent : bool,
     outcome (send_telegram_alert w image detections) = Returns sent)
  /\ (forall msg, cv2_imencode w image = Fail msg ->
      outcome (send_telegram_alert w image detections) = Returns false)
  /\ (forall buffer, cv2_imencode w image = Ok (false, buffer) ->
      outcome (send_telegram_alert w image detections) = Returns false)
  /\ (forall buffer msg,
        cv2_imencode w image = Ok (true, buffer) ->
        requests_post w (sendPhoto_url w) (CHAT_ID w) caption buffer = Fail msg ->
        outcome (send_telegram_alert w image detections) = Returns false)
  /\ (forall buffer status_code text,
        cv2_imencode w image = Ok (true, buffer) ->
        requests_post w (sendPhoto_url w) (CHAT_ID w) caption buffer
        = Ok (status_code, text) ->
        status_code <> 200%Z ->
        outcome (send_telegram_alert w image detections) = Returns false)
  /\ (outcome (send_telegram_alert w image detections) = Returns true ->
      exists buffer text,
        cv2_imencode w image = Ok (true, buffer)
        /\ requests_post w (sendPhoto_url w) (CHAT_ID w) caption buffer
           = Ok (200%Z, text))
  /\ (forall (m : Model) (r : Request) (buf : bytes) (decoded : ndarray)
             (results : Results),
        delivers r buf ->
        cv2_imdecode w buf = Ok (Some decoded) ->
        m decoded = Ok results ->
        xyxy0 results = detections ->
        render results = Ok image ->
        exists t resp,
          app (Some m) w r = (t, Returns resp) /\ http_status resp = 200%Z).
Proof.
  cbv zeta.
  pose proof (send_telegram_alert_outcome w image detections) as Ho.
  unfold alert_result in Ho.
  repeat split.
  - eexists. exact Ho.
  - intros msg E. rewrite Ho, E. now destruct (filter not_imprimiendo detections).
  - intros buffer E. rewrite Ho, E. now destruct (filter not_imprimiendo detections).
  - intros buffer msg E1 E2. rewrite Ho, E1.
    destruct (filter not_imprimiendo detections); [ reflexivity | ].
    now rewrite E2.
  - intros buffer status_code text E1 E2 Hs. rewrite Ho, E1.
    destruct (filter not_imprimiendo detections); [ reflexivity | ].
    rewrite E2. apply Z.eqb_neq in Hs. now rewrite Hs.
  - intros Ht. rewrite Ho in Ht.
    destruct (filter not_imprimiendo detections) as [|row rows]; [ discriminate | ].
    destruct (cv2_imencode w image) as [[[|] buffer]|msg]; try discriminate.
    exists buffer.
    destruct (requests_post w (sendPhoto_url w) (CHAT_ID w) _ buffer)
      as [[status_code text]|msg]; [ | discriminate ].
    exists text. split; [ reflexivity | ].
    injection Ht as Ht. apply Z.eqb_eq in Ht. now subst.
  - intros m r buf decoded results Hd Himg Hm <- Hr.
    destruct (xyxy0 results) as [|row dets] eqn:Hx.
    + rewrite (app_detected m w r buf decoded results _ _ Hd Himg Hm
                 (process_results_empty _ w results Hx)).
      do 2 eexists. split; reflexivity.
    + rewrite <- Hx in *.
      destruct (empty (filter not_imprimiendo (xyxy0 results))) eqn:Hf.
      * assert (Hne : xyxy0 results <> []) by (rewrite Hx; discriminate).
        rewrite (app_detected m w r buf decoded results _ _ Hd Himg Hm
                   (process_results_normal _ w results Hne Hf)).
        do 2 eexists. split; reflexivity.
      * rewrite (app_detected m w r buf decoded results _ _ Hd Himg Hm
                   (process_results_error _ w results image Hf Hr)).
        do 2 eexists. split; reflexivity.
Qed.

(** C6, witness: the chat service is down, the post raises, the
    dispatcher returns [False]. *)
Lemma send_telegram_alert_never_raises_witness :
  outcome (send_telegram_alert Scenario.telegram_down Scenario.annotated
             [Scenario.imprimiendo_row; Scenario.stringing_row]) = Returns false.
Proof.
  apply (proj1 (proj2 (proj2 (proj2
           (send_telegram_alert_never_raises Scenario.telegram_down
              Scenario.annotated
              [Scenario.imprimiendo_row; Scenario.stringing_row]))))
         Scenario.jpeg "Connection refused");
    reflexivity.
Defined.



(** C8.  For every detection batch with at least one non-sentinel
    detection, once the picture is encoded exactly one photo is posted and
    its caption is the header followed by one entry per non-sentinel
    detection, in order and for no other row.  An entry gives the label,
    the confidence with exactly two digits after the point and the four
    coordinates without a point.  Read back digit by digit, the
    characters of the confidence denote a nearest integer to one hundred
    times its magnitude (ties to the even one), and those of a coordinate
    a nearest integer to its magnitude.  For the batch of the
    specification's scenario the caption is spelled out, as are the ties
    0.125, 0.375, 2.5, 3.5 and -0.5. *)
Theorem caption_lists_non_sentinel_detections
    (w : World) (image : ndarray) (detections : DataFrame) (buffer : bytes) :
  Exists (fun row => str_lower (name row) <> "imprimiendo") detections ->
  cv2_imencode w image = Ok (true, buffer) ->
  (exists caption line,
     trace (send_telegram_alert w image detections)
     = [Imencode image;
        Post (sendPhoto_url w) (CHAT_ID w) caption buffer;
        Log (fst line) (snd line)]
     /\ caption
        = (message_header
           ++ String.concat "" (map caption_entry (filter not_imprimiendo detections)))%string)
  /\ (forall row,
        In row (filter not_imprimiendo detections) <->
        In row detections /\ str_lower (name row) <> "imprimiendo")
  /\ (forall x : pyfloat,
        format_f 2 x
        = (PyFacts.sign_str x ++ str_N (scaled_round 2 x / 100) ++ "."
           ++ String (digit ((scaled_round 2 x / 10) mod 10))
                (String (digit (scaled_round 2 x mod 10)) ""))%string
        /\ PyFacts.nearest (scaled_round 2 x) (fst (ratio x) * 100) (snd (ratio x)))
  /\ (forall x : pyfloat,
        format_f 0 x = (PyFacts.sign_str x ++ str_N (scaled_round 0 x))%string
        /\ PyFacts.nearest (scaled_round 0 x) (fst (ratio x)) (snd (ratio x)))
  /\ (forall x : pyfloat,
        exists (units : string) (d1 d2 : ascii),
          format_f 2 x
          = ((if f_neg x then "-" else "") ++ units ++ "."
             ++ String d1 (String d2 ""))%string
          /\ PyFacts.read_decimal units = Some (scaled_round 2 x / 100)%N
          /\ PyFacts.digit_value d1 = Some ((scaled_round 2 x / 10) mod 10)%N
          /\ PyFacts.digit_value d2 = Some (scaled_round 2 x mod 10)%N)
  /\ (forall x : pyfloat,
        exists digits : string,
          format_f 0 x = ((if f_neg x then "-" else "") ++ digits)%string
          /\ PyFacts.read_decimal digits = Some (scaled_round 0 x))
  /\ fold_left message_add
       (filter not_imprimiendo [Scenario.imprimiendo_row; Scenario.stringing_row])
       message_header
     = ("⚠ *Detección de error en impresión 3D* ⚠" ++ nl ++ nl
        ++ "🔹 *stringing*" ++ nl
        ++ "Confianza: 0.77" ++ nl
        ++ "Posición: x1=10, y1=20, x2=110, y2=220" ++ nl ++ nl)%string
  /\ format_f 2 Scenario.conf_091 = "0.91"
  /\ format_f 2 (mkFloat false 1 (-3)) = "0.12"
  /\ format_f 2 (mkFloat false 3 (-3)) = "0.38"
  /\ format_f 2 (mkFloat false 1 0) = "1.00"
  /\ format_f 0 (mkFloat false 5 (-1)) = "2"
  /\ format_f 0 (mkFloat false 7 (-1)) = "4"
  /\ format_f 0 (mkFloat true 1 (-1)) = "-0"
  /\ format_f 0 (mkFloat false 1279 0) = "1279".
Proof.
  intros Hex Henc. pose proof (some_error_filter _ Hex) as Hf.
  split; [ | split; [ | split; [ | split; [ | split; [ | split ] ] ] ] ].
  - destruct (send_telegram_alert_posts w image detections buffer Hf Henc)
      as [line Ht].
    eexists. exists line. split; [ exact Ht | ]. apply fold_message_add.
  - intros row. rewrite filter_In, not_imprimiendo_true. tauto.
  - intros x. split; [ apply PyFacts.format_f_2 | ].
    apply (PyFacts.scaled_round_nearest 2 x).
  - intros x. split; [ apply PyFacts.format_f_0 | ].
    pose proof (PyFacts.scaled_round_nearest 0 x) as H.
    cbn [N.of_nat] in H. rewrite N.pow_0_r, N.mul_1_r in H. exact H.
  - intros x. apply PyFacts.format_f_2_reads.
  - intros x. apply PyFacts.format_f_0_reads.
  - repeat split; vm_compute; reflexivity.
Qed.

(** C8, witness: the spec's scenario; the caption lists only "stringing"
    with confidence 0.77 and box 10, 20, 110, 220. *)
Lemma caption_lists_non_sentinel_detections_witness :
  exists line,
    trace (send_telegram_alert Scenario.usual_world Scenario.annotated
             [Scenario.imprimiendo_row; Scenario.stringing_row])
    = [Imencode Scenario.annotated;
       Post "https://api.telegram.org/botTOKEN/sendPhoto" "CHAT"
         ("⚠ *Detección de error en impresión 3D* ⚠" ++ nl ++ nl
          ++ "🔹 *stringing*" ++ nl
          ++ "Confianza: 0.77" ++ nl
          ++ "Posición: x1=10, y1=20, x2=110, y2=220" ++ nl ++ nl)%string
         Scenario.jpeg;
       Log (fst line) (snd line)].
Proof.
  destruct (caption_lists_non_sentinel_detections Scenario.usual_world
              Scenario.annotated
              [Scenario.imprimiendo_row; Scenario.stringing_row] Scenario.jpeg
              ltac:(apply Exists_cons_tl, Exists_cons_hd; vm_compute; discriminate)
              eq_refl) as ((caption & line & Ht & Hc) & _).
  exists line. rewrite Ht, Hc. reflexivity.
Defined.

(** C10.  For every request on either endpoint whose image decodes and
    whose detection batch is empty the answer is 200 with
    [detections_found = 0], an empty [detections] list,
    [status = "normal"] and [alert_sent = false]; nothing but the decoder
    and the detector ran. *)
Theorem empty_batch_is_normal
    (m : Model) (w : World) (r : Request) (buf : bytes)
    (image : ndarray) (results : Results) :
  delivers r buf ->
  cv2_imdecode w buf = Ok (Some image) ->
  m image = Ok results ->
  xyxy0 results = [] ->
  app (Some m) w r =
  ([Imdecode buf; Detect image],
   Returns (mkResponse (DataJson (mkResponseData 0 [] false "normal")) 200)).
Proof.
  intros Hd Himg Hm Hx.
  apply (app_detected m w r buf image results _ _ Hd Himg Hm
           (process_results_empty _ w results Hx)).
Qed.

(** C10, witness: a detector that finds nothing, the frame sent as base64. *)
Lemma empty_batch_is_normal_witness :
  app (Some (Scenario.detector [])) Scenario.usual_world
      (Wire.base64_upload Scenario.jpeg) =
  ([Imdecode Scenario.jpeg; Detect Scenario.frame],
   Returns (mkResponse (DataJson (mkResponseData 0 [] false "normal")) 200)).
Proof.
  apply (empty_batch_is_normal (Scenario.detector []) Scenario.usual_world
           (Wire.base64_upload Scenario.jpeg) Scenario.jpeg Scenario.frame
           (mkResults [] (Ok Scenario.annotated))).
  - apply (delivers_base64 _ (JString (Client.data_uri Scenario.jpeg))).
    + reflexivity.
    + vm_compute. reflexivity.
  - reflexivity.
  - reflexivity.
  - reflexivity.
Defined.

Lemma list_has_image (items : list JValue) :
  existsb (fun v => match v with
                    | JString s => String.eqb s "image"
                    | JNonString _ => false
                    end) items = true
  <-> In (JString "image") items.
Proof.
  rewrite existsb_exists. split.
  - intros ([s|e] & Hin & H); [ | discriminate ].
    apply String.eqb_eq in H. now subst s.
  - intros H. exists (JString "image"). split; [ exact H | reflexivity ].
Qed.

(** X1.  With a loaded detector, requests that carry no usable image.
    On [/detect] a request without an [image] file or with an empty file
    name is answered 400.  On [/detect_base64] the JSON body decides: a
    body that is [None], zero or [False], or a dictionary, string or list
    that does not contain ['image'] (the empty ones included) is answered
    400; a number other than zero, or [True], makes the membership test
    raise and is answered 500, as is a request of which [get_json()]
    raises; a string or list that contains ['image'] cannot be indexed by
    it and is answered 400 by the inner handler, like a dictionary whose
    [image] field is not base64 text.  On both endpoints a byte stream in
    which the decoder finds no image is answered 400, and on
    [/detect_base64] so is one on which the decoder raises.  The detector
    runs in none of these cases. *)
Theorem requests_without_image (m : Model) (w : World) :
  (exists j, app (Some m) w (POST_detect (mkMultipart None))
             = ([], Returns (mkResponse (ErrorJson j) 400)))
  /\ (forall content, exists j,
        app (Some m) w (POST_detect (mkMultipart (Some (mkFile "" content))))
        = ([], Returns (mkResponse (ErrorJson j) 400)))
  /\ (forall data,
        data = BodyNone
        \/ (exists d, data = BodyDict d /\ dict_get "image" d = None)
        \/ (exists type_name, data = BodyNumber true type_name)
        \/ (exists s, data = BodyStr s /\ str_in "image" s = false)
        \/ (exists items, data = BodyList items /\ ~ In (JString "image") items) ->
        app (Some m) w (POST_detect_base64 (mkJsonRequest (Ok data)))
        = ([], Returns (mkResponse (ErrorJson "No se envió imagen en base64") 400)))
  /\ (forall type_name, exists msg,
        app (Some m) w
          (POST_detect_base64 (mkJsonRequest (Ok (BodyNumber false type_name))))
        = ([Log ERROR ("Error en detección base64: " ++ msg)],
           Returns (mkResponse
                      (ErrorJson ("Error interno del servidor: " ++ msg)) 500)))
  /\ (forall msg,
        app (Some m) w (POST_detect_base64 (mkJsonRequest (Fail msg)))
        = ([Log ERROR ("Error en detección base64: " ++ msg)],
           Returns (mkResponse
                      (ErrorJson ("Error interno del servidor: " ++ msg)) 500)))
  /\ (forall data,
        (exists s, data = BodyStr s /\ str_in "image" s = true)
        \/ (exists items, data = BodyList items /\ In (JString "image") items) ->
        exists msg,
          app (Some m) w (POST_detect_base64 (mkJsonRequest (Ok data)))
          = ([], Returns (mkResponse
                            (ErrorJson ("Error al decodificar imagen base64: " ++ msg))
                            400)))
  /\ (forall d field msg,
        dict_get "image" d = Some field -> decode_image_field field = Fail msg ->
        app (Some m) w (POST_detect_base64 (mkJsonRequest (Ok (BodyDict d))))
        = ([], Returns (mkResponse
                          (ErrorJson ("Error al decodificar imagen base64: " ++ msg))
                          400)))
  /\ (forall r buf,
        delivers r buf -> cv2_imdecode w buf = Ok None ->
        exists j,
          app (Some m) w r = ([Imdecode buf], Returns (mkResponse (ErrorJson j) 400)))
  /\ (forall d field buf msg,
        dict_get "image" d = Some field -> decode_image_field field = Ok buf ->
        cv2_imdecode w buf = Fail msg ->
        exists t j,
          app (Some m) w (POST_detect_base64 (mkJsonRequest (Ok (BodyDict d))))
          = (Imdecode buf :: t, Returns (mkResponse (ErrorJson j) 400))
          /\ existsb is_detect t = false).
Proof.
  split; [ eexists; reflexivity | ].
  split; [ intros content; eexists; reflexivity | ].
  split.
  { intros data H. apply detect_errors_base64_no_field.
    destruct H as [-> | [(d & -> & Hd) | [(tn & ->) | [(s & -> & Hs) | (items & -> & Hi)]]]].
    - reflexivity.
    - cbn [lacks_image]. rewrite Hd. now rewrite orb_true_r.
    - reflexivity.
    - cbn [lacks_image]. rewrite Hs. now rewrite orb_true_r.
    - cbn [lacks_image]. f_equal. apply orb_true_iff. right.
      apply negb_true_iff. apply not_true_is_false.
      intros H. now apply list_has_image in H. }
  split.
  { intros type_name. eexists.
    apply detect_errors_base64_not_iterable. reflexivity. }
  split; [ intros msg; apply detect_errors_base64_no_json | ].
  split.
  { intros data [(s & -> & Hs) | (items & -> & Hi)]; eexists;
      apply detect_errors_base64_no_index; try reflexivity.
    - cbn [lacks_image]. rewrite Hs. destruct s; [ discriminate | reflexivity ].
    - cbn [lacks_image]. apply list_has_image in Hi. rewrite Hi.
      destruct items; [ discriminate | reflexivity ]. }
  split.
  { intros d field msg Hget Hdec.
    apply (detect_errors_base64_bad_field m w d field msg Hget Hdec). }
  split.
  { intros r buf Hd Himg. eexists. apply (app_no_image m w r buf Hd Himg). }
  intros d field buf msg Hget Hdec Himg.
  apply (app_decoder_raises m w _ buf msg (delivers_base64 d field buf Hget Hdec) Himg).
Qed.

(** X1, witness: the body [5] is answered 500, the body [0] and bytes that
    are no image are answered 400. *)
Lemma requests_without_image_witness :
  http_status
    (match outcome (app (Some (Scenario.detector [Scenario.stringing_row]))
                      Scenario.usual_world
                      (POST_detect_base64 (mkJsonRequest (Ok (BodyNumber false "int")))))
     with Returns resp => resp | Raises _ => mkResponse (ErrorJson "") 0 end) = 500%Z
  /\ app (Some (Scenario.detector [Scenario.stringing_row])) Scenario.usual_world
       (POST_detect_base64 (mkJsonRequest (Ok (BodyNumber true "int"))))
     = ([], Returns (mkResponse (ErrorJson "No se envió imagen en base64") 400))
  /\ exists j,
       app (Some (Scenario.detector [Scenario.stringing_row])) Scenario.usual_world
           (Wire.multipart_upload [x00; x01])
       = ([Imdecode [x00; x01]], Returns (mkResponse (ErrorJson j) 400)).
Proof.
  destruct (requests_without_image (Scenario.detector [Scenario.stringing_row])
              Scenario.usual_world) as (_ & _ & H0 & H5 & _ & _ & _ & Hbytes & _).
  split; [ destruct (H5 "int") as [msg ->]; reflexivity | ].
  split.
  - apply H0. right. right. left. now exists "int".
  - apply (Hbytes (Wire.multipart_upload [x00; x01]) [x00; x01]).
    + apply (delivers_multipart (mkFile "capture.jpg" [x00; x01])). discriminate.
    + reflexivity.
Defined.

End ServerClaims.

(* ================================================================== *)
(** * Properties of the capture client *)
(* ================================================================== *)

Module ClientClaims.
Import Py Client ClientFacts.

(** The scenario of the specification with the three modules imported:
    the multipart upload times out and the base64 upload is answered 503;
    both attempts fail and the loop goes on. *)
Lemma fallback_once_when_imported_example :
  filter is_post (trace (loop_iteration Scenario.timeout_turn))
  = [PostFiles primary_url "capture.jpg" Scenario.jpeg "image/jpeg";
     PostJson fallback_url (data_uri Scenario.jpeg)]
  /\ outcome (loop_iteration Scenario.timeout_turn) = Returns NextIteration
  /\ outcome (main_loop [Scenario.timeout_turn; Scenario.timeout_turn]) = Returns Running.
Proof.
  destruct (fallback_once_when_imported Scenario.timeout_turn Scenario.frame true
              Scenario.jpeg ltac:(discriminate) eq_refl eq_refl eq_refl eq_refl)
    as [Hposts Hnext].
  destruct (Hnext I eq_refl) as (Ho & _ & Hloop).
  split; [ exact Hposts | split; [ exact Ho | ] ].
  rewrite (Hloop [Scenario.timeout_turn]). cbn [outcome snd].
  rewrite (Hloop []). reflexivity.
Qed.

(** C9 (a defect of the code).  raspberry_client.py uses the modules
    [requests], [time] and [cv2] and imports none of them.  As the file is
    written, [main] therefore ends with the NameError of [requests] raised
    by [CameraClient()], before its [try]: nothing is logged, probed,
    captured, posted or cleaned up, so no capture cycle takes place.  On a
    client object, however it was made, the cycle cannot do what the
    specification describes either: [capture_image] never yields a frame;
    [send_image_to_server] posts nothing and raises the NameError of
    [requests] (from its own [except] clause) where it should return
    [None], so the test that starts the fallback is not reached;
    [send_image_base64] posts nothing; and a turn of the loop posts
    nothing and never asks for the next turn: it leaves the loop with the
    NameError of [time], or breaks on an interrupt of the camera read. *)
Theorem missing_imports_stop_the_client
    (start w : World) (turns : list World) (image : ndarray) :
  as_written start ->
  as_written w ->
  main start turns = ([], Raises (name_error "requests"))
  /\ (forall frame, outcome (capture_image w) <> Returns (Some frame))
  /\ send_image_to_server w image = ([], Raises (name_error "requests"))
  /\ send_image_base64 w image
     = ([Log ERROR "Error al enviar imagen base64: name 'cv2' is not defined"],
        Returns None)
  /\ filter is_post (trace (loop_iteration w)) = []
  /\ (outcome (loop_iteration w) = Raises (name_error "time")
      \/ (outcome (loop_iteration w) = Returns Break
          /\ exists e, camera_capture_array w = Raises e
                       /\ exc_class e = KeyboardInterrupt)).
Proof.
  intros Hs Hw.
  split; [ apply (main_as_written start turns Hs) | ].
  split.
  { intros frame. rewrite (capture_image_as_written w Hw).
    destruct (camera_capture_array w) as [raw|[[] msg]]; discriminate. }
  split; [ apply (send_image_to_server_as_written w image Hw) | ].
  split; [ apply (send_image_base64_as_written w image Hw) | ].
  rewrite (loop_iteration_as_written w Hw).
  destruct (camera_capture_array w) as [raw|[[] msg]]; cbn.
  - split; [ reflexivity | now left ].
  - split; [ reflexivity | ]. right. split; [ reflexivity | ]. now eexists.
  - split; [ reflexivity | now left ].
  - split; [ reflexivity | now left ].
Qed.

(** C9, witness: the camera works and the server would let the multipart
    upload time out; the client as written never gets that far. *)
Lemma missing_imports_stop_the_client_witness :
  main Scenario.timeout_turn_as_written
       [Scenario.timeout_turn_as_written; Scenario.timeout_turn_as_written]
  = ([], Raises (mkExc OtherException "name 'requests' is not defined"))
  /\ send_image_to_server Scenario.timeout_turn_as_written Scenario.frame
     = ([], Raises (mkExc OtherException "name 'requests' is not defined"))
  /\ loop_iteration Scenario.timeout_turn_as_written
     = ([CaptureArray;
         Log ERROR "Error al capturar imagen: name 'cv2' is not defined";
         Log WARNING "No se pudo capturar imagen, reintentando...";
         Log ERROR "Error en el bucle principal: name 'time' is not defined"],
        Raises (mkExc OtherException "name 'time' is not defined")).
Proof.
  destruct (missing_imports_stop_the_client Scenario.timeout_turn_as_written
              Scenario.timeout_turn_as_written
              [Scenario.timeout_turn_as_written; Scenario.timeout_turn_as_written]
              Scenario.frame eq_refl eq_refl) as (Hmain & _ & Hsend & _).
  split; [ exact Hmain | ]. split; [ exact Hsend | reflexivity ].
Defined.

End ClientClaims.

(* ================================================================== *)
(** * Further properties of the capture client *)
(* ================================================================== *)

Module ClientExtras.
Import Py Client ClientFacts TraceFacts.

Lemma try_except_outcome {E A : Type} (handles : ExcClass -> bool)
    (m : M E A) (h : PyExc -> M E A) :
  outcome (try_except handles m h) =
  match outcome m with
  | Returns a => Returns a
  | Raises e => if handles (exc_class e) then outcome (h e) else Raises e
  end.
Proof.
  destruct m as [t [a|e]]; cbn; [ reflexivity | ].
  destruct (handles (exc_class e)); [ | reflexivity ].
  now destruct (h e).
Qed.

(** A [try] whose [except Exception] handler returns lets nothing but a
    keyboard interrupt escape. *)
Lemma swallow_all {E A : Type} (m : M E A) (h : PyExc -> M E A) (e : PyExc) :
  (forall e', exists a, outcome (h e') = Returns a) ->
  outcome (try_except is_Exception m h) = Raises e ->
  exc_class e = KeyboardInterrupt.
Proof.
  intros Hh. rewrite try_except_outcome.
  destruct (outcome m) as [a|e0]; [ discriminate | ].
  destruct (is_Exception (exc_class e0)) eqn:Hcls.
  - destruct (Hh e0) as [a ->]. discriminate.
  - intros H. injection H as <-. now destruct (exc_class e0).
Qed.

Lemma loop_try_posts_cases (w : World) :
  events is_post (loop_try w) = []
  \/ exists buffer,
       events is_post (loop_try w)
       = [PostFiles primary_url "capture.jpg" buffer "image/jpeg"]
       \/ events is_post (loop_try w)
          = [PostFiles primary_url "capture.jpg" buffer "image/jpeg";
             PostJson fallback_url (data_uri buffer)].
Proof.
  rewrite loop_try_posts_all.
  destruct (outcome (capture_image w)) as [[image|]|e]; [ | now left | now left ].
  destruct (cv2_imwrite w (capture_path w) image) as [saved|e]; [ | now left ].
  rewrite send_image_to_server_posts_all, send_image_base64_posts_all.
  destruct (cv2_imencode w image) as [buffer|e].
  - right. exists buffer.
    destruct (outcome (send_image_to_server w image)) as [[r|]|e]; auto.
  - left. destruct (outcome (send_image_to_server w image)) as [[r|]|e']; reflexivity.
Qed.

(** X2.  Whatever the namespace, the camera and the network are, one turn
    of the loop makes no post at all, or one multipart post of the encoded
    frame to [/detect], or that post followed by one post of the same
    frame as a data URI to [/detect_base64]; so [n] turns make at most
    [2 * n] posts: no upload is retried more than once.  With the
    namespace of the module as it is written, a turn makes no post. *)
Theorem posts_of_a_turn :
  (forall w : World,
     events is_post (loop_iteration w) = []
     \/ exists buffer,
          events is_post (loop_iteration w)
          = [PostFiles primary_url "capture.jpg" buffer "image/jpeg"]
          \/ events is_post (loop_iteration w)
             = [PostFiles primary_url "capture.jpg" buffer "image/jpeg";
                PostJson fallback_url (data_uri buffer)])
  /\ (forall turns : list World,
        (List.length (events is_post (main_loop turns)) <= 2 * List.length turns)%nat)
  /\ (forall w : World,
        as_written w -> events is_post (loop_iteration w) = []).
Proof.
  assert (H1 : forall w : World,
     events is_post (loop_iteration w) = []
     \/ exists buffer,
          events is_post (loop_iteration w)
          = [PostFiles primary_url "capture.jpg" buffer "image/jpeg"]
          \/ events is_post (loop_iteration w)
             = [PostFiles primary_url "capture.jpg" buffer "image/jpeg";
                PostJson fallback_url (data_uri buffer)]).
  { intros w. unfold events. rewrite loop_iteration_posts. apply loop_try_posts_cases. }
  split; [ exact H1 | ]. split.
  - induction turns as [|w turns IH]; [ cbn; lia | ].
    cbn [main_loop]. rewrite events_bind, length_app.
    assert (Hw : (List.length (events is_post (loop_iteration w)) <= 2)%nat).
    { destruct (H1 w) as [-> | [buffer [-> | ->]]]; cbn; lia. }
    destruct (outcome (loop_iteration w)) as [[|]|e]; cbv beta iota;
      cbn [List.length ret events trace fst filter]; lia.
  - intros w Hw. rewrite (loop_iteration_as_written w Hw).
    destruct (camera_capture_array w) as [raw|[[] msg]]; reflexivity.
Qed.

(** X3.  On a client object of the module as it is written, the frame the
    camera delivers is lost: [cv2.cvtColor] raises the NameError of
    [cv2], which [capture_image] logs before it returns [None].  The turn
    of the loop does not retry: its pause of 5 seconds raises the
    NameError of [time], the handler logs it, and the handler's own pause
    of 10 seconds raises it again, which ends the loop in its first turn. *)
Theorem frame_is_lost_as_written (w : World) (raw : ndarray) (turns : list World) :
  as_written w ->
  camera_capture_array w = Returns raw ->
  capture_image w
  = ([CaptureArray; Log ERROR "Error al capturar imagen: name 'cv2' is not defined"],
     Returns None)
  /\ loop_iteration w
     = ([CaptureArray;
         Log ERROR "Error al capturar imagen: name 'cv2' is not defined";
         Log WARNING "No se pudo capturar imagen, reintentando...";
         Log ERROR "Error en el bucle principal: name 'time' is not defined"],
        Raises (name_error "time"))
  /\ main_loop (w :: turns) = (trace (loop_iteration w), Raises (name_error "time")).
Proof.
  intros Hw Hcam.
  assert (Hc : capture_image w
               = ([CaptureArray;
                   Log ERROR "Error al capturar imagen: name 'cv2' is not defined"],
                  Returns None)).
  { rewrite (capture_image_as_written w Hw), Hcam. reflexivity. }
  assert (Hl : loop_iteration w
     = ([CaptureArray;
         Log ERROR "Error al capturar imagen: name 'cv2' is not defined";
         Log WARNING "No se pudo capturar imagen, reintentando...";
         Log ERROR "Error en el bucle principal: name 'time' is not defined"],
        Raises (name_error "time"))).
  { rewrite (loop_iteration_as_written w Hw), Hcam. reflexivity. }
  split; [ exact Hc | ]. split; [ exact Hl | ].
  cbn [main_loop]. rewrite Hl. reflexivity.
Qed.

(** X3, witness: the scenario's camera with the module as it is written. *)
Lemma frame_is_lost_as_written_witness :
  outcome (capture_image Scenario.timeout_turn_as_written) = Returns None
  /\ outcome (main_loop [Scenario.timeout_turn_as_written;
                         Scenario.timeout_turn_as_written])
     = Raises (mkExc OtherException "name 'time' is not defined").
Proof.
  destruct (frame_is_lost_as_written Scenario.timeout_turn_as_written Scenario.frame
              [Scenario.timeout_turn_as_written] eq_refl eq_refl) as (Hc & _ & Hm).
  rewrite Hc, Hm. split; reflexivity.
Defined.

(** X6.  What can leave the four calls.  [capture_image],
    [send_image_base64] and [test_server_connection] catch [Exception]
    and return, so only a keyboard interrupt leaves them, whatever the
    namespace is.  [send_image_to_server] names [requests] in its first
    [except] clause: when that name is not bound, every exception of its
    [try] is replaced by the NameError of [requests], which leaves the
    function; when it is bound, only a keyboard interrupt leaves it.  As
    the module is written the function always raises that NameError. *)
Theorem what_leaves_the_calls (w : World) (image : ndarray) (e : PyExc) :
  (outcome (capture_image w) = Raises e -> exc_class e = KeyboardInterrupt)
  /\ (outcome (send_image_base64 w image) = Raises e ->
      exc_class e = KeyboardInterrupt)
  /\ (outcome (test_server_connection w) = Raises e ->
      exc_class e = KeyboardInterrupt)
  /\ (outcome (send_image_to_server w image) = Raises e ->
      match g_requests (globals w) with
      | None => e = name_error "requests"
      | Some _ => exc_class e = KeyboardInterrupt
      end)
  /\ (as_written w ->
      outcome (send_image_to_server w image) = Raises (name_error "requests")).
Proof.
  split; [ apply swallow_all; intros e'; now exists None | ].
  split; [ apply swallow_all; intros e'; now exists None | ].
  split; [ apply swallow_all; intros e'; now exists false | ].
  split.
  - unfold send_image_to_server. rewrite try_except_outcome.
    match goal with |- match outcome ?m with _ => _ end = _ -> _ =>
      destruct (outcome m) as [a|e0] end; [ discriminate | ].
    destruct (g_requests (globals w)) as [requests|]; cbn [global bind ret raise].
    + destruct (exc_class e0) eqn:Hcls; cbn; try discriminate.
      intros H. injection H as <-. exact Hcls.
    + cbn. intros H. now injection H as <-.
  - intros Hw. now rewrite (send_image_to_server_as_written w image Hw).
Qed.

(** X6, witness: the multipart upload of the module as it is written. *)
Lemma what_leaves_the_calls_witness :
  outcome (send_image_to_server Scenario.timeout_turn_as_written Scenario.frame)
  = Raises (mkExc OtherException "name 'requests' is not defined").
Proof.
  apply (proj2 (proj2 (proj2 (proj2
           (what_leaves_the_calls Scenario.timeout_turn_as_written Scenario.frame
              (mkExc OtherException "name 'requests' is not defined")))))).
  reflexivity.
Defined.

(** X10.  On a client object of the module as it is written,
    [initialize_camera] never returns: when the camera is created and
    started, the pause of 2 seconds raises the NameError of [time], which
    is logged and raised again, the camera being left running; an error
    of the camera itself is logged and raised again as well. *)
Theorem initialize_camera_as_written (w : World) :
  as_written w ->
  (forall u, outcome (initialize_camera w) <> Returns u)
  /\ (picamera2_new w = Returns tt ->
      picamera2_configure_start w = Returns tt ->
      initialize_camera w
      = ([Log INFO "Inicializando cámara de Raspberry Pi...";
          CameraNew; CameraConfigureStart;
          Log ERROR "Error al inicializar cámara: name 'time' is not defined"],
         Raises (name_error "time")))
  /\ (forall e, picamera2_new w = Raises e ->
      is_Exception (exc_class e) = true ->
      initialize_camera w
      = ([Log INFO "Inicializando cámara de Raspberry Pi..."; CameraNew;
          Log ERROR ("Error al inicializar cámara: " ++ exc_str e)],
         Raises e)).
Proof.
  intros Hw. unfold initialize_camera. cbn [USE_PI_CAMERA]. rewrite Hw.
  split; [ | split ].
  - intros u.
    destruct (picamera2_new w) as [[]|[[] msg]]; try discriminate.
    destruct (picamera2_configure_start w) as [[]|[[] msg]]; discriminate.
  - intros -> ->. reflexivity.
  - intros e -> He. cbn. rewrite He. reflexivity.
Qed.

(** X10, witness: the camera of the scenario is created and started, and
    the initialisation fails all the same. *)
Lemma initialize_camera_as_written_witness :
  initialize_camera Scenario.timeout_turn_as_written
  = ([Log INFO "Inicializando cámara de Raspberry Pi...";
      CameraNew; CameraConfigureStart;
      Log ERROR "Error al inicializar cámara: name 'time' is not defined"],
     Raises (mkExc OtherException "name 'time' is not defined")).
Proof.
  apply (proj1 (proj2 (initialize_camera_as_written
                         Scenario.timeout_turn_as_written eq_refl)));
    reflexivity.
Defined.

End ClientExtras.

(* ================================================================== *)
(** * Further properties of the server *)
(* ================================================================== *)

Module ServerExtras.
Import Py App AppFacts TraceFacts.

(** The calls of libraries and services among the events (all but the log
    lines). *)
Definition is_call (ev : Event) : bool :=
  match ev with
  | Log _ _ => false
  | _ => true
  end.

(** [l] is an initial segment of [full]. *)
Definition prefix_of {A : Type} (l full : list A) : Prop :=
  exists rest, l ++ rest = full.

Lemma prefix_of_nil {A : Type} (full : list A) : prefix_of [] full.
Proof. now exists full. Qed.

Lemma prefix_of_cons {A : Type} (x : A) (l full : list A) :
  prefix_of l full -> prefix_of (x :: l) (x :: full).
Proof. intros [rest <-]. now exists rest. Qed.

Lemma prefix_of_refl {A : Type} (l : list A) : prefix_of l l.
Proof. exists []. apply app_nil_r. Qed.

Lemma events_try_except_quiet {E A : Type} (P : E -> bool)
    (handles : ExcClass -> bool) (m : M E A) (h : PyExc -> M E A) :
  (forall e, events P (h e) = []) ->
  events P (try_except handles m h) = events P m.
Proof.
  intros Hh. rewrite events_try_except.
  destruct (outcome m) as [a|e]; [ apply app_nil_r | ].
  destruct (handles (exc_class e)); [ rewrite Hh | ]; apply app_nil_r.
Qed.

Lemma alert_calls (w : World) (image : ndarray) (dets : DataFrame) :
  exists url chat caption photo,
    prefix_of (events is_call (send_telegram_alert w image dets))
      [Imencode image; Post url chat caption photo].
Proof.
  unfold send_telegram_alert.
  destruct (empty (filter not_imprimiendo dets)).
  { exists "", "", "", []. apply prefix_of_nil. }
  destruct (cv2_imencode w image) as [[[|] buffer]|msg].
  - exists (sendPhoto_url w), (CHAT_ID w),
      (fold_left message_add (filter not_imprimiendo dets) message_header), buffer.
    cbn [negb bind lib outcome_of_lib].
    destruct (requests_post w _ _ _ buffer) as [[status_code text]|msg].
    + cbn. destruct (status_code =? 200)%Z; apply prefix_of_refl.
    + apply prefix_of_refl.
  - exists "", "", "", []. now exists [Post "" "" "" []].
  - exists "", "", "", []. now exists [Post "" "" "" []].
Qed.

Lemma info_line_calls (verbose : bool) (msg : string) :
  filter is_call (info_line verbose msg) = [].
Proof. now destruct verbose. Qed.

Lemma process_results_calls (verbose : bool) (w : World) (results : Results) :
  exists rendered url chat caption photo,
    prefix_of (events is_call (process_results verbose w results))
      [Render; Imencode rendered; Post url chat caption photo].
Proof.
  destruct (xyxy0 results) as [|row dets] eqn:Hx.
  { rewrite (process_results_empty verbose w results Hx).
    exists (mk_ndarray [] []), "", "", "", []. apply prefix_of_nil. }
  assert (Hne : xyxy0 results <> []) by (rewrite Hx; discriminate).
  destruct (empty (filter not_imprimiendo (xyxy0 results))) eqn:Hf.
  { rewrite (process_results_normal verbose w results Hne Hf).
    exists (mk_ndarray [] []), "", "", "", [].
    unfold events. cbn [trace fst]. rewrite info_line_calls. apply prefix_of_nil. }
  destruct (render results) as [rendered|msg] eqn:Hr.
  - rewrite (process_results_error verbose w results rendered Hf Hr).
    destruct (alert_calls w rendered (xyxy0 results))
      as (url & chat & caption & photo & Ha).
    exists rendered, url, chat, caption, photo.
    unfold events in *. cbn [trace fst filter is_call].
    rewrite filter_app, info_line_calls, app_nil_r.
    now apply prefix_of_cons.
  - rewrite (process_results_render_fails verbose w results msg Hf Hr).
    exists (mk_ndarray [] []), "", "", "", [].
    now exists [Imencode (mk_ndarray [] []); Post "" "" "" []].
Qed.

(** The calls after a successful decoding. *)
Lemma detect_calls (m : Model) (verbose : bool) (w : World) (image : ndarray) :
  exists rendered url chat caption photo,
    prefix_of
      (events is_call
         (bind (lib (Detect image) (m image)) (fun results =>
          process_results verbose w results)))
      [Detect image; Render; Imencode rendered; Post url chat caption photo].
Proof.
  rewrite events_bind. cbn [lib outcome snd events trace fst filter is_call app].
  destruct (m image) as [results|msg]; cbn [outcome_of_lib].
  - destruct (process_results_calls verbose w results)
      as (rendered & url & chat & caption & photo & H).
    exists rendered, url, chat, caption, photo. now apply prefix_of_cons.
  - exists (mk_ndarray [] []), "", "", "", [].
    now exists [Render; Imencode (mk_ndarray [] []); Post "" "" "" []].
Qed.

Ltac no_calls :=
  exists [], (mk_ndarray [] []), (mk_ndarray [] []), "", "", "", [];
  apply prefix_of_nil.

(** X11.  One request causes at most one decoding, one run of the
    detector, one rendering, one encoding and one message to the chat
    service, in this order and each only after the previous one: the
    library calls in the trace of any request form an initial segment of
    that chain.  The health check calls nothing. *)
Theorem one_request_one_alert (model : option Model) (w : World) (r : Request) :
  (exists buf image rendered url chat caption photo,
     prefix_of (events is_call (app model w r))
       [Imdecode buf; Detect image; Render; Imencode rendered;
        Post url chat caption photo])
  /\ trace (app model w GET_root) = [].
Proof.
  split; [ | reflexivity ].
  destruct r as [ | request | request ]; [ no_calls | | ].
  - unfold app, detect_errors.
    rewrite events_try_except_quiet by (intros e; reflexivity).
    destruct model as [m|]; [ | no_calls ].
    destruct (files_image request) as [file|]; [ | no_calls ].
    destruct (String.eqb (filename file) ""); [ no_calls | ].
    cbv zeta. rewrite events_bind.
    cbn [lib outcome snd events trace fst filter is_call app].
    destruct (cv2_imdecode w (read file)) as [[image|]|msg]; cbn [outcome_of_lib].
    + destruct (detect_calls m true w image)
        as (rendered & url & chat & caption & photo & H).
      exists (read file), image, rendered, url, chat, caption, photo.
      now apply prefix_of_cons.
    + exists (read file), (mk_ndarray [] []), (mk_ndarray [] []), "", "", "", [].
      eexists. reflexivity.
    + exists (read file), (mk_ndarray [] []), (mk_ndarray [] []), "", "", "", [].
      eexists. reflexivity.
  - unfold app, detect_errors_base64.
    rewrite events_try_except_quiet by (intros e; reflexivity).
    destruct model as [m|]; [ | no_calls ].
    rewrite events_bind. cbn [outcome snd events trace fst filter app].
    destruct (get_json request) as [data|msg]; cbn [outcome_of_lib]; [ | no_calls ].
    destruct (lacks_image data) as [[|]|msg];
      [ no_calls | | cbn -[process_results]; no_calls ].
    rewrite events_bind.
    cbn [outcome snd outcome_of_lib events trace fst filter app].
    destruct (getitem_image data) as [field|msg];
      [ cbn [bind outcome_of_lib] | cbn -[process_results]; no_calls ].
    destruct (decode_image_field field) as [buf|msg];
      [ | cbn -[process_results]; no_calls ].
    destruct (cv2_imdecode w buf) as [[image|]|msg] eqn:Himg.
    + destruct (detect_calls m false w image)
        as (rendered & url & chat & caption & photo & H).
      exists buf, image, rendered, url, chat, caption, photo.
      rewrite events_bind. cbn [bind outcome_of_lib lib]. rewrite Himg.
      cbn [bind outcome_of_lib lib try_except ret outcome snd events trace fst
           filter is_call app].
      exact (prefix_of_cons _ _ _ H).
    + exists buf, (mk_ndarray [] []), (mk_ndarray [] []), "", "", "", [].
      cbn -[process_results]. rewrite Himg. cbn -[process_results].
      eexists. reflexivity.
    + exists buf, (mk_ndarray [] []), (mk_ndarray [] []), "", "", "", [].
      cbn -[process_results]. rewrite Himg. cbn -[process_results].
      eexists. reflexivity.
Qed.


(** [int(x)] lies between zero and [x]: its magnitude is the integer part
    of the magnitude of [x]. *)
Lemma int_of_float_truncates (x : pyfloat) :
  (Z.abs (int_of_float x) * Z.of_N (snd (ratio x)) <= Z.of_N (fst (ratio x))
   < (Z.abs (int_of_float x) + 1) * Z.of_N (snd (ratio x)))%Z
  /\ (if f_neg x then (int_of_float x <= 0)%Z else (0 <= int_of_float x)%Z).
Proof.
  unfold int_of_float. pose proof (PyFacts.ratio_den_pos x) as Hd.
  destruct (ratio x) as [n d]. cbn [fst snd] in *.
  pose proof (N.div_mod' n d) as E.
  pose proof (N.mod_lt n d ltac:(lia)) as Hr.
  set (q := (n / d)%N) in *. set (r := (n mod d)%N) in *. clearbody q r.
  destruct (f_neg x).
  - rewrite Z.abs_opp, Z.abs_eq by lia. split; [ nia | lia ].
  - rewrite Z.abs_eq by lia. split; [ nia | lia ].
Qed.

(** X12.  In every 200 answer to a request whose image decoded,
    [detections_found] is the number of rows of the detector's data frame
    and [detections] holds one record per row, in order, "imprimiendo"
    rows included (the batch is not filtered for the response); each
    coordinate is the row's coordinate truncated toward zero. *)
Theorem detections_mirror_batch
    (m : Model) (w : World) (r : Request) (buf : bytes) (image : ndarray)
    (results : Results) (t : list Event) (resp : Response) :
  delivers r buf ->
  cv2_imdecode w buf = Ok (Some image) ->
  m image = Ok results ->
  app (Some m) w r = (t, Returns resp) ->
  http_status resp = 200%Z ->
  response_detections_found resp = Some (List.length (xyxy0 results))
  /\ response_detections resp = Some (map detection_of_row (xyxy0 results))
  /\ (forall row, In row (xyxy0 results) ->
        In (mkDetection (name row) (confidence row)
              (mkCoordinates (int_of_float (xmin row)) (int_of_float (ymin row))
                 (int_of_float (xmax row)) (int_of_float (ymax row))))
           (map detection_of_row (xyxy0 results)))
  /\ (forall x : pyfloat,
        (Z.abs (int_of_float x) * Z.of_N (snd (ratio x)) <= Z.of_N (fst (ratio x))
         < (Z.abs (int_of_float x) + 1) * Z.of_N (snd (ratio x)))%Z
        /\ (if f_neg x then (int_of_float x <= 0)%Z else (0 <= int_of_float x)%Z)).
Proof.
  intros Hd Himg Hm Happ Hs.
  assert (Hfields :
    response_detections_found resp = Some (List.length (xyxy0 results))
    /\ response_detections resp = Some (map detection_of_row (xyxy0 results))).
  { destruct (xyxy0 results) as [|row dets] eqn:Hx.
    - rewrite (app_detected m w r buf image results _ _ Hd Himg Hm
                 (process_results_empty _ w results Hx)) in Happ.
      injection Happ as _ <-. split; reflexivity.
    - rewrite <- Hx in *.
      assert (Hne : xyxy0 results <> []) by (rewrite Hx; discriminate).
      destruct (empty (filter not_imprimiendo (xyxy0 results))) eqn:Hf.
      + rewrite (app_detected m w r buf image results _ _ Hd Himg Hm
                   (process_results_normal _ w results Hne Hf)) in Happ.
        injection Happ as _ <-. split; reflexivity.
      + destruct (render results) as [rendered|msg] eqn:Hr.
        * rewrite (app_detected m w r buf image results _ _ Hd Himg Hm
                     (process_results_error _ w results rendered Hf Hr)) in Happ.
          injection Happ as _ <-. split; reflexivity.
        * destruct (app_detected_raises m w r buf image results _ msg Hd Himg Hm
                      (process_results_render_fails _ w results msg Hf Hr))
            as (t' & j & E).
          rewrite E in Happ. injection Happ as _ <-. discriminate. }
  destruct Hfields as [H1 H2].
  split; [ exact H1 | ]. split; [ exact H2 | ]. split.
  - intros row Hin. apply (in_map detection_of_row) in Hin. exact Hin.
  - apply int_of_float_truncates.
Qed.

(** X12, witness: a batch with "imprimiendo" and "stringing", uploaded as a
    file; both rows are in the answer. *)
Lemma detections_mirror_batch_witness :
  exists resp,
    outcome (app (Some (Scenario.detector
                          [Scenario.imprimiendo_row; Scenario.stringing_row]))
               Scenario.usual_world (Wire.multipart_upload Scenario.jpeg))
    = Returns resp
    /\ response_detections_found resp = Some 2%nat
    /\ response_detections resp
       = Some (map detection_of_row
                 [Scenario.imprimiendo_row; Scenario.stringing_row]).
Proof.
  exists (mkResponse
            (DataJson
               (mkResponseData 2
                  (map detection_of_row
                     [Scenario.imprimiendo_row; Scenario.stringing_row])
                  true "error_detected")) 200).
  split; [ reflexivity | ].
  destruct (detections_mirror_batch
              (Scenario.detector [Scenario.imprimiendo_row; Scenario.stringing_row])
              Scenario.usual_world (Wire.multipart_upload Scenario.jpeg) Scenario.jpeg
              Scenario.frame
              (mkResults [Scenario.imprimiendo_row; Scenario.stringing_row]
                 (Ok Scenario.annotated))
              (trace (app (Some (Scenario.detector
                                   [Scenario.imprimiendo_row; Scenario.stringing_row]))
                        Scenario.usual_world (Wire.multipart_upload Scenario.jpeg)))
              _
              (delivers_multipart (mkFile "capture.jpg" Scenario.jpeg)
                 ltac:(discriminate))
              eq_refl eq_refl eq_refl eq_refl) as (H1 & H2 & _).
  split; [ exact H1 | exact H2 ].
Defined.

Lemma b64encode_length (data : bytes) :
  String.length (b64encode data) = (4 * ((List.length data + 2) / 3))%nat.
Proof.
  induction data as [ | a | a b | a b c rest IH ] using Base64Facts.list_ind3;
    try reflexivity.
  rewrite Base64Facts.b64encode_group. cbn [String.length List.length].
  rewrite IH.
  replace (S (S (S (List.length rest))) + 2)%nat
    with (List.length rest + 2 + 1 * 3)%nat by lia.
  rewrite Nat.div_add by lia. lia.
Qed.

(** X13.  What the client puts in the [image] field decodes on the server
    to the bytes it encoded, with the [data:] prefix and without it; so
    different frames never share a field.  The base64 text is four
    characters for every three bytes, rounded up. *)
Theorem image_field_round_trip (buffer : bytes) :
  decode_image_field (JString (Client.data_uri buffer)) = Ok buffer
  /\ decode_image_field (JString (b64encode buffer)) = Ok buffer
  /\ (forall other, Client.data_uri buffer = Client.data_uri other -> buffer = other)
  /\ String.length (b64encode buffer) = (4 * ((List.length buffer + 2) / 3))%nat.
Proof.
  split; [ apply data_uri_decodes | ].
  split; [ apply raw_base64_decodes | ].
  split; [ | apply b64encode_length ].
  intros other H.
  pose proof (data_uri_decodes buffer) as H1.
  rewrite H, data_uri_decodes in H1. now injection H1.
Qed.

Lemma str_split_cons_sep (c : ascii) (pre s : string) :
  str_contains c pre = false ->
  str_split c (pre ++ String c s)%string = pre :: str_split c s.
Proof.
  intros Hpre. induction pre as [|a pre IH].
  - cbn [append str_split]. now rewrite Ascii.eqb_refl.
  - cbn [str_contains] in Hpre. apply orb_false_iff in Hpre.
    destruct Hpre as [Ha Hpre].
    cbn [append str_split]. rewrite Ha, (IH Hpre). reflexivity.
Qed.

Lemma str_split_head (c : ascii) (s : string) :
  exists p ps, str_split c s = p :: ps.
Proof.
  induction s as [|a s (p & ps & IH)]; cbn [str_split]; [ eauto | ].
  destruct (Ascii.eqb a c); [ eauto | ]. rewrite IH. eauto.
Qed.

(** X14.  When the [image] field contains a comma, only the text between
    the first and the second comma is decoded: whatever stands before the
    first comma is not checked, and whatever follows a second comma is
    dropped. *)
Theorem image_field_second_segment (pre payload rest : string) :
  str_contains "," pre = false ->
  str_contains "," payload = false ->
  decode_image_field (JString (pre ++ "," ++ payload)) = b64decode payload
  /\ decode_image_field (JString (pre ++ "," ++ payload ++ "," ++ rest))
     = b64decode payload.
Proof.
  intros Hpre Hpay. unfold decode_image_field. split.
  - rewrite Base64Facts.str_contains_app. cbn [append str_contains].
    rewrite Ascii.eqb_refl, orb_true_r.
    rewrite (Base64Facts.str_split_at_sep "," pre payload Hpre Hpay).
    reflexivity.
  - rewrite Base64Facts.str_contains_app. cbn [append str_contains].
    rewrite Ascii.eqb_refl, orb_true_r.
    rewrite (str_split_cons_sep "," pre _ Hpre).
    rewrite (str_split_cons_sep "," payload _ Hpay).
    reflexivity.
Qed.

(** X14, witness: a field with a made-up header and a trailing segment. *)
Lemma image_field_second_segment_witness :
  decode_image_field (JString "anything,TWFu,ignored") = Ok ["M"; "a"; "n"]%byte.
Proof.
  exact (proj2 (image_field_second_segment "anything" "TWFu" "ignored"
                  eq_refl eq_refl)).
Defined.

(** X15.  [load_model] never raises; it returns a handle exactly when the
    model file exists and loading it succeeded.  The health check reports
    exactly that in [model_loaded], always with status 200, and without
    a handle no POST reaches the decoder. *)
Theorem service_reports_its_detector
    (path_exists : bool) (hub_load : LibResult Model) (w : World) :
  exists model : option Model,
    outcome (load_model path_exists hub_load) = Returns model
    /\ (forall m, model = Some m <-> path_exists = true /\ hub_load = Ok m)
    /\ (exists st,
          app model w GET_root
          = ([], Returns
                   (mkResponse
                      (HealthJson st
                         "Servidor de detección de errores en impresión 3D"
                         (match model with Some _ => true | None => false end))
                      200)))
    /\ (model = None ->
        forall r, r <> GET_root ->
          app model w r
          = ([], Returns (mkResponse (ErrorJson "Modelo no disponible") 500))).
Proof.
  destruct path_exists.
  - destruct hub_load as [m0|msg].
    + exists (Some m0). split; [ reflexivity | ]. split; [ | split ].
      * intros m. split; [ intros H; injection H as <-; auto | ].
        intros [_ H]. now injection H as <-.
      * eexists. reflexivity.
      * discriminate.
    + exists None. split; [ reflexivity | ]. split; [ | split ].
      * intros m. split; [ discriminate | intros [_ H]; discriminate ].
      * eexists. reflexivity.
      * intros _ r Hr. now apply app_no_model_post.
  - exists None. split; [ reflexivity | ]. split; [ | split ].
    + intros m. split; [ discriminate | intros [H _]; discriminate ].
    + eexists. reflexivity.
    + intros _ r Hr. now apply app_no_model_post.
Qed.

(** The line the dispatcher logs when it finds nothing to report. *)
Definition is_skip_line (ev : Event) : bool :=
  match ev with
  | Log INFO msg =>
      String.eqb msg
        "No se envía alerta: solo se detectó 'imprimiendo' (estado normal)"
  | _ => false
  end.

Lemma alert_not_skipped (w : World) (image : ndarray) (dets : DataFrame) :
  empty (filter not_imprimiendo dets) = false ->
  silent is_skip_line (send_telegram_alert w image dets).
Proof.
  intros H. unfold send_telegram_alert. rewrite H.
  unfold logger_info, logger_error. silence.
Qed.

Lemma process_results_never_skips (verbose : bool) (w : World) (results : Results) :
  silent is_skip_line (process_results verbose w results).
Proof.
  destruct (xyxy0 results) as [|row dets] eqn:Hx.
  { now rewrite (process_results_empty verbose w results Hx). }
  assert (Hne : xyxy0 results <> []) by (rewrite Hx; discriminate).
  destruct (empty (filter not_imprimiendo (xyxy0 results))) eqn:Hf.
  { rewrite (process_results_normal verbose w results Hne Hf).
    now destruct verbose. }
  destruct (render results) as [rendered|msg] eqn:Hr.
  - rewrite (process_results_error verbose w results rendered Hf Hr).
    unfold silent, events. cbn [trace fst filter is_skip_line].
    rewrite filter_app.
    pose proof (alert_not_skipped w rendered (xyxy0 results) Hf) as Ha.
    unfold silent, events in Ha. rewrite Ha.
    now destruct verbose.
  - now rewrite (process_results_render_fails verbose w results msg Hf Hr).
Qed.

(** X16.  The handlers call the dispatcher only with a batch that holds a
    non-sentinel row, so the dispatcher's own "nothing to report" branch
    never runs under them: its log line appears in the trace of no
    request, although a direct call with a sentinel-only batch writes it. *)
Theorem dispatcher_skip_branch_is_unreachable :
  (forall (model : option Model) (w : World) (r : Request),
     ~ In (Log INFO "No se envía alerta: solo se detectó 'imprimiendo' (estado normal)")
          (trace (app model w r)))
  /\ (forall (w : World) (image : ndarray),
        In (Log INFO "No se envía alerta: solo se detectó 'imprimiendo' (estado normal)")
           (trace (send_telegram_alert w image [Scenario.imprimiendo_row]))).
Proof.
  split; [ | intros w image; now left ].
  intros model w r Hin.
  assert (Hs : silent is_skip_line (app model w r)).
  { destruct r as [ | request | request ]; [ reflexivity | | ].
    - unfold app, detect_errors, logger_error.
      apply silent_try_except; [ | intros e; silence ].
      destruct model as [m|]; [ | silence ].
      destruct (files_image request) as [file|]; [ | silence ].
      destruct (String.eqb (filename file) ""); [ silence | ].
      cbv zeta. apply silent_bind; [ silence | intros [image|]; [ | silence ] ].
      apply silent_bind; [ silence | intros results ].
      apply process_results_never_skips.
    - unfold app, detect_errors_base64, logger_error.
      apply silent_try_except; [ | intros e; silence ].
      destruct model as [m|]; [ | silence ].
      apply silent_bind; [ silence | intros data ].
      apply silent_bind; [ silence | intros [|]; [ silence | ] ].
      apply silent_bind; [ silence | intros [early|[image|]] ];
        [ silence | | silence ].
      apply silent_bind; [ silence | intros results ].
      apply process_results_never_skips. }
  unfold silent, events in Hs.
  assert (H : In (Log INFO "No se envía alerta: solo se detectó 'imprimiendo' (estado normal)")
                (filter is_skip_line (trace (app model w r)))).
  { apply filter_In. split; [ exact Hin | reflexivity ]. }
  rewrite Hs in H. exact H.
Qed.

(** When the dispatcher reports success: the batch has a row to report,
    the picture was encoded, and the chat service answered 200. *)
Lemma alert_result_true (w : World) (image : ndarray) (dets : DataFrame) :
  alert_result w image dets = true <->
  filter not_imprimiendo dets <> []
  /\ exists buffer text,
       cv2_imencode w image = Ok (true, buffer)
       /\ requests_post w (sendPhoto_url w) (CHAT_ID w)
            (fold_left message_add (filter not_imprimiendo dets) message_header)
            buffer = Ok (200%Z, text).
Proof.
  unfold alert_result.
  destruct (filter not_imprimiendo dets) as [|row rows] eqn:Hf.
  { split; [ discriminate | intros [H _]; now destruct H ]. }
  destruct (cv2_imencode w image) as [[[|] buffer]|msg] eqn:He.
  - destruct (requests_post w (sendPhoto_url w) (CHAT_ID w)
                (fold_left message_add (row :: rows) message_header) buffer)
      as [[status_code text]|msg] eqn:Hp.
    + split.
      * intros H. apply Z.eqb_eq in H. subst status_code.
        split; [ discriminate | ]. exists buffer, text. split; [ reflexivity | exact Hp ].
      * intros (_ & buffer' & text' & Hb & Hp').
        injection Hb as <-. rewrite Hp in Hp'. injection Hp' as -> _. reflexivity.
    + split; [ discriminate | ].
      intros (_ & buffer' & text' & Hb & Hp').
      injection Hb as <-. rewrite Hp in Hp'. discriminate.
  - split; [ discriminate | ]. intros (_ & buffer' & text' & Hb & _). discriminate.
  - split; [ discriminate | ]. intros (_ & buffer' & text' & Hb & _). discriminate.
Qed.

(** X17.  In a 200 answer to a request whose image decoded, [alert_sent] is
    true exactly when the batch holds a non-sentinel row, the annotated
    picture was rendered and encoded, and the chat service answered the
    post with 200.  A failed alert does not fail the request: whenever the
    batch holds a non-sentinel row the 200 answer has status
    "error_detected", with [alert_sent] false if the alert was not
    delivered. *)
Theorem alert_sent_means_delivered
    (m : Model) (w : World) (r : Request) (buf : bytes) (image : ndarray)
    (results : Results) (t : list Event) (resp : Response) :
  delivers r buf ->
  cv2_imdecode w buf = Ok (Some image) ->
  m image = Ok results ->
  app (Some m) w r = (t, Returns resp) ->
  http_status resp = 200%Z ->
  (response_alert_sent resp = Some true <->
   filter not_imprimiendo (xyxy0 results) <> []
   /\ exists rendered buffer text,
        render results = Ok rendered
        /\ cv2_imencode w rendered = Ok (true, buffer)
        /\ requests_post w (sendPhoto_url w) (CHAT_ID w)
             (fold_left message_add (filter not_imprimiendo (xyxy0 results))
                message_header)
             buffer = Ok (200%Z, text))
  /\ (response_alert_sent resp <> Some true -> response_alert_sent resp = Some false)
  /\ (filter not_imprimiendo (xyxy0 results) <> [] ->
      response_status resp = Some "error_detected").
Proof.
  intros Hd Himg Hm Happ Hs.
  destruct (xyxy0 results) as [|row dets] eqn:Hx.
  - rewrite (app_detected m w r buf image results _ _ Hd Himg Hm
               (process_results_empty _ w results Hx)) in Happ.
    injection Happ as _ <-. cbn.
    split; [ | split; [ reflexivity | intros H; now destruct H ] ].
    split; [ discriminate | intros [H _]; now destruct H ].
  - rewrite <- Hx in *.
    assert (Hne : xyxy0 results <> []) by (rewrite Hx; discriminate).
    destruct (empty (filter not_imprimiendo (xyxy0 results))) eqn:Hf.
    + rewrite (app_detected m w r buf image results _ _ Hd Himg Hm
                 (process_results_normal _ w results Hne Hf)) in Happ.
      injection Happ as _ <-. cbn.
      assert (Hnil : filter not_imprimiendo (xyxy0 results) = []).
      { destruct (filter not_imprimiendo (xyxy0 results)); [ reflexivity | discriminate ]. }
      split; [ | split; [ reflexivity | intros H; now destruct H ] ].
      split; [ discriminate | intros [H _]; now destruct H ].
    + destruct (render results) as [rendered|msg] eqn:Hr.
      * rewrite (app_detected m w r buf image results _ _ Hd Himg Hm
                   (process_results_error _ w results rendered Hf Hr)) in Happ.
        injection Happ as _ <-. cbn.
        split; [ | split; [ | reflexivity ] ].
        -- split.
           ++ intros H. injection H as H. apply alert_result_true in H.
              destruct H as (Hn & buffer & text & He & Hp).
              split; [ exact Hn | ]. exists rendered, buffer, text. auto.
           ++ intros (Hn & rendered' & buffer & text & Hr' & He & Hp).
              injection Hr' as <-. f_equal. apply alert_result_true.
              split; [ exact Hn | ]. exists buffer, text. auto.
        -- intros H. destruct (alert_result w rendered (xyxy0 results));
             [ now destruct H | reflexivity ].
      * destruct (app_detected_raises m w r buf image results _ msg Hd Himg Hm
                    (process_results_render_fails _ w results msg Hf Hr))
          as (t' & j & E).
        rewrite E in Happ. injection Happ as _ <-. discriminate.
Qed.

(** X17, witness: the chat service is down; the request is still answered
    200 with status "error_detected", and [alert_sent] is false. *)
Lemma alert_sent_means_delivered_witness :
  exists resp,
    outcome (app (Some (Scenario.detector [Scenario.stringing_row]))
               Scenario.telegram_down (Wire.base64_upload Scenario.jpeg))
    = Returns resp
    /\ http_status resp = 200%Z
    /\ response_alert_sent resp = Some false
    /\ response_status resp = Some "error_detected".
Proof.
  eexists. split; [ reflexivity | ]. split; [ reflexivity | ].
  destruct (alert_sent_means_delivered
              (Scenario.detector [Scenario.stringing_row])
              Scenario.telegram_down (Wire.base64_upload Scenario.jpeg) Scenario.jpeg
              Scenario.frame
              (mkResults [Scenario.stringing_row] (Ok Scenario.annotated))
              _ _
              (delivers_base64 [("image", JString (Client.data_uri Scenario.jpeg))]
                 _ _ eq_refl (data_uri_decodes Scenario.jpeg))
              eq_refl eq_refl eq_refl eq_refl) as (_ & H2 & H3).
  split; [ apply H2; discriminate | apply H3; discriminate ].
Defined.

End ServerExtras.
